(** * Blaze Content Forge: a shallow embedding of the generator and its web handlers

    Sources embedded here:
    - [backend/blaze_content_forge.py]: the [ContentForge] class (module [ContentForge]);
    - [backend/app.py] and [server.py]: the Flask route handlers (modules [App], [Server]).

    Python values are modelled as follows.
    - [str] is a sequence of Unicode code points ([list N]); literals are written as
      UTF-8 text and decoded by [py].
    - [int] is [Z]; [len] is [Z.of_nat (length _)].
    - the literal dicts of the class (HOOKS, HASHTAGS, ...) are association lists in
      source order; the mutable [brands] dict is a [gmap].
    - exceptions are values of [exn]; a method is a computation in the monad [M],
      which threads the forge object, the state of the [random] module and returns
      either a result or the exception raised. *)

From Stdlib Require Import ZArith NArith List String Ascii Lia Bool.
From stdpp Require Import base option list gmap.

Local Open Scope Z_scope.

(** ** Python strings *)

Module PyStr.

Definition char := N.
Definition str := list N.

(** Decoding of a UTF-8 byte sequence into code points, used for literals only. *)
Fixpoint utf8_decode (bs : list N) : str :=
  match bs with
  | [] => []
  | b0 :: r0 =>
    if (b0 <? 128)%N then b0 :: utf8_decode r0
    else if (b0 <? 224)%N then
      match r0 with
      | b1 :: r1 => (N.land b0 31 * 64 + N.land b1 63)%N :: utf8_decode r1
      | _ => []
      end
    else if (b0 <? 240)%N then
      match r0 with
      | b1 :: b2 :: r2 =>
        (N.land b0 15 * 4096 + N.land b1 63 * 64 + N.land b2 63)%N :: utf8_decode r2
      | _ => []
      end
    else
      match r0 with
      | b1 :: b2 :: b3 :: r3 =>
        (N.land b0 7 * 262144 + N.land b1 63 * 4096 + N.land b2 63 * 64 + N.land b3 63)%N
          :: utf8_decode r3
      | _ => []
      end
  end.

Definition py (s : string) : str :=
  utf8_decode (map N_of_ascii (list_ascii_of_string s)).

Definition len {A} (l : list A) : Z := Z.of_nat (length l).

Definition char_eqb (a b : char) : bool := (a =? b)%N.

Fixpoint startswith (p s : str) : bool :=
  match p, s with
  | [], _ => true
  | a :: p', b :: s' => char_eqb a b && startswith p' s'
  | _ :: _, [] => false
  end.

(** [needle in hay] on strings: substring test. *)
Fixpoint contains (needle hay : str) : bool :=
  startswith needle hay ||
  match hay with
  | [] => false
  | _ :: hay' => contains needle hay'
  end.

(** [s.replace(old, new)]: left to right, non-overlapping. [skip] counts the
    characters of a matched occurrence still to be dropped. *)
Fixpoint replace_from (old new : str) (skip : nat) (s : str) : str :=
  match s with
  | [] => []
  | c :: s' =>
    match skip with
    | S k => replace_from old new k s'
    | O =>
      if startswith old s
      then new ++ replace_from old new (length old - 1) s'
      else c :: replace_from old new 0 s'
    end
  end.

Definition replace (old new s : str) : str :=
  match old with
  | [] => new ++ flat_map (fun c => c :: new) s
  | _ :: _ => replace_from old new 0 s
  end.

(** [l[:n]] for a Python int [n]: a negative bound counts from the end. *)
Definition slice_to {A} (n : Z) (l : list A) : list A :=
  if 0 <=? n then take (Z.to_nat n) l
  else take (length l - Z.to_nat (- n)) l.

(** ['\n'.join(parts)] and friends. *)
Fixpoint join (sep : str) (parts : list str) : str :=
  match parts with
  | [] => []
  | [p] => p
  | p :: rest => p ++ sep ++ join sep rest
  end.

(** Lookup in a dict literal: the last binding of a key wins. *)
Fixpoint dict_get {V} (d : list (str * V)) (k : str) : option V :=
  match d with
  | [] => None
  | (k', v) :: d' =>
    match dict_get d' k with
    | Some w => Some w
    | None => if decide (k' = k) then Some v else None
    end
  end.

Definition dict_get_default {V} (d : list (str * V)) (k : str) (dflt : V) : V :=
  default dflt (dict_get d k).

End PyStr.
Import PyStr.

(** ** Exceptions *)

Inductive exn :=
| ValueError (msg : str)
| KeyError (key : str)
| IndexError (msg : str)
| TypeError (msg : str)
| AttributeError (msg : str)
| OverflowError (msg : str)
| HTTPException (description : str).

Definition exn_or_str : Type := exn + str.

(** The pieces of the Python runtime that depend on Unicode tables, on the
    calendar or on the full format mini-language are parameters of the
    development. The two laws state what the Unicode tables say about ASCII. *)
Record Platform := {
  str_lower : str -> str;
  str_upper : str -> str;
  str_title : str -> str;
  str_repr : str -> str;
  is_space : char -> bool;              (* Py_UNICODE_ISSPACE *)
  to_decimal : char -> option Z;        (* Py_UNICODE_TODECIMAL *)
  format_field : str -> list (str * str) -> exn_or_str;
      (* a replacement field with a conversion, a format spec, an attribute or
         an index, rendered against the keyword arguments *)
  strftime_date : Z -> str;             (* '%Y-%m-%d' of the day with that ordinal *)
  strftime_day : Z -> str;              (* '%A' *)
  to_decimal_ascii : forall c, (c < 128)%N ->
    to_decimal c = if ((48 <=? c) && (c <=? 57))%N then Some (Z.of_N c - 48) else None;
  is_space_ascii : forall c, (c < 128)%N ->
    is_space c = ((9 <=? c) && (c <=? 13) || (28 <=? c) && (c <=? 32))%N
}.

(** ** The dataclasses of blaze_content_forge.py *)

(** A slide is a dict with some of the keys type, number, title, text, style. *)
Record Slide := {
  s_type : str;
  s_number : option Z;
  s_title : option str;
  s_text : option str;
  s_style : option str
}.

Record ContentPiece := {
  content_type : str;
  title : str;
  slides : list Slide;
  caption : str;
  hashtags : list str;
  hook : str;
  cta : str;
  engagement_score : Z;
  best_posting_time : str;
  brand_voice : str
}.

Record BrandProfile := {
  name : str;
  industry : str;
  voice : str;
  target_audience : str;
  color_scheme : list str;
  content_pillars : list str;
  posting_frequency : Z
}.

(** One entry of the list returned by [generate_content_calendar]. *)
Record DayRecord := {
  d_date : str;
  d_day : str;
  d_content_type : str;
  d_title : str;
  d_topic : str;
  d_engagement_score : Z;
  d_best_time : str;
  d_caption_preview : str;
  d_hashtags : list str
}.

(** ** The monad of methods *)

Module Runtime.

(** The instance attributes set by [__init__]. *)
Record Forge := {
  brands : gmap str BrandProfile;
  content_history : list ContentPiece
}.

(** What a call can observe and change: the forge object, the state of the
    [random] module (the draws still to come) and the clock ([datetime.now()]
    as a day ordinal). *)
Record world := {
  self : Forge;
  rng : list nat;
  clock : Z
}.

Inductive outcome (A : Type) :=
| Return (a : A)
| Raise (e : exn).
Arguments Return {A} a.
Arguments Raise {A} e.

Definition M (A : Type) : Type := world -> outcome A * world.

Definition ret {A} (a : A) : M A := fun w => (Return a, w).

Definition bind {A B} (m : M A) (k : A -> M B) : M B :=
  fun w =>
    match m w with
    | (Return a, w') => k a w'
    | (Raise e, w') => (Raise e, w')
    end.

Definition raise {A} (e : exn) : M A := fun w => (Raise e, w).

(** [try: body except KeyError: handler] *)
Definition try_except_KeyError {A} (body handler : M A) : M A :=
  fun w =>
    match body w with
    | (Raise (KeyError _), w') => handler w'
    | r => r
    end.

(** [try: body except Exception as e: handler(e)] *)
Definition try_except {A} (body : M A) (handler : exn -> M A) : M A :=
  fun w =>
    match body w with
    | (Raise e, w') => handler e w'
    | r => r
    end.

Definition lift {A} (r : exn + A) : M A :=
  match r with
  | inl e => raise e
  | inr a => ret a
  end.

Definition get_self : M Forge := fun w => (Return (self w), w).

Definition put_self (f : Forge) : M unit :=
  fun w => (Return tt, {| self := f; rng := rng w; clock := clock w |}).

Definition now : M Z := fun w => (Return (clock w), w).

(** [random.Random._randbelow(n)] for [n > 0]: the next draw, reduced below [n]. *)
Definition randbelow (n : nat) : M nat :=
  fun w =>
    match rng w with
    | [] => (Return 0%nat, w)
    | r :: rs => (Return (r mod n)%nat, {| self := self w; rng := rs; clock := clock w |})
    end.

End Runtime.
Import Runtime.

Notation "'let*' x ':=' m 'in' k" := (bind m (fun x => k))
  (at level 10, x name, m at level 100, k at level 200).

(** ** The [random] module *)

Module Random.

(** [random.choice(seq)] *)
Definition choice {A} (seq : list A) : M A :=
  match seq with
  | [] => raise (IndexError (py "Cannot choose from an empty sequence"))
  | x :: _ =>
    let* i := randbelow (length seq) in
    ret (nth i seq x)
  end.

(** The selection loop of [random.sample] over a pool of [n] live entries:
    [j = randbelow(n-i); result[i] = pool[j]; pool[j] = pool[n-i-1]]. *)
Fixpoint sample_loop {A} (k n : nat) (pool : list A) : M (list A) :=
  match k with
  | O => ret []
  | S k' =>
    let* j := randbelow n in
    match pool !! j, pool !! (n - 1)%nat with
    | Some x, Some last =>
      let* rest := sample_loop k' (n - 1) (<[j := last]> pool) in
      ret (x :: rest)
    | _, _ => raise (IndexError (py "list index out of range"))
    end
  end.

(** [random.sample(population, k)]. CPython selects from a copied pool whenever
    the population has at most 21 entries; every population sampled by the
    forge is a slice of at most 5. *)
Definition sample {A} (population : list A) (k : Z) : M (list A) :=
  if (0 <=? k) && (k <=? len population)
  then sample_loop (Z.to_nat k) (length population) population
  else raise (ValueError (py "Sample larger than population or is negative")).

(** [random.randint(a, b)] *)
Definition randint (a b : Z) : M Z :=
  if a <=? b
  then let* r := randbelow (Z.to_nat (b - a + 1)) in ret (a + Z.of_nat r)
  else raise (ValueError (py "empty range in randrange")).

End Random.

(** ** [str.format] with keyword arguments *)

Module Format.

Inductive segment :=
| Lit (c : char)
| Field (text : str)
| Bad (e : exn).

Definition lbrace : char := 123%N.
Definition rbrace : char := 125%N.

(** The scanner of the format string. [field] is [None] in literal text and
    [Some (depth, acc)] inside a replacement field, with the nesting depth of
    braces and the characters read so far, in reverse. *)
Fixpoint tokenize (field : option (nat * str)) (s : str) : list segment :=
  match field, s with
  | None, [] => []
  | None, c :: s' =>
    if char_eqb c lbrace then
      match s' with
      | [] => [Bad (ValueError (py "Single '{' encountered in format string"))]
      | c' :: s'' =>
        if char_eqb c' lbrace then Lit lbrace :: tokenize None s''
        else tokenize (Some (O, [])) s'
      end
    else if char_eqb c rbrace then
      match s' with
      | [] => [Bad (ValueError (py "Single '}' encountered in format string"))]
      | c' :: s'' =>
        if char_eqb c' rbrace then Lit rbrace :: tokenize None s''
        else [Bad (ValueError (py "Single '}' encountered in format string"))]
      end
    else Lit c :: tokenize None s'
  | Some _, [] => [Bad (ValueError (py "expected '}' before end of string"))]
  | Some (depth, acc), c :: s' =>
    if char_eqb c lbrace then tokenize (Some (S depth, c :: acc)) s'
    else if char_eqb c rbrace then
      match depth with
      | O => Field (rev acc) :: tokenize None s'
      | S d => tokenize (Some (d, c :: acc)) s'
      end
    else tokenize (Some (depth, c :: acc)) s'
  end.

(** Characters that make a replacement field more than a plain name:
    a conversion, a format spec, an attribute, an index or nested braces. *)
Definition special (c : char) : bool :=
  existsb (char_eqb c) [33; 58; 46; 91; 123; 125]%N.

Section Render.
Variable P : Platform.
Variable kwargs : list (str * str).

Definition render_field (text : str) : exn + str :=
  if existsb special text then format_field P text kwargs
  else if forallb (fun c => bool_decide (is_Some (to_decimal P c))) text then
    (* empty (auto-numbered) or numeric: a positional argument, and there is none *)
    inl (IndexError (py "Replacement index " ++ (if text is [] then py "0" else text)
                     ++ py " out of range for positional args tuple"))
  else
    match dict_get kwargs text with
    | Some v => inr v
    | None => inl (KeyError text)
    end.

Fixpoint render (segs : list segment) : exn + str :=
  match segs with
  | [] => inr []
  | Lit c :: rest =>
    match render rest with
    | inr out => inr (c :: out)
    | inl e => inl e
    end
  | Field text :: rest =>
    match render_field text with
    | inl e => inl e
    | inr v =>
      match render rest with
      | inr out => inr (v ++ out)
      | inl e => inl e
      end
    end
  | Bad e :: _ => inl e
  end.

Definition format (template : str) : exn + str :=
  render (tokenize None template).

End Render.

End Format.

(** ** [datetime] and [timedelta] *)

(** A [datetime] is its day ordinal ([toordinal()]): the program prints the
    date and the name of the day, and adds whole days. *)
Module Datetime.

(** [date.max.toordinal()]: the ordinal of 9999-12-31, the last day a
    [datetime] can hold. *)
Definition MAXORDINAL : Z := 3652059.

(** [str(n)] for an int. *)
Fixpoint decimal (fuel : nat) (n : N) (acc : str) : str :=
  match fuel with
  | O => acc
  | S fuel' =>
    let acc' := (48 + n mod 10)%N :: acc in
    if (n <? 10)%N then acc' else decimal fuel' (n / 10) acc'
  end.

Definition str_of_int (n : Z) : str :=
  match n with
  | Z0 => py "0"
  | Zpos p => decimal (Pos.size_nat p) (Npos p) []
  | Zneg p => py "-" ++ decimal (Pos.size_nat p) (Npos p) []
  end.

(** [timedelta(days=days)] *)
Definition timedelta (days : Z) : M Z :=
  if Z.abs days <=? 999999999 then ret days
  else raise (OverflowError (py "days=" ++ str_of_int days
                               ++ py "; must have magnitude <= 999999999")).

(** [date + delta]: past the last day (or before the first) the sum raises. *)
Definition add (date delta : Z) : M Z :=
  let ordinal := date + delta in
  if (0 <? ordinal) && (ordinal <=? MAXORDINAL) then ret ordinal
  else raise (OverflowError (py "date value out of range")).

End Datetime.

(** ** The class [ContentForge] *)

Module ContentForge.
Import Random Format.

Record Template := {
  structure : list str;
  titles : list str
}.

(** The class attributes, read through [self]. *)
Record Class := {
  HOOKS : list (str * list str);
  CAROUSEL_TEMPLATES : list (str * Template);
  CTAS : list str;
  HASHTAGS : list (str * list str)
}.

Definition nl : str := [10%N].

(** [d[k]] on a dict literal. *)
Definition getitem {V} (d : list (str * V)) (k : str) : M V :=
  match dict_get d k with
  | Some v => ret v
  | None => raise (KeyError k)
  end.

(** [list(set(l))]: the duplicates are removed; the order in which Python
    enumerates the set is not determined by the source, and the embedding keeps
    the order of first occurrence. *)
Definition list_set (l : list str) : list str := remove_dups l.

Definition HOOKS_literal : list (str * list str) := [
  (py "ecommerce", [
    py "Stop scrolling if you want to {benefit} 🔥";
    py "The {product} that changed everything for me...";
    py "POV: You finally found {solution}";
    py "3 {things} I wish I knew before {action}";
    py "Unpopular opinion: {opinion} 👇";
    py "Save this if you're struggling with {problem}";
    py "This {product} went viral for a reason...";
    py "The truth about {topic} nobody talks about";
    py "Wait for the transformation... 😱";
    py "Which one are you choosing? {options}"]);
  (py "saas", [
    py "The {tool} that saved me {time} every week";
    py "Stop doing {task} manually (do this instead)";
    py "If you're not using {tool}, you're working too hard";
    py "This automation changed my business forever";
    py "The $0 → ${amount} journey (thread) 🧵";
    py "Bookmark this for your next {project}";
    py "Free tools that work better than paid ones:";
    py "The workflow that 10x'd my productivity"]);
  (py "fitness", [
    py "The only {exercise} you need for {goal}";
    py "3 months ago vs now 💪";
    py "Stop making these {number} mistakes...";
    py "Your {body_part} will thank you for this";
    py "The {number} minute workout that actually works";
    py "Transformation Tuesday hits different when...";
    py "This changed my relationship with {topic}"]);
  (py "food", [
    py "The {number} ingredient {dish} everyone needs";
    py "POV: You finally mastered {recipe}";
    py "Stop ordering takeout and make this instead 👨‍🍳";
    py "This {dish} recipe broke the internet...";
    py "Meal prep Sunday just got easier";
    py "The secret ingredient you never knew you needed";
    py "Restaurant-quality {dish} at home 🏠"]);
  (py "fashion", [
    py "The {item} that goes with EVERYTHING";
    py "How to style {item} {number} ways";
    py "This outfit cost less than your coffee ☕";
    py "The trend I'm taking into {season}";
    py "Capsule wardrobe essentials you actually need";
    py "From desk to dinner in one outfit ✨";
    py "The color combination nobody saw coming"]);
  (py "general", [
    py "The {number} things I learned from {experience}";
    py "Unpopular opinion that might help you: 👇";
    py "If you're reading this, it's a sign to {action}";
    py "The {topic} guide I wish I had sooner";
    py "Stop scrolling and {action} 🔥";
    py "This mindset shift changed everything";
    py "Bookmark this for when you need it 📌"])
].

Definition CAROUSEL_TEMPLATES_literal : list (str * Template) := [
  (py "tips", {|
    structure := [py "hook"; py "intro"; py "tip_1"; py "tip_2"; py "tip_3";
                  py "bonus"; py "cta"];
    titles := [
      py "{number} {topic} Tips That Actually Work";
      py "Save These {topic} Hacks 📌";
      py "The {topic} Guide You Need"] |});
  (py "mistakes", {|
    structure := [py "hook"; py "intro"; py "mistake_1"; py "mistake_2";
                  py "mistake_3"; py "solution"; py "cta"];
    titles := [
      py "Stop Making These {topic} Mistakes 🚫";
      py "{number} Things Ruining Your {topic}";
      py "Mistakes Costing You {cost}"] |});
  (py "steps", {|
    structure := [py "hook"; py "intro"; py "step_1"; py "step_2"; py "step_3";
                  py "step_4"; py "result"; py "cta"];
    titles := [
      py "How to {goal} in {number} Steps";
      py "The {topic} Blueprint 🗺️";
      py "From {start} to {end} (Step-by-Step)"] |});
  (py "mistakes_to_success", {|
    structure := [py "hook"; py "pain_point"; py "mistake_1"; py "mistake_2";
                  py "solution"; py "results"; py "cta"];
    titles := [
      py "How I Fixed My {problem}";
      py "I Was {action} Wrong for Years 😅";
      py "The {topic} Glow-Up Strategy"] |})
].

Definition CTAS_literal : list str := [
  py "Save this for later 📌";
  py "Drop a 🔥 if you agree";
  py "Which one will you try first? 👇";
  py "Share this with someone who needs to see it";
  py "Comment '{keyword}' for the full guide";
  py "Link in bio for more 👆";
  py "Follow for daily {topic} tips";
  py "Tag someone who's struggling with {problem}";
  py "Double tap if this helped you ❤️";
  py "What's your biggest {topic} challenge? Tell me below 👇"
].

Definition HASHTAGS_literal : list (str * list str) := [
  (py "ecommerce", [py "#ecommerce"; py "#shopify"; py "#onlineshop"; py "#smallbusiness";
     py "#entrepreneur"; py "#digitalmarketing"; py "#onlinestore"; py "#dropshipping";
     py "#ecommercebusiness"; py "#marketing"]);
  (py "saas", [py "#saas"; py "#startup"; py "#tech"; py "#software"; py "#b2b";
     py "#growthhacking"; py "#productivity"; py "#automation"; py "#businesstools";
     py "#entrepreneurship"]);
  (py "fitness", [py "#fitness"; py "#workout"; py "#health"; py "#gym"; py "#wellness";
     py "#fitnessmotivation"; py "#healthylifestyle"; py "#training"; py "#fitnessjourney";
     py "#strong"]);
  (py "food", [py "#foodie"; py "#foodblogger"; py "#recipe"; py "#homemade"; py "#cooking";
     py "#foodphotography"; py "#instafood"; py "#healthyfood"; py "#foodstagram";
     py "#yummy"]);
  (py "fashion", [py "#fashion"; py "#style"; py "#ootd"; py "#outfit"; py "#fashionblogger";
     py "#streetstyle"; py "#instafashion"; py "#fashionista"; py "#styleinspo";
     py "#lookbook"]);
  (py "marketing", [py "#marketing"; py "#digitalmarketing"; py "#socialmedia"; py "#branding";
     py "#contentmarketing"; py "#marketingtips"; py "#growth"; py "#socialmediamarketing";
     py "#marketingstrategy"; py "#seo"]);
  (py "general", [py "#instagood"; py "#photooftheday"; py "#love"; py "#instadaily";
     py "#follow"; py "#like"; py "#picoftheday"; py "#beautiful"; py "#happy"; py "#life"])
].

(** The class as it is written in the source. *)
Definition class : Class := {|
  HOOKS := HOOKS_literal;
  CAROUSEL_TEMPLATES := CAROUSEL_TEMPLATES_literal;
  CTAS := CTAS_literal;
  HASHTAGS := HASHTAGS_literal
|}.

Definition __init__ : Forge := {| brands := ∅; content_history := [] |}.

Section Methods.
Variable P : Platform.
Variable cls : Class.

Definition _generate_colors : M (list str) :=
  let palettes := [
    [py "#FF6B6B"; py "#4ECDC4"; py "#45B7D1"; py "#96CEB4"; py "#FFEAA7"];
    [py "#6C5CE7"; py "#A29BFE"; py "#74B9FF"; py "#0984E3"; py "#00B894"];
    [py "#FD79A8"; py "#FDCB6E"; py "#6C5CE7"; py "#00B894"; py "#E17055"];
    [py "#2D3436"; py "#636E72"; py "#B2BEC3"; py "#DFE6E9"; py "#00B894"];
    [py "#E74C3C"; py "#E67E22"; py "#F1C40F"; py "#27AE60"; py "#2980B9"]] in
  choice palettes.

Definition create_brand (name industry voice target_audience : str)
    (content_pillars : list str) (posting_frequency : Z) : M BrandProfile :=
  let* colors := _generate_colors in
  let brand := {|
    name := name;
    industry := industry;
    voice := voice;
    target_audience := target_audience;
    color_scheme := colors;
    content_pillars := content_pillars;
    posting_frequency := posting_frequency |} in
  let* this := get_self in
  let* _ := put_self {| brands := <[name := brand]> (brands this);
                        content_history := content_history this |} in
  ret brand.

Definition _generate_hook (industry topic : str) : M str :=
  let* general := getitem (HOOKS cls) (py "general") in
  let industry_hooks := dict_get_default (HOOKS cls) industry general in
  let* hook_template := choice industry_hooks in
  let variables := [
    (py "benefit", topic ++ py " faster");
    (py "product", topic);
    (py "solution", py "the perfect " ++ topic ++ py " strategy");
    (py "things", py "secrets");
    (py "action", py "starting " ++ topic);
    (py "opinion", topic ++ py " is overrated");
    (py "problem", topic ++ py " struggles");
    (py "topic", topic);
    (py "time", py "10+ hours");
    (py "amount", py "10K");
    (py "project", topic);
    (py "exercise", topic);
    (py "goal", py "better " ++ topic);
    (py "number", py "5");
    (py "body_part", py "body");
    (py "dish", topic);
    (py "recipe", topic);
    (py "item", topic);
    (py "season", py "next year");
    (py "experience", topic);
    (py "start", py "zero");
    (py "end", py "hero");
    (py "cost", py "money");
    (py "action", py "doing this");
    (py "options", py "1, 2, or 3?")] in
  try_except_KeyError
    (lift (format P variables hook_template))
    (ret (replace (py "}") [] (replace (py "{") [] hook_template))).

Definition _fill_template (template topic : str) : M str :=
  let* number := choice [py "3"; py "5"; py "7"; py "10"] in
  let variables := [
    (py "number", number);
    (py "topic", str_title P topic);
    (py "goal", py "Master " ++ topic);
    (py "start", py "Beginner");
    (py "end", py "Pro");
    (py "problem", topic ++ py " issues");
    (py "action", topic);
    (py "cost", py "thousands")] in
  try_except_KeyError
    (lift (format P variables template))
    (ret (replace (py "}") [] (replace (py "{") [] template))).

Definition mk_slide (ty : str) (number : option Z) (title text style : option str) : Slide :=
  {| s_type := ty; s_number := number; s_title := title; s_text := text; s_style := style |}.

Definition slide_content (topic : str) : list (str * Slide) := [
  (py "hook", mk_slide (py "hook") None None
     (Some (py "The " ++ topic ++ py " secrets" ++ nl ++ py "everyone needs 🔥"))
     (Some (py "bold")));
  (py "intro", mk_slide (py "text") None None
     (Some (py "Here are the " ++ topic ++ nl ++ py "strategies that" ++ nl
            ++ py "actually work 👇"))
     (Some (py "normal")));
  (py "tip_1", mk_slide (py "tip") (Some 1) (Some (py "Start with research"))
     (Some (py "Understand your " ++ topic ++ py " before taking action")) None);
  (py "tip_2", mk_slide (py "tip") (Some 2) (Some (py "Create systems"))
     (Some (py "Build repeatable " ++ topic ++ py " processes")) None);
  (py "tip_3", mk_slide (py "tip") (Some 3) (Some (py "Measure results"))
     (Some (py "Track what works in " ++ topic)) None);
  (py "tip_4", mk_slide (py "tip") (Some 4) (Some (py "Scale winners"))
     (Some (py "Double down on " ++ topic ++ py " successes")) None);
  (py "bonus", mk_slide (py "bonus") None (Some (py "💡 Pro Tip"))
     (Some (py "The best " ++ topic ++ py " pros do this daily")) None);
  (py "cta", mk_slide (py "cta") None None
     (Some (py "Follow for more" ++ nl ++ topic ++ py " tips 🔥")) (Some (py "cta")));
  (py "mistake_1", mk_slide (py "warning") (Some 1) (Some (py "❌ Random guessing"))
     (Some (py "Never approach " ++ topic ++ py " without a plan")) None);
  (py "mistake_2", mk_slide (py "warning") (Some 2) (Some (py "❌ Ignoring data"))
     (Some (topic ++ py " without metrics is just guessing")) None);
  (py "mistake_3", mk_slide (py "warning") (Some 3) (Some (py "❌ Giving up early"))
     (Some (topic ++ py " takes time - be patient")) None);
  (py "solution", mk_slide (py "solution") None (Some (py "✅ The Fix"))
     (Some (py "Use this proven " ++ topic ++ py " framework instead")) None);
  (py "step_1", mk_slide (py "step") (Some 1) (Some (py "Research Phase"))
     (Some (py "Analyze your " ++ topic ++ py " situation thoroughly")) None);
  (py "step_2", mk_slide (py "step") (Some 2) (Some (py "Strategy Phase"))
     (Some (py "Create your " ++ topic ++ py " action plan")) None);
  (py "step_3", mk_slide (py "step") (Some 3) (Some (py "Execution Phase"))
     (Some (py "Implement your " ++ topic ++ py " strategy daily")) None);
  (py "step_4", mk_slide (py "step") (Some 4) (Some (py "Optimization"))
     (Some (py "Refine your " ++ topic ++ py " approach weekly")) None);
  (py "result", mk_slide (py "result") None (Some (py "🎉 Results"))
     (Some (py "Consistent " ++ topic ++ py " growth within 90 days")) None);
  (py "pain_point", mk_slide (py "pain") None
     (Some (py "Struggling with " ++ topic ++ py "?"))
     (Some (py "You're not alone - here's why...")) None);
  (py "results", mk_slide (py "result") None (Some (py "The Results 📈"))
     (Some (topic ++ py " transformation in just 30 days")) None)
].

Definition _generate_slides (template : Template) (topic : str)
    (num_slides : Z) (voice : str) : list Slide :=
  let structure := slice_to num_slides (structure template) in
  let slide_content := slide_content topic in
  (* for slide_type in structure: if slide_type in slide_content: slides.append(...) *)
  omap (fun slide_type => dict_get slide_content slide_type) structure.

Definition _generate_caption (brand : BrandProfile) (topic hook : str) : M str :=
  let intros := [
    py "Let's talk about " ++ topic ++ py "... 👇";
    py "Here's what nobody tells you about " ++ topic ++ py ":";
    py "The " ++ topic ++ py " game just changed 🔥";
    py "Real talk about " ++ topic ++ py ":"] in
  let value_props := [
    py "These " ++ topic ++ py " strategies have worked for 100+ "
      ++ target_audience brand ++ py ".";
    py "I spent years figuring out " ++ topic ++ py " so you don't have to.";
    py "This is the exact " ++ topic ++ py " system we use.";
    py "Stop overcomplicating " ++ topic ++ py ". Start here 👇"] in
  let* intro := choice intros in
  let* value := choice value_props in
  let caption_parts := [
    hook;
    [];
    intro;
    [];
    value;
    [];
    py "Save this post and come back to it when you need it 📌";
    [];
    py "Follow @" ++ name brand ++ py " for daily " ++ topic ++ py " tips!"] in
  ret (join nl caption_parts).

Definition _generate_hashtags (industry topic : str) : M (list str) :=
  let* general := getitem (HASHTAGS cls) (py "general") in
  let industry_tags := dict_get_default (HASHTAGS cls) industry general in
  let stem := replace (py " ") [] (str_lower P topic) in
  let topic_tags := [
    py "#" ++ stem;
    py "#" ++ stem ++ py "tips";
    py "#" ++ stem ++ py "strategy"] in
  let* selected := sample (slice_to 5 industry_tags) (Z.min 3 (len industry_tags)) in
  let selected := selected ++ topic_tags in
  let* general := getitem (HASHTAGS cls) (py "general") in
  let* more := sample (slice_to 5 general) 2 in
  let selected := selected ++ more in
  ret (list_set selected).

Definition _select_cta (topic : str) : M str :=
  let* cta := choice (CTAS cls) in
  ret (replace (py "{problem}") (topic ++ py " struggles")
        (replace (py "{keyword}") (str_upper P (slice_to 5 topic))
          (replace (py "{topic}") topic cta))).

Definition emphasis_chars : list str :=
  [py "🔥"; py "💡"; py "😱"; py "👇"].

Definition _calculate_engagement_score
    (hook : str) (slides : list Slide) (hashtags : list str) : Z :=
  let score := 50 in
  let score := if existsb (fun ch => contains ch hook) emphasis_chars
               then score + 10 else score in
  let score := if len hook <? 60 then score + 5 else score in
  let score := if (5 <=? len slides) && (len slides <=? 10)
               then score + 15 else score in
  let score := if (8 <=? len hashtags) && (len hashtags <=? 15)
               then score + 10 else score in
  Z.min 100 (Z.max 0 score).

Definition _optimal_posting_time (target_audience : str) : str :=
  let times := [
    (py "professionals", py "Tuesday/Thursday 12:00 PM or 5:00 PM");
    (py "entrepreneurs", py "Monday/Wednesday 8:00 AM or 6:00 PM");
    (py "students", py "Weekdays 7:00 PM - 9:00 PM");
    (py "parents", py "Weekdays 10:00 AM or 8:00 PM");
    (py "general", py "Tuesday-Thursday 11:00 AM - 1:00 PM")] in
  dict_get_default times target_audience
    (default [] (dict_get times (py "general"))).

Definition generate_carousel (brand_name topic template_type : str)
    (num_slides : Z) : M ContentPiece :=
  let* this := get_self in
  match brands this !! brand_name with
  | None =>
    raise (ValueError (py "Brand '" ++ brand_name ++ py "' not found. Create it first."))
  | Some brand =>
    let* tips := getitem (CAROUSEL_TEMPLATES cls) (py "tips") in
    let template := dict_get_default (CAROUSEL_TEMPLATES cls) template_type tips in
    let* hook := _generate_hook (industry brand) topic in
    let slides := _generate_slides template topic num_slides (voice brand) in
    let* caption := _generate_caption brand topic hook in
    let* hashtags := _generate_hashtags (industry brand) topic in
    let* cta := _select_cta topic in
    let engagement_score := _calculate_engagement_score hook slides hashtags in
    let best_time := _optimal_posting_time (target_audience brand) in
    let* title_template := choice (titles template) in
    let* title := _fill_template title_template topic in
    ret {|
      content_type := py "carousel";
      title := title;
      slides := slides;
      caption := caption;
      hashtags := hashtags;
      hook := hook;
      cta := cta;
      engagement_score := engagement_score;
      best_posting_time := best_time;
      brand_voice := voice brand |}
  end.

(** [seq[i]] *)
Definition index {A} (seq : list A) (i : nat) : M A :=
  match seq !! i with
  | Some x => ret x
  | None => raise (IndexError (py "list index out of range"))
  end.

(** The body of the loop of [generate_content_calendar], run for the day
    numbers in [days]. Dates are day ordinals, rendered by the platform;
    [start_date + timedelta(days=i)] raises [OverflowError] once the date
    passes 9999-12-31, and that ends the loop and the call. *)
Fixpoint calendar_loop (brand_name : str) (brand : BrandProfile) (start_date : Z)
    (days : list nat) : M (list DayRecord) :=
  match days with
  | [] => ret []
  | i :: rest =>
    let* delta := Datetime.timedelta (Z.of_nat i) in
    let* date := Datetime.add start_date delta in
    let* pillar := index (content_pillars brand)
                     (i mod length (content_pillars brand)) in
    let* template_type := choice [py "tips"; py "mistakes"; py "steps"] in
    let* content := generate_carousel brand_name pillar template_type 7 in
    let entry := {|
      d_date := strftime_date P date;
      d_day := strftime_day P date;
      d_content_type := content_type content;
      d_title := title content;
      d_topic := pillar;
      d_engagement_score := engagement_score content;
      d_best_time := best_posting_time content;
      d_caption_preview := slice_to 100 (caption content) ++ py "...";
      d_hashtags := hashtags content |} in
    let* calendar := calendar_loop brand_name brand start_date rest in
    ret (entry :: calendar)
  end.

(** [range(n)] for a Python int [n]: empty when [n <= 0]. *)
Definition range (n : Z) : list nat := seq 0 (Z.to_nat n).

Definition generate_content_calendar (brand_name : str) (days : Z) : M (list DayRecord) :=
  let* this := get_self in
  match brands this !! brand_name with
  | None => raise (ValueError (py "Brand '" ++ brand_name ++ py "' not found"))
  | Some brand =>
    let* start_date := now in
    calendar_loop brand_name brand start_date
      (range (Z.min days (len (content_pillars brand) * 2)))
  end.

Definition generate_single_post (brand_name topic post_type : str) : M ContentPiece :=
  let* this := get_self in
  match brands this !! brand_name with
  | None => raise (ValueError (py "Brand '" ++ brand_name ++ py "' not found"))
  | Some brand =>
    let* hook := _generate_hook (industry brand) topic in
    let captions := [
      (py "educational",
       py "Quick " ++ topic ++ py " tip:" ++ nl ++ nl
         ++ py "💡 [Insert educational content here]" ++ nl ++ nl
         ++ py "Save this for later! 📌");
      (py "motivational",
       py "Your daily reminder:" ++ nl ++ nl
         ++ py "🔥 [Insert motivational message about " ++ topic ++ py "]" ++ nl ++ nl
         ++ py "Tag someone who needs to hear this 👇");
      (py "promotional",
       py "Introducing [Product/Service]" ++ nl ++ nl
         ++ py "✨ The " ++ topic ++ py " solution you've been waiting for" ++ nl ++ nl
         ++ py "Link in bio to learn more 👆");
      (py "engagement",
       py "Question for you:" ++ nl ++ nl
         ++ py "❓ [Insert engaging question about " ++ topic ++ py "]" ++ nl ++ nl
         ++ py "Drop your answer below! 👇")] in
    let* educational := getitem captions (py "educational") in
    let caption := dict_get_default captions post_type educational in
    let* hashtags := _generate_hashtags (industry brand) topic in
    let* cta := _select_cta topic in
    let* score := randint 60 90 in
    ret {|
      content_type := py "single";
      title := str_title P topic ++ py " " ++ str_title P post_type;
      slides := [mk_slide (py "single") None None None (Some post_type)];
      caption := caption;
      hashtags := hashtags;
      hook := hook;
      cta := cta;
      engagement_score := score;
      best_posting_time := _optimal_posting_time (target_audience brand);
      brand_voice := voice brand |}
  end.

(** The names bound on a [ContentForge] instance: the instance attributes set
    by [__init__], the class attributes and the methods of the class body.
    (The attributes every Python object inherits from [object] have names
    between double underscores and are left out.) *)
Definition attribute_names : list str := [
  py "brands"; py "content_history";
  py "HOOKS"; py "CAROUSEL_TEMPLATES"; py "CTAS"; py "HASHTAGS";
  py "__init__"; py "create_brand"; py "_generate_colors"; py "generate_carousel";
  py "_generate_hook"; py "_fill_template"; py "_generate_slides";
  py "_generate_caption"; py "_generate_hashtags"; py "_select_cta";
  py "_calculate_engagement_score"; py "_optimal_posting_time";
  py "generate_content_calendar"; py "generate_single_post";
  py "export_content"; py "analyze_performance"
].

(** [forge.attr]: the attribute lookup that precedes a call [forge.attr(...)]. *)
Definition getattr (attr : str) : M unit :=
  if bool_decide (attr ∈ attribute_names) then ret tt
  else raise (AttributeError
                (py "'ContentForge' object has no attribute '" ++ attr ++ py "'")).

End Methods.

End ContentForge.

(** ** Request bodies *)

Module Json.

(** What [int()] sees of a float. *)
Inductive pyfloat :=
| Finite (trunc : Z)
| NaN
| Infinity.

(** A decoded JSON document. An object keeps its members in the order of the
    text; as in [json.loads], the last member with a given key wins. *)
#[warnings="-register-all"]
Inductive value :=
| Null
| Bool (b : bool)
| Int (n : Z)
| Float (f : pyfloat)
| Str (s : str)
| Arr (items : list value)
| Obj (members : list (str * value)).

Definition type_name (v : value) : str :=
  match v with
  | Null => py "NoneType"
  | Bool _ => py "bool"
  | Int _ => py "int"
  | Float _ => py "float"
  | Str _ => py "str"
  | Arr _ => py "list"
  | Obj _ => py "dict"
  end.

(** [data.get(key, dflt)] *)
Definition get (data : value) (key : str) (dflt : value) : M value :=
  match data with
  | Obj members => ret (dict_get_default members key dflt)
  | _ => raise (AttributeError
                  (py "'" ++ type_name data ++ py "' object has no attribute 'get'"))
  end.

Section Int.
Variable P : Platform.

(** The rewriting of a string to ASCII that precedes the parse of [int(s)]. *)
Fixpoint to_ascii (s : str) : list N :=
  match s with
  | [] => []
  | c :: s' =>
    if (c <? 127)%N then c :: to_ascii s'
    else if is_space P c then 32%N :: to_ascii s'
    else match to_decimal P c with
         | Some d => (48 + Z.to_N d)%N :: to_ascii s'
         | None => [63%N]
         end
  end.

Definition ascii_space (c : N) : bool :=
  ((9 <=? c) && (c <=? 13) || (c =? 32))%N.

Definition digit_val (c : N) : option Z :=
  if ((48 <=? c) && (c <=? 57))%N then Some (Z.of_N c - 48) else None.

Fixpoint lstrip (s : list N) : list N :=
  match s with
  | [] => []
  | c :: s' => if ascii_space c then lstrip s' else s
  end.

(** Decimal digits, single underscores between them, trailing white space. *)
Fixpoint parse_digits (acc : Z) (after_digit : bool) (s : list N) : option Z :=
  match s with
  | [] => if after_digit then Some acc else None
  | c :: s' =>
    match digit_val c with
    | Some d => parse_digits (10 * acc + d) true s'
    | None =>
      if (c =? 95)%N then
        if after_digit then parse_digits acc false s' else None
      else if ascii_space c then
        if after_digit && forallb ascii_space s' then Some acc else None
      else None
    end
  end.

Definition parse_long (s : list N) : option Z :=
  match lstrip s with
  | 43%N :: s' => parse_digits 0 false s'
  | 45%N :: s' => Z.opp <$> parse_digits 0 false s'
  | s' => parse_digits 0 false s'
  end.

(** [int(x)] *)
Definition int (x : value) : M Z :=
  match x with
  | Int n => ret n
  | Bool b => ret (if b then 1 else 0)
  | Float (Finite t) => ret t
  | Float NaN => raise (ValueError (py "cannot convert float NaN to integer"))
  | Float Infinity => raise (OverflowError (py "cannot convert float infinity to integer"))
  | Str s =>
    match parse_long (to_ascii s) with
    | Some n => ret n
    | None => raise (ValueError (py "invalid literal for int() with base 10: "
                                 ++ str_repr P s))
    end
  | _ => raise (TypeError
                  (py "int() argument must be a string, a bytes-like object or a real number, not '"
                   ++ type_name x ++ py "'"))
  end.

(** [str(e)] *)
Definition exn_str (e : exn) : str :=
  match e with
  | KeyError key => str_repr P key
  | ValueError msg | IndexError msg | TypeError msg | AttributeError msg
  | OverflowError msg | HTTPException msg => msg
  end.

End Int.

End Json.

(** ** The route handlers *)

(** What Flask hands to a handler: [request.get_json()] either raises (no JSON
    content type, a body that does not parse) or returns the decoded document,
    [Null] standing for [None]. *)
Inductive get_json_result :=
| GetJsonRaises (e : exn)
| GetJsonReturns (v : Json.value).

Definition get_json (r : get_json_result) : M Json.value :=
  match r with
  | GetJsonRaises e => raise e
  | GetJsonReturns v => ret v
  end.

(** The JSON bodies the handlers build. *)
Inductive body :=
| CarouselOk (content : ContentPiece)
    (* success: True, content: the ten fields of the piece *)
| CaptionOk (caption : str) (hashtags : list str)
    (* success: True, caption, hashtags *)
| Failure (error : str).
    (* success: False, error *)

(** A response: the body and the HTTP status. *)
Definition response : Type := body * Z.

(** The handlers call three methods on the forge, [generate_carousel_post],
    [generate_caption] and [generate_hashtags], that the class does not define.
    What such a call would return is left open. *)
Record Absent := {
  generate_carousel_post :
    Json.value -> Json.value -> Z -> Json.value -> Json.value -> M ContentPiece;
  absent_generate_caption : Json.value -> Json.value -> M str;
  absent_generate_hashtags : Json.value -> Json.value -> M (list str)
}.

(** backend/app.py *)
Module App.
Section Handlers.
Variable P : Platform.
Variable absent : Absent.

Definition generate_carousel (request : get_json_result) : M response :=
  try_except
    (let* data := get_json request in
     let* topic := Json.get data (py "topic") (Json.Str (py "Marketing Tips")) in
     let* industry := Json.get data (py "industry") (Json.Str (py "ecommerce")) in
     let* brand_voice := Json.get data (py "brand_voice") (Json.Str (py "friendly")) in
     let* raw_num_slides := Json.get data (py "num_slides") (Json.Int 7) in
     let* num_slides := Json.int P raw_num_slides in
     let* template := Json.get data (py "template") (Json.Str (py "tips")) in
     let* _ := ContentForge.getattr (py "generate_carousel_post") in
     let* content :=
       generate_carousel_post absent topic industry num_slides brand_voice template in
     ret (CarouselOk content, 200))
    (fun e => ret (Failure (Json.exn_str P e), 500)).

Definition generate_caption (request : get_json_result) : M response :=
  try_except
    (let* data := get_json request in
     let* topic := Json.get data (py "topic") (Json.Str []) in
     let* industry := Json.get data (py "industry") (Json.Str (py "ecommerce")) in
     let* _ := ContentForge.getattr (py "generate_caption") in
     let* caption := absent_generate_caption absent topic industry in
     let* _ := ContentForge.getattr (py "generate_hashtags") in
     let* hashtags := absent_generate_hashtags absent topic industry in
     ret (CaptionOk caption hashtags, 200))
    (fun e => ret (Failure (Json.exn_str P e), 500)).

End Handlers.
End App.

(** server.py: the same two handlers, written out again in that file. *)
Module Server.
Section Handlers.
Variable P : Platform.
Variable absent : Absent.

Definition generate_carousel (request : get_json_result) : M response :=
  try_except
    (let* data := get_json request in
     let* topic := Json.get data (py "topic") (Json.Str (py "Marketing Tips")) in
     let* industry := Json.get data (py "industry") (Json.Str (py "ecommerce")) in
     let* brand_voice := Json.get data (py "brand_voice") (Json.Str (py "friendly")) in
     let* raw_num_slides := Json.get data (py "num_slides") (Json.Int 7) in
     let* num_slides := Json.int P raw_num_slides in
     let* template := Json.get data (py "template") (Json.Str (py "tips")) in
     let* _ := ContentForge.getattr (py "generate_carousel_post") in
     let* content :=
       generate_carousel_post absent topic industry num_slides brand_voice template in
     ret (CarouselOk content, 200))
    (fun e => ret (Failure (Json.exn_str P e), 500)).

Definition generate_caption (request : get_json_result) : M response :=
  try_except
    (let* data := get_json request in
     let* topic := Json.get data (py "topic") (Json.Str []) in
     let* industry := Json.get data (py "industry") (Json.Str (py "ecommerce")) in
     let* _ := ContentForge.getattr (py "generate_caption") in
     let* caption := absent_generate_caption absent topic industry in
     let* _ := ContentForge.getattr (py "generate_hashtags") in
     let* hashtags := absent_generate_hashtags absent topic industry in
     ret (CaptionOk caption hashtags, 200))
    (fun e => ret (Failure (Json.exn_str P e), 500)).

End Handlers.
End Server.

(** ** A platform for running the embedding

    Its tables know the ASCII range only; it serves to evaluate the methods on
    concrete ASCII inputs. *)

Module AsciiOnly.

Definition is_upper (c : char) : bool := ((65 <=? c) && (c <=? 90))%N.
Definition is_lower (c : char) : bool := ((97 <=? c) && (c <=? 122))%N.
Definition lower_char (c : char) : char := if is_upper c then (c + 32)%N else c.
Definition upper_char (c : char) : char := if is_lower c then (c - 32)%N else c.

Fixpoint title_from (after_cased : bool) (s : str) : str :=
  match s with
  | [] => []
  | c :: s' =>
    if is_upper c || is_lower c
    then (if after_cased then lower_char c else upper_char c) :: title_from true s'
    else c :: title_from false s'
  end.

Definition decimal (c : char) : option Z :=
  if ((48 <=? c) && (c <=? 57))%N then Some (Z.of_N c - 48) else None.

Definition space (c : char) : bool :=
  ((9 <=? c) && (c <=? 13) || (28 <=? c) && (c <=? 32))%N.

Definition platform : Platform := {|
  str_lower := map lower_char;
  str_upper := map upper_char;
  str_title := title_from false;
  str_repr := fun s => py "'" ++ s ++ py "'";
  is_space := space;
  to_decimal := decimal;
  format_field := fun _ _ => inl (ValueError (py "unsupported format string"));
  strftime_date := fun _ => py "2026-01-01";
  strftime_day := fun _ => py "Thursday";
  to_decimal_ascii := fun c _ => eq_refl;
  is_space_ascii := fun c _ => eq_refl
|}.

End AsciiOnly.

(** ** Specification-side definitions *)

Module Spec.

Definition clamp (lo hi x : Z) : Z := Z.min hi (Z.max lo x).

(** The fixed emphasis characters: fire, light bulb, screaming face, finger
    pointing down. *)
Definition emphasis : list char := [128293; 128161; 128561; 128071]%N.

Definition bonus (b : bool) (points : Z) : Z := if b then points else 0.

(** The engagement score as the specification words it. *)
Definition engagement_score_spec
    (hook : str) (slides : list Slide) (hashtags : list str) : Z :=
  clamp 0 100
    (50
     + bonus (bool_decide (Exists (fun c => c ∈ hook) emphasis)) 10
     + bonus (bool_decide (length hook < 60)%nat) 5
     + bonus (bool_decide (5 <= length slides <= 10)%nat) 15
     + bonus (bool_decide (8 <= length hashtags <= 15)%nat) 10).

Definition starts_with_hash (tag : str) : Prop := exists rest, tag = 35%N :: rest.

Definition brace_free (s : str) : Prop := (Format.lbrace ∉ s) /\ (Format.rbrace ∉ s).

(** [m] returns in every world whose forge satisfies [I], leaves the forge as
    it was, and its result satisfies [Q]. *)
Definition total_in (I : Forge -> Prop) {A} (m : M A) (Q : A -> Prop) : Prop :=
  forall w, I (self w) ->
    exists a w', m w = (Return a, w') /\ self w' = self w /\ Q a.

(** [m] leaves the forge as it was, whether it returns or raises. *)
Definition preserves {A} (m : M A) : Prop :=
  forall w, self (snd (m w)) = self w.

(** A hashtag bank that can be sampled: at least 5 entries, each with a hash. *)
Definition bank_ok (bank : list str) : bool :=
  (5 <=? length bank)%nat && forallb (startswith (py "#")) bank.

(** The three hashtags derived from the topic. *)
Definition topic_tags (P : Platform) (topic : str) : list str :=
  let stem := replace (py " ") [] (str_lower P topic) in
  [py "#" ++ stem; py "#" ++ stem ++ py "tips"; py "#" ++ stem ++ py "strategy"].

(** A world for examples: a fresh forge and the given draws. *)
Definition fresh (draws : list nat) : world :=
  {| self := ContentForge.__init__; rng := draws; clock := 0 |}.


(** The template [generate_carousel] works with, on the class as written:
    [CAROUSEL_TEMPLATES.get(template_type, CAROUSEL_TEMPLATES['tips'])]. *)
Definition class_template (template_type : str) : ContentForge.Template :=
  let templates := ContentForge.CAROUSEL_TEMPLATES ContentForge.class in
  dict_get_default templates template_type
    (default {| ContentForge.structure := []; ContentForge.titles := [] |}
       (dict_get templates (py "tips"))).

(** Checks on a template of the class, decided by evaluation. *)
Definition not_brace (c : char) : bool :=
  negb (char_eqb c Format.lbrace) && negb (char_eqb c Format.rbrace).

(** A replacement field that is a plain keyword: it starts with an ASCII
    character that is not a digit, and has none of the special characters. *)
Definition plain_name (text : str) : bool :=
  match text with
  | [] => false
  | c :: _ => (c <? 128)%N && negb ((48 <=? c) && (c <=? 57))%N
  end && negb (existsb Format.special text).

Definition seg_ok (seg : Format.segment) : bool :=
  match seg with
  | Format.Lit c => not_brace c
  | Format.Field text => plain_name text
  | Format.Bad _ => false
  end.

(** [template.replace('{', '').replace('}', '')] *)
Definition strip_braces (template : str) : str :=
  replace (py "}") [] (replace (py "{") [] template).

Definition template_ok (template : str) : bool :=
  forallb seg_ok (Format.tokenize None template)
  && forallb not_brace (strip_braces template).

(** A list of templates one can choose from. *)
Definition templates_ok (bank : list str) : bool :=
  match bank with
  | [] => false
  | _ :: _ => forallb template_ok bank
  end.

(** A forge with one brand of three pillars, as [create_brand] leaves it. *)
Definition brandx_world (draws : list nat) : world :=
  snd (ContentForge.create_brand
         (py "BrandX") (py "fitness") (py "friendly") (py "general")
         [py "core workouts"; py "nutrition"; py "recovery"] 5
         (fresh (0%nat :: draws))).

Definition brandx : BrandProfile := {|
  name := py "BrandX";
  industry := py "fitness";
  voice := py "friendly";
  target_audience := py "general";
  color_scheme := [py "#FF6B6B"; py "#4ECDC4"; py "#45B7D1"; py "#96CEB4"; py "#FFEAA7"];
  content_pillars := [py "core workouts"; py "nutrition"; py "recovery"];
  posting_frequency := 5
|}.

(** The life of a forge: a sequence of calls of the methods that take part in
    generation or registration. An exception ends the call that raised it, not
    the sequence. ([export_content] and [analyze_performance] compute from
    their arguments alone, with [json.dumps] and floating-point arithmetic,
    and are not part of the embedding.) *)
Inductive call :=
| Call_create_brand (name industry voice target_audience : str)
    (content_pillars : list str) (posting_frequency : Z)
| Call_generate_colors
| Call_generate_carousel (brand_name topic template_type : str) (num_slides : Z)
| Call_generate_hook (industry topic : str)
| Call_fill_template (template topic : str)
| Call_generate_caption (brand : BrandProfile) (topic hook : str)
| Call_generate_hashtags (industry topic : str)
| Call_select_cta (topic : str)
| Call_generate_content_calendar (brand_name : str) (days : Z)
| Call_generate_single_post (brand_name topic post_type : str).

Definition discard {A} (m : M A) : M unit := let* _ := m in ret tt.

Definition run_call (P : Platform) (cls : ContentForge.Class) (c : call) : M unit :=
  match c with
  | Call_create_brand name industry voice target_audience content_pillars posting_frequency =>
    discard (ContentForge.create_brand name industry voice target_audience
               content_pillars posting_frequency)
  | Call_generate_colors => discard ContentForge._generate_colors
  | Call_generate_carousel brand_name topic template_type num_slides =>
    discard (ContentForge.generate_carousel P cls brand_name topic template_type num_slides)
  | Call_generate_hook industry topic =>
    discard (ContentForge._generate_hook P cls industry topic)
  | Call_fill_template template topic =>
    discard (ContentForge._fill_template P template topic)
  | Call_generate_caption brand topic hook =>
    discard (ContentForge._generate_caption brand topic hook)
  | Call_generate_hashtags industry topic =>
    discard (ContentForge._generate_hashtags P cls industry topic)
  | Call_select_cta topic => discard (ContentForge._select_cta P cls topic)
  | Call_generate_content_calendar brand_name days =>
    discard (ContentForge.generate_content_calendar P cls brand_name days)
  | Call_generate_single_post brand_name topic post_type =>
    discard (ContentForge.generate_single_post P cls brand_name topic post_type)
  end.

Definition run_calls (P : Platform) (cls : ContentForge.Class)
    (calls : list call) (w : world) : world :=
  fold_left (fun w c => snd (run_call P cls c w)) calls w.

(** [m] raises in every world. *)
Definition raises {A} (m : M A) : Prop :=
  forall w, exists e w', m w = (Raise e, w').

(** The implementations of the absent methods used to run the handlers on
    concrete requests; the handlers never reach them. *)
Definition no_absent : Absent := {|
  generate_carousel_post := fun _ _ _ _ _ => raise (TypeError []);
  absent_generate_caption := fun _ _ => raise (TypeError []);
  absent_generate_hashtags := fun _ _ => raise (TypeError [])
|}.

(** The dates of a calendar of [count] entries that starts on [start_date] are
    dates a [datetime] can hold: there is none, or the first is a day and the
    last is not past 9999-12-31. *)
Definition dates_in_range (start_date count : Z) : bool :=
  (count <=? 0)
  || ((1 <=? start_date) && (start_date + count - 1 <=? Datetime.MAXORDINAL)).

(** Day number [day] of a calendar that starts on [start_date] has a date. *)
Definition day_ok (start_date : Z) (day : nat) : Prop :=
  Z.of_nat day <= 999999999
  /\ 0 < start_date + Z.of_nat day <= Datetime.MAXORDINAL.

(** [m] raises [e] in every world whose forge satisfies [I], and leaves the
    forge as it was. *)
Definition raises_in (I : Forge -> Prop) {A} (m : M A) (e : exn) : Prop :=
  forall w, I (self w) -> exists w', m w = (Raise e, w') /\ self w' = self w.

(** What the sum of a date and a [timedelta] raises out of range. *)
Definition date_overflow : exn := OverflowError (py "date value out of range").

(** The ordinal of 2026-01-01. *)
Definition new_year_2026 : Z := 739617.

(** The forge of [brandx_world], on the given day. *)
Definition brandx_world_on (date : Z) (draws : list nat) : world :=
  {| self := self (brandx_world draws);
     rng := rng (brandx_world draws);
     clock := date |}.

End Spec.

(** ** The rest of the class and of the routes *)

(** [export_content], of the class [ContentForge]. What [json.dumps] and the
    [repr] of the dataclass print is left to two parameters. *)
Module Exporting.

(** [str(n)] for a count. *)
Fixpoint digits (fuel n : nat) (acc : str) : str :=
  match fuel with
  | O => acc
  | S fuel' =>
    let acc' := (48 + N.of_nat (n mod 10))%N :: acc in
    if (n <? 10)%nat then acc' else digits fuel' (n / 10) acc'
  end.

Definition str_of_nat (n : nat) : str := digits (S n) n [].

(** [slide.get('text', slide.get('title', f'Slide {i}'))] *)
Definition slide_text (i : nat) (slide : Slide) : str :=
  match s_text slide with
  | Some text => text
  | None =>
    match s_title slide with
    | Some title => title
    | None => py "Slide " ++ str_of_nat i
    end
  end.

(** The loop over [enumerate(content.slides, 1)], from number [i] on. *)
Fixpoint slides_text (i : nat) (slides : list Slide) : list str :=
  match slides with
  | [] => []
  | slide :: rest =>
    (py "Slide " ++ str_of_nat i ++ py ":" ++ ContentForge.nl ++ slide_text i slide)
      :: slides_text (S i) rest
  end.

Section WithPrinters.
Variable json_dumps : ContentPiece -> str.   (* json.dumps(asdict(content), indent=2) *)
Variable str_content : ContentPiece -> str.  (* str(content) *)

Definition export_content (content : ContentPiece) (format : str) : str :=
  if decide (format = py "json") then json_dumps content
  else if decide (format = py "caption") then
    caption content ++ ContentForge.nl ++ ContentForge.nl
      ++ join (py " ") (hashtags content)
  else if decide (format = py "slides") then
    join (ContentForge.nl ++ ContentForge.nl) (slides_text 1 (slides content))
  else str_content content.

End WithPrinters.

End Exporting.

(** The hashtag routes: [generate_hashtags] of backend/app.py and
    [generate_hashtags_route] of server.py. *)

(** One element of [hashtag_sets]. *)
Record HashtagSet := {
  set_number : Z;
  set_hashtags : list str;
  set_count : Z
}.

Inductive hashtags_body :=
| HashtagSetsOk (hashtag_sets : list HashtagSet)
    (* success: True, hashtag_sets *)
| HashtagsFailure (error : str).
    (* success: False, error *)

Module AppHashtags.
Section Handlers.
Variable P : Platform.
Variable absent : Absent.

(** The [for i in range(num_sets)] loop, run for the numbers in [range]. *)
Fixpoint hashtag_sets_loop (topic industry : Json.value) (range : list nat)
    : M (list HashtagSet) :=
  match range with
  | [] => ret []
  | i :: rest =>
    let* _ := ContentForge.getattr (py "generate_hashtags") in
    let* tags := absent_generate_hashtags absent topic industry in
    let entry := {| set_number := Z.of_nat i + 1;
                    set_hashtags := tags;
                    set_count := len tags |} in
    let* hashtag_sets := hashtag_sets_loop topic industry rest in
    ret (entry :: hashtag_sets)
  end.

Definition generate_hashtags (request : get_json_result) : M (hashtags_body * Z) :=
  try_except
    (let* data := get_json request in
     let* topic := Json.get data (py "topic") (Json.Str []) in
     let* industry := Json.get data (py "industry") (Json.Str (py "ecommerce")) in
     let* raw_num_sets := Json.get data (py "num_sets") (Json.Int 3) in
     let* num_sets := Json.int P raw_num_sets in
     let* hashtag_sets := hashtag_sets_loop topic industry (ContentForge.range num_sets) in
     ret (HashtagSetsOk hashtag_sets, 200))
    (fun e => ret (HashtagsFailure (Json.exn_str P e), 500)).

End Handlers.
End AppHashtags.

Module ServerHashtags.
Section Handlers.
Variable P : Platform.
Variable absent : Absent.

Fixpoint hashtag_sets_loop (topic industry : Json.value) (range : list nat)
    : M (list HashtagSet) :=
  match range with
  | [] => ret []
  | i :: rest =>
    let* _ := ContentForge.getattr (py "generate_hashtags") in
    let* tags := absent_generate_hashtags absent topic industry in
    let entry := {| set_number := Z.of_nat i + 1;
                    set_hashtags := tags;
                    set_count := len tags |} in
    let* hashtag_sets := hashtag_sets_loop topic industry rest in
    ret (entry :: hashtag_sets)
  end.

Definition generate_hashtags_route (request : get_json_result) : M (hashtags_body * Z) :=
  try_except
    (let* data := get_json request in
     let* topic := Json.get data (py "topic") (Json.Str []) in
     let* industry := Json.get data (py "industry") (Json.Str (py "ecommerce")) in
     let* raw_num_sets := Json.get data (py "num_sets") (Json.Int 3) in
     let* num_sets := Json.int P raw_num_sets in
     let* hashtag_sets := hashtag_sets_loop topic industry (ContentForge.range num_sets) in
     ret (HashtagSetsOk hashtag_sets, 200))
    (fun e => ret (HashtagsFailure (Json.exn_str P e), 500)).

End Handlers.
End ServerHashtags.

(** Definitions used to state the further properties. *)
Module Spec2.

(** The posting window of audiences without an entry of their own. *)
Definition general_window : str := py "Tuesday-Thursday 11:00 AM - 1:00 PM".

Definition audiences : list str :=
  [py "professionals"; py "entrepreneurs"; py "students"; py "parents"; py "general"].

(** The palettes of [_generate_colors]. *)
Definition palettes : list (list str) := [
  [py "#FF6B6B"; py "#4ECDC4"; py "#45B7D1"; py "#96CEB4"; py "#FFEAA7"];
  [py "#6C5CE7"; py "#A29BFE"; py "#74B9FF"; py "#0984E3"; py "#00B894"];
  [py "#FD79A8"; py "#FDCB6E"; py "#6C5CE7"; py "#00B894"; py "#E17055"];
  [py "#2D3436"; py "#636E72"; py "#B2BEC3"; py "#DFE6E9"; py "#00B894"];
  [py "#E74C3C"; py "#E67E22"; py "#F1C40F"; py "#27AE60"; py "#2980B9"]].

(** The caption of an educational single post. *)
Definition educational_caption (topic : str) : str :=
  py "Quick " ++ topic ++ py " tip:" ++ ContentForge.nl ++ ContentForge.nl
    ++ py "💡 [Insert educational content here]" ++ ContentForge.nl ++ ContentForge.nl
    ++ py "Save this for later! 📌".

Definition post_types : list str :=
  [py "educational"; py "motivational"; py "promotional"; py "engagement"].

(** The error of the generators for a name that is not registered. *)
Definition not_found_create (brand_name : str) : exn :=
  ValueError (py "Brand '" ++ brand_name ++ py "' not found. Create it first.").

Definition not_found (brand_name : str) : exn :=
  ValueError (py "Brand '" ++ brand_name ++ py "' not found").

(** A class without the fallback entries. *)
Definition no_general_class : ContentForge.Class := {|
  ContentForge.HOOKS := [(py "fitness", [py "Go"])];
  ContentForge.CAROUSEL_TEMPLATES := ContentForge.CAROUSEL_TEMPLATES_literal;
  ContentForge.CTAS := ContentForge.CTAS_literal;
  ContentForge.HASHTAGS := [(py "fitness", [py "#a"; py "#b"; py "#c"])]
|}.

(** What holds of every piece [generate_carousel] returns for a registered
    brand. *)
Definition carousel_of (brand : BrandProfile)
    (topic template_type : str) (num_slides : Z) (content : ContentPiece) : Prop :=
  content_type content = py "carousel"
  /\ slides content
     = ContentForge._generate_slides (Spec.class_template template_type) topic
         num_slides (voice brand)
  /\ (exists rest,
        caption content = hook content ++ ContentForge.nl ++ ContentForge.nl ++ rest)
  /\ NoDup (hashtags content)
  /\ (3 <= length (hashtags content) <= 8)%nat
  /\ Forall Spec.starts_with_hash (hashtags content)
  /\ engagement_score content
     = ContentForge._calculate_engagement_score
         (hook content) (slides content) (hashtags content)
  /\ best_posting_time content
     = ContentForge._optimal_posting_time (target_audience brand)
  /\ brand_voice content = voice brand.

(** What holds of every post [generate_single_post] returns for a registered
    brand. *)
Definition single_post_of (P : Platform) (brand : BrandProfile)
    (topic post_type : str) (content : ContentPiece) : Prop :=
  content_type content = py "single"
  /\ title content = str_title P topic ++ py " " ++ str_title P post_type
  /\ slides content = [ContentForge.mk_slide (py "single") None None None (Some post_type)]
  /\ (post_type ∉ post_types \/ post_type = py "educational" ->
      caption content = educational_caption topic)
  /\ NoDup (hashtags content)
  /\ (3 <= length (hashtags content) <= 8)%nat
  /\ Forall Spec.starts_with_hash (hashtags content)
  /\ 60 <= engagement_score content <= 90
  /\ best_posting_time content
     = ContentForge._optimal_posting_time (target_audience brand)
  /\ brand_voice content = voice brand.

(** What holds of the entry of the calendar for day number [day], counted from
    the day [start_date]. *)
Definition calendar_entry_of (P : Platform) (brand : BrandProfile) (start_date : Z)
    (day : nat) (entry : DayRecord) : Prop :=
  d_date entry = strftime_date P (start_date + Z.of_nat day)
  /\ d_day entry = strftime_day P (start_date + Z.of_nat day)
  /\ d_content_type entry = py "carousel"
  /\ content_pillars brand !! (day mod length (content_pillars brand))%nat
     = Some (d_topic entry)
  /\ 65 <= d_engagement_score entry <= 90
  /\ d_best_time entry = ContentForge._optimal_posting_time (target_audience brand)
  /\ (exists caption, d_caption_preview entry = slice_to 100 caption ++ py "...")
  /\ len (d_caption_preview entry) <= 103
  /\ NoDup (d_hashtags entry)
  /\ (3 <= length (d_hashtags entry) <= 8)%nat.

(** The calls to action, with their placeholders filled in. *)
Definition cta_forms (P : Platform) (topic : str) : list str := [
  py "Save this for later 📌";
  py "Drop a 🔥 if you agree";
  py "Which one will you try first? 👇";
  py "Share this with someone who needs to see it";
  py "Comment '" ++ str_upper P (slice_to 5 topic) ++ py "' for the full guide";
  py "Link in bio for more 👆";
  py "Follow for daily " ++ topic ++ py " tips";
  py "Tag someone who's struggling with " ++ (topic ++ py " struggles");
  py "Double tap if this helped you ❤️";
  py "What's your biggest " ++ topic ++ py " challenge? Tell me below 👇"
].

Definition no_lbrace (s : str) : bool :=
  forallb (fun c => negb (char_eqb c Format.lbrace)) s.

End Spec2.

(** * Properties *)

Arguments py : simpl never.

(** ** Strings *)

Lemma char_eqb_eq (a b : char) : char_eqb a b = true <-> a = b.
Proof. unfold char_eqb. apply N.eqb_eq. Qed.

Lemma contains_singleton (c : char) (hay : str) :
  contains [c] hay = bool_decide (c ∈ hay).
Proof.
  induction hay as [|x hay IH].
  - reflexivity.
  - cbn [contains startswith]. rewrite andb_true_r, IH.
    destruct (char_eqb c x) eqn:E.
    + apply char_eqb_eq in E. subst x. symmetry. apply bool_decide_eq_true.
      apply elem_of_cons. left. reflexivity.
    + cbn [orb]. apply bool_decide_ext. rewrite elem_of_cons.
      split; [tauto|]. intros [->|H]; [|exact H].
      unfold char_eqb in E. rewrite N.eqb_refl in E. discriminate.
Qed.

(** ** The engagement score *)

Lemma emphasis_chars_spec :
  ContentForge.emphasis_chars = map (fun c => [c]) Spec.emphasis.
Proof. vm_compute. reflexivity. Qed.

Lemma has_emphasis_spec (hook : str) :
  existsb (fun ch => contains ch hook) ContentForge.emphasis_chars
  = bool_decide (Exists (fun c => c ∈ hook) Spec.emphasis).
Proof.
  rewrite emphasis_chars_spec.
  induction Spec.emphasis as [|c cs IH].
  - reflexivity.
  - cbn [map existsb]. rewrite IH, contains_singleton.
    destruct (bool_decide (c ∈ hook)) eqn:E1.
    + symmetry. apply bool_decide_eq_true. left. apply bool_decide_eq_true in E1. exact E1.
    + cbn [orb]. apply bool_decide_ext. rewrite Exists_cons.
      apply bool_decide_eq_false in E1. tauto.
Qed.

Lemma len_lt_spec {A} (l : list A) (n : nat) (z : Z) :
  z = Z.of_nat n -> (len l <? z) = bool_decide (length l < n)%nat.
Proof.
  intros ->. unfold len.
  destruct (Z.ltb_spec (Z.of_nat (length l)) (Z.of_nat n)) as [H|H];
    symmetry; [apply bool_decide_eq_true | apply bool_decide_eq_false]; lia.
Qed.

Lemma len_between_spec {A} (l : list A) (lo hi : nat) (zlo zhi : Z) :
  zlo = Z.of_nat lo -> zhi = Z.of_nat hi ->
  (zlo <=? len l) && (len l <=? zhi) = bool_decide (lo <= length l <= hi)%nat.
Proof.
  intros -> ->. unfold len.
  destruct (Z.leb_spec (Z.of_nat lo) (Z.of_nat (length l))),
           (Z.leb_spec (Z.of_nat (length l)) (Z.of_nat hi)); cbn [andb];
    symmetry; first [apply bool_decide_eq_true; lia | apply bool_decide_eq_false; lia].
Qed.

Lemma engagement_score_refines (hook : str) (slides : list Slide) (hashtags : list str) :
  ContentForge._calculate_engagement_score hook slides hashtags
    = Spec.engagement_score_spec hook slides hashtags.
Proof.
  unfold ContentForge._calculate_engagement_score, Spec.engagement_score_spec,
    Spec.clamp, Spec.bonus.
  rewrite has_emphasis_spec.
  rewrite (len_lt_spec hook 60 60 eq_refl).
  rewrite (len_between_spec slides 5 10 5 10 eq_refl eq_refl).
  rewrite (len_between_spec hashtags 8 15 8 15 eq_refl eq_refl).
  destruct (bool_decide (Exists _ _)), (bool_decide (_ < _)%nat),
    (bool_decide (5 <= _ <= _)%nat), (bool_decide (8 <= _ <= _)%nat);
    cbn; lia.
Qed.

Lemma engagement_score_range (hook : str) (slides : list Slide) (hashtags : list str) :
  0 <= ContentForge._calculate_engagement_score hook slides hashtags <= 100.
Proof.
  unfold ContentForge._calculate_engagement_score. cbv zeta. lia.
Qed.

(** C3: the engagement score computed by the code is the clamped sum of the
    specification, and it lies between 0 and 100 for every hook, slide list and
    hashtag list. *)
Theorem C3_engagement_score (hook : str) (slides : list Slide) (hashtags : list str) :
  ContentForge._calculate_engagement_score hook slides hashtags
    = Spec.engagement_score_spec hook slides hashtags
  /\ 0 <= ContentForge._calculate_engagement_score hook slides hashtags <= 100.
Proof.
  split; [apply engagement_score_refines | apply engagement_score_range].
Qed.

(** The three degenerate inputs named by the claim. *)
Example engagement_score_empty :
  ContentForge._calculate_engagement_score [] [] [] = 55.
Proof. reflexivity. Qed.

(** ** The monad *)

Section Monad.
Context (I : Forge -> Prop).

Lemma total_ret {A} (a : A) (Q : A -> Prop) : Q a -> Spec.total_in I (ret a) Q.
Proof. intros HQ w _. exists a, w. auto. Qed.

Lemma total_bind {A B} (m : M A) (k : A -> M B) (Q1 : A -> Prop) (Q2 : B -> Prop) :
  Spec.total_in I m Q1 ->
  (forall a, Q1 a -> Spec.total_in I (k a) Q2) ->
  Spec.total_in I (bind m k) Q2.
Proof.
  intros Hm Hk w Hw. destruct (Hm w Hw) as (a & w1 & E1 & S1 & HQ1).
  assert (Hw1 : I (self w1)) by (rewrite S1; exact Hw).
  destruct (Hk a HQ1 w1 Hw1) as (b & w2 & E2 & S2 & HQ2).
  exists b, w2. unfold bind. rewrite E1, E2. split; [reflexivity|].
  split; [congruence | exact HQ2].
Qed.

Lemma total_weaken {A} (m : M A) (Q1 Q2 : A -> Prop) :
  Spec.total_in I m Q1 -> (forall a, Q1 a -> Q2 a) -> Spec.total_in I m Q2.
Proof.
  intros Hm HQ w Hw. destruct (Hm w Hw) as (a & w1 & E1 & S1 & HQ1).
  exists a, w1. auto.
Qed.

Lemma total_get_self : Spec.total_in I get_self I.
Proof. intros w Hw. exists (self w), w. auto. Qed.

Lemma total_now : Spec.total_in I now (fun _ => True).
Proof. intros w Hw. exists (clock w), w. auto. Qed.

Lemma total_randbelow (n : nat) :
  (0 < n)%nat -> Spec.total_in I (randbelow n) (fun j => (j < n)%nat).
Proof.
  intros Hn w _. unfold randbelow. destruct (rng w) as [|r rs].
  - exists 0%nat, w. auto.
  - eexists _, _. split; [reflexivity|]. split; [reflexivity|].
    apply Nat.mod_upper_bound. lia.
Qed.

Lemma total_getitem {V} (d : list (str * V)) (k : str) (v : V) :
  dict_get d k = Some v -> Spec.total_in I (ContentForge.getitem d k) (fun x => x = v).
Proof. intros E. unfold ContentForge.getitem. rewrite E. apply total_ret. reflexivity. Qed.

Lemma total_choice {A} (seq : list A) :
  seq <> [] -> Spec.total_in I (Random.choice seq) (fun x => x ∈ seq).
Proof.
  destruct seq as [|x seq']; [congruence|]. intros _. unfold Random.choice.
  eapply total_bind.
  - apply total_randbelow. cbn. lia.
  - intros i Hi. cbn beta in Hi. apply total_ret. apply list_elem_of_In. apply nth_In. exact Hi.
Qed.

Lemma total_sample_loop {A} (Pr : A -> Prop) (k : nat) :
  forall (n : nat) (pool : list A),
    (k <= n <= length pool)%nat -> Forall Pr pool ->
    Spec.total_in I (Random.sample_loop k n pool)
      (fun l => length l = k /\ Forall Pr l).
Proof.
  induction k as [|k IH]; intros n pool Hn Hpool; cbn [Random.sample_loop].
  - apply total_ret. split; [reflexivity | constructor].
  - eapply total_bind; [apply (total_randbelow n); lia|].
    intros j Hj. cbn beta in Hj.
    destruct (lookup_lt_is_Some_2 pool j) as [x Hx]; [lia|].
    destruct (lookup_lt_is_Some_2 pool (n - 1)) as [y Hy]; [lia|].
    rewrite Hx, Hy.
    eapply total_bind.
    + apply (IH (n - 1)%nat).
      * rewrite length_insert. lia.
      * apply Forall_insert; [exact Hpool|]. exact (Forall_lookup_1 Pr pool _ y Hpool Hy).
    + intros rest [Hlen Hrest]. apply total_ret. split.
      * cbn. lia.
      * constructor; [|exact Hrest]. exact (Forall_lookup_1 Pr pool j x Hpool Hx).
Qed.

Lemma total_sample {A} (Pr : A -> Prop) (population : list A) (k : Z) :
  0 <= k <= len population -> Forall Pr population ->
  Spec.total_in I (Random.sample population k)
    (fun l => len l = k /\ Forall Pr l).
Proof.
  intros Hk Hpop. unfold Random.sample.
  destruct (Z.leb_spec 0 k); [|lia].
  destruct (Z.leb_spec k (len population)); [|lia]. cbn [andb].
  eapply total_weaken.
  - apply (total_sample_loop Pr); [|exact Hpop]. unfold len in *. lia.
  - intros l [Hl HP]. split; [|exact HP]. unfold len. lia.
Qed.





(** ** Dates *)

Lemma total_timedelta (days : Z) :
  Z.abs days <= 999999999 ->
  Spec.total_in I (Datetime.timedelta days) (fun delta => delta = days).
Proof.
  intros H. unfold Datetime.timedelta.
  destruct (Z.leb_spec (Z.abs days) 999999999); [|lia].
  apply total_ret. reflexivity.
Qed.

Lemma total_date_add (date delta : Z) :
  0 < date + delta <= Datetime.MAXORDINAL ->
  Spec.total_in I (Datetime.add date delta) (fun d => d = date + delta).
Proof.
  intros H. unfold Datetime.add. cbv zeta.
  destruct (Z.ltb_spec 0 (date + delta)); [|lia].
  destruct (Z.leb_spec (date + delta) Datetime.MAXORDINAL); [|lia].
  apply total_ret. reflexivity.
Qed.

Lemma raises_date_add (date delta : Z) :
  ~ (0 < date + delta <= Datetime.MAXORDINAL) ->
  Spec.raises_in I (Datetime.add date delta) Spec.date_overflow.
Proof.
  intros H w _. unfold Datetime.add. cbv zeta.
  destruct (Z.ltb_spec 0 (date + delta));
    destruct (Z.leb_spec (date + delta) Datetime.MAXORDINAL);
    cbn [andb]; try lia; exists w; split; reflexivity.
Qed.

Lemma raises_in_bind {A B} (m : M A) (k : A -> M B) (e : exn) :
  Spec.raises_in I m e -> Spec.raises_in I (bind m k) e.
Proof.
  intros Hm w Hw. destruct (Hm w Hw) as (w' & E & S'). exists w'.
  unfold bind. rewrite E. split; [reflexivity | exact S'].
Qed.

Lemma raises_in_after {A B} (m : M A) (k : A -> M B) (Q : A -> Prop) (e : exn) :
  Spec.total_in I m Q ->
  (forall a, Q a -> Spec.raises_in I (k a) e) ->
  Spec.raises_in I (bind m k) e.
Proof.
  intros Hm Hk w Hw. destruct (Hm w Hw) as (a & w1 & E1 & S1 & HQ).
  assert (Hw1 : I (self w1)) by (rewrite S1; exact Hw).
  destruct (Hk a HQ w1 Hw1) as (w2 & E2 & S2). exists w2.
  unfold bind. rewrite E1, E2. split; [reflexivity | congruence].
Qed.

End Monad.

(** ** Lists and dict literals *)

Lemma dict_get_elem {V} (d : list (str * V)) (k : str) (v : V) :
  dict_get d k = Some v -> v ∈ map snd d.
Proof.
  induction d as [|[k' v'] d IH]; cbn [dict_get map snd]; [discriminate|].
  destruct (dict_get d k) as [u|].
  - intros [= ->]. apply elem_of_cons. right. apply IH. reflexivity.
  - destruct (decide (k' = k)); [|discriminate].
    intros [= ->]. apply elem_of_cons. left. reflexivity.
Qed.

Lemma dict_get_default_elem {V} (d : list (str * V)) (k : str) (dflt : V) :
  dict_get_default d k dflt ∈ dflt :: map snd d.
Proof.
  unfold dict_get_default. destruct (dict_get d k) as [v|] eqn:E; cbn [default].
  - apply elem_of_cons. right. eapply dict_get_elem. exact E.
  - apply elem_of_cons. left. reflexivity.
Qed.

Lemma length_remove_dups_le (l : list str) : (length (remove_dups l) <= length l)%nat.
Proof.
  induction l as [|x l IH]; cbn [remove_dups length]; [lia|].
  destruct (decide_rel elem_of x l); cbn [length]; lia.
Qed.

Lemma Forall_remove_dups (Pr : str -> Prop) (l : list str) :
  Forall Pr l -> Forall Pr (remove_dups l).
Proof.
  rewrite !Forall_forall. intros H x Hx. apply H. apply elem_of_remove_dups. exact Hx.
Qed.

Lemma length_slice_to {A} (n : Z) (l : list A) :
  0 <= n -> len (slice_to n l) = Z.min n (len l).
Proof.
  intros Hn. unfold slice_to, len. destruct (Z.leb_spec 0 n); [|lia].
  rewrite length_take. lia.
Qed.

Lemma Forall_slice_to {A} (Pr : A -> Prop) (n : Z) (l : list A) :
  Forall Pr l -> Forall Pr (slice_to n l).
Proof. intros H. unfold slice_to. destruct (0 <=? n); apply Forall_take; exact H. Qed.

(** ** The hashtag generator *)

Lemma generate_hashtags_total (I : Forge -> Prop) (P : Platform)
    (cls : ContentForge.Class) (general : list str) (industry topic : str) :
  dict_get (ContentForge.HASHTAGS cls) (py "general") = Some general ->
  (2 <= length general)%nat ->
  Spec.total_in I (ContentForge._generate_hashtags P cls industry topic)
    (fun tags =>
       exists chosen more,
         tags = ContentForge.list_set (chosen ++ Spec.topic_tags P topic ++ more)
         /\ len chosen
              = Z.min 3 (len (dict_get_default (ContentForge.HASHTAGS cls) industry general))
         /\ Forall (fun t => t ∈ dict_get_default (ContentForge.HASHTAGS cls) industry general)
              chosen
         /\ len more = 2
         /\ Forall (fun t => t ∈ general) more).
Proof.
  intros Hgen Hlen. unfold ContentForge._generate_hashtags.
  set (bank := dict_get_default (ContentForge.HASHTAGS cls) industry general).
  eapply total_bind; [apply (total_getitem I _ _ _ Hgen)|]. intros g ->.
  fold bank.
  eapply total_bind.
  { apply (total_sample I (fun t => t ∈ bank)).
    - rewrite length_slice_to by lia. unfold len. lia.
    - apply Forall_slice_to. apply Forall_forall. auto. }
  intros chosen [Hc1 Hc2].
  eapply total_bind; [apply (total_getitem I _ _ _ Hgen)|]. intros g ->.
  eapply total_bind.
  { apply (total_sample I (fun t => t ∈ general)).
    - rewrite length_slice_to by lia. unfold len. lia.
    - apply Forall_slice_to. apply Forall_forall. auto. }
  intros more [Hm1 Hm2].
  apply total_ret. exists chosen, more.
  split; [|auto]. unfold Spec.topic_tags. rewrite <- app_assoc. reflexivity.
Qed.

Lemma hash_literal : py "#" = [35%N].
Proof. reflexivity. Qed.

Lemma startswith_hash (t : str) :
  startswith (py "#") t = true -> Spec.starts_with_hash t.
Proof.
  rewrite hash_literal. destruct t as [|c t]; cbn [startswith]; [discriminate|].
  rewrite andb_true_r. intros E. apply char_eqb_eq in E. subst c. exists t. reflexivity.
Qed.

Lemma bank_ok_spec (bank : list str) :
  Spec.bank_ok bank = true ->
  (5 <= length bank)%nat /\ Forall Spec.starts_with_hash bank.
Proof.
  unfold Spec.bank_ok. intros H. apply andb_true_iff in H as [H1 H2]. split.
  - apply Nat.leb_le. exact H1.
  - apply Forall_forall. intros t Ht. apply startswith_hash.
    rewrite forallb_forall in H2. apply H2. apply list_elem_of_In. exact Ht.
Qed.

Lemma class_general_bank :
  exists general,
    dict_get (ContentForge.HASHTAGS ContentForge.class) (py "general") = Some general
    /\ Spec.bank_ok general = true.
Proof. eexists. split; vm_compute; reflexivity. Qed.

Lemma class_banks_ok :
  forallb Spec.bank_ok (map snd (ContentForge.HASHTAGS ContentForge.class)) = true.
Proof. vm_compute. reflexivity. Qed.

Lemma class_bank_ok (industry : str) (general : list str) :
  Spec.bank_ok general = true ->
  Spec.bank_ok
    (dict_get_default (ContentForge.HASHTAGS ContentForge.class) industry general) = true.
Proof.
  intros Hg. pose proof (dict_get_default_elem
    (ContentForge.HASHTAGS ContentForge.class) industry general) as H.
  apply elem_of_cons in H as [-> | H]; [exact Hg|].
  pose proof class_banks_ok as Hall. rewrite forallb_forall in Hall.
  apply Hall. apply list_elem_of_In. exact H.
Qed.

Lemma topic_tags_hash (P : Platform) (topic : str) :
  Forall Spec.starts_with_hash (Spec.topic_tags P topic)
  /\ length (Spec.topic_tags P topic) = 3%nat.
Proof.
  unfold Spec.topic_tags. rewrite hash_literal. split; [|reflexivity].
  repeat constructor; eexists; reflexivity.
Qed.

Lemma Forall_elem_of_weaken (Pr : str -> Prop) (l bank : list str) :
  Forall Pr bank -> Forall (fun t => t ∈ bank) l -> Forall Pr l.
Proof.
  rewrite !Forall_forall. intros Hb Hl x Hx. apply Hb. apply Hl. exact Hx.
Qed.

Lemma class_hashtags_total (I : Forge -> Prop) (P : Platform) (industry topic : str) :
  Spec.total_in I (ContentForge._generate_hashtags P ContentForge.class industry topic)
    (fun tags => Forall Spec.starts_with_hash tags /\ (length tags <= 8)%nat).
Proof.
  destruct class_general_bank as (general & Hgen & Hok).
  pose proof (class_bank_ok industry general Hok) as Hbank.
  apply bank_ok_spec in Hok as [Hg5 Hghash].
  apply bank_ok_spec in Hbank as [Hb5 Hbhash].
  eapply total_weaken.
  - apply (generate_hashtags_total I P _ general industry topic Hgen). lia.
  - cbn beta. intros tags (chosen & more & -> & Hc1 & Hc2 & Hm1 & Hm2).
    destruct (topic_tags_hash P topic) as [Ht1 Ht2]. split.
    + apply Forall_remove_dups. rewrite !Forall_app. repeat split.
      * exact (Forall_elem_of_weaken _ chosen _ Hbhash Hc2).
      * exact Ht1.
      * exact (Forall_elem_of_weaken _ more _ Hghash Hm2).
    + unfold ContentForge.list_set.
      etransitivity; [apply length_remove_dups_le|].
      rewrite !length_app, Ht2. unfold len in *. lia.
Qed.

(** C4: on the class as written, for every industry key (supported or not) and
    every topic, the hashtag generator returns a list of at most 8 entries, each
    starting with a hash sign, whatever the random draws. *)
Theorem C4_hashtags_prefixed_at_most_8
    (P : Platform) (industry topic : str) (w : world) :
  exists tags w',
    ContentForge._generate_hashtags P ContentForge.class industry topic w
      = (Return tags, w')
    /\ Forall Spec.starts_with_hash tags
    /\ (length tags <= 8)%nat.
Proof.
  destruct (class_hashtags_total (fun _ => True) P industry topic w Logic.I)
    as (tags & w' & E & _ & H1 & H2).
  exists tags, w'. auto.
Qed.






(** ** The slide generator *)

Lemma length_omap_le {A B} (f : A -> option B) (l : list A) :
  (length (omap f l) <= length l)%nat.
Proof.
  induction l as [|x l IH]; cbn [omap list_omap length]; [lia|].
  destruct (f x); cbn [length]; lia.
Qed.

(** C5 (as amended): for a requested count N >= 0 the slide generator returns
    at most min(N, length of the structure) slides; for a negative N the slice
    drops the last |N| slots, and the result has at most
    max(0, length of the structure + N) slides. *)
Theorem C5_slides_at_most
    (template : ContentForge.Template) (topic : str) (num_slides : Z) (voice : str) :
  (0 <= num_slides ->
     len (ContentForge._generate_slides template topic num_slides voice)
       <= Z.min num_slides (len (ContentForge.structure template)))
  /\ (num_slides < 0 ->
     len (ContentForge._generate_slides template topic num_slides voice)
       <= Z.max 0 (len (ContentForge.structure template) + num_slides)).
Proof.
  unfold ContentForge._generate_slides.
  pose proof (length_omap_le (fun slide_type => dict_get (ContentForge.slide_content topic) slide_type)
                (slice_to num_slides (ContentForge.structure template))) as H.
  split; intros HN.
  - rewrite <- length_slice_to by exact HN. unfold len. lia.
  - unfold slice_to in *. destruct (Z.leb_spec 0 num_slides); [lia|].
    rewrite length_take in H. unfold len. lia.
Qed.

Lemma C5_slides_at_most_witness :
  0 <= 5
  /\ len (ContentForge._generate_slides (Spec.class_template (py "steps"))
            (py "core workouts") 5 (py "friendly"))
     <= Z.min 5 (len (ContentForge.structure (Spec.class_template (py "steps")))).
Proof.
  assert (H : 0 <= 5) by lia.
  split; [exact H|].
  apply (proj1 (C5_slides_at_most (Spec.class_template (py "steps"))
                  (py "core workouts") 5 (py "friendly")) H).
Defined.

(** The claim as stated fails for a negative count: with the tips template and
    N = -1 the generator returns 6 slides, and min(-1, 7) = -1. *)
Lemma C5_counterexample :
  len (ContentForge._generate_slides (Spec.class_template (py "tips"))
         (py "x") (-1) (py "friendly")) = 6
  /\ len (ContentForge.structure (Spec.class_template (py "tips"))) = 7
  /\ ~ (len (ContentForge._generate_slides (Spec.class_template (py "tips"))
               (py "x") (-1) (py "friendly"))
          <= Z.min (-1) (len (ContentForge.structure (Spec.class_template (py "tips"))))).
Proof.
  assert (H1 : len (ContentForge._generate_slides (Spec.class_template (py "tips"))
                      (py "x") (-1) (py "friendly")) = 6) by (vm_compute; reflexivity).
  assert (H2 : len (ContentForge.structure (Spec.class_template (py "tips"))) = 7)
    by (vm_compute; reflexivity).
  split; [exact H1|]. split; [exact H2|]. rewrite H1, H2. lia.
Qed.

(** ** Templates and their substitution *)

Lemma forallb_weaken (R1 R2 : char -> bool) (s : str) :
  (forall c, R1 c = true -> R2 c = true) -> forallb R1 s = true -> forallb R2 s = true.
Proof.
  intros H. rewrite !forallb_forall. intros Hs c Hc. apply H, Hs, Hc.
Qed.

Lemma brace_free_spec (s : str) :
  forallb Spec.not_brace s = true <-> Spec.brace_free s.
Proof.
  unfold Spec.brace_free. rewrite forallb_forall. split.
  - intros H. split; intros Hin; apply list_elem_of_In, H in Hin; vm_compute in Hin;
      discriminate.
  - intros [Hl Hr] c Hc. apply list_elem_of_In in Hc. unfold Spec.not_brace.
    apply andb_true_iff. split; apply negb_true_iff; apply not_true_is_false;
      intros E; apply char_eqb_eq in E; subst c; contradiction.
Qed.

Section Render.
Variable P : Platform.
Variable kwargs : list (str * str).
Variable R : char -> bool.
Hypothesis R_not_brace : forall c, Spec.not_brace c = true -> R c = true.
Hypothesis R_values : forall k v, dict_get kwargs k = Some v -> forallb R v = true.

Lemma render_field_plain (text : str) :
  Spec.plain_name text = true ->
  Format.render_field P kwargs text
  = match dict_get kwargs text with
    | Some v => inr v
    | None => inl (KeyError text)
    end.
Proof.
  unfold Spec.plain_name, Format.render_field. intros H.
  apply andb_true_iff in H as [H1 H2]. apply negb_true_iff in H2. rewrite H2.
  destruct text as [|c text]; [discriminate|].
  apply andb_true_iff in H1 as [Hc Hd]. apply N.ltb_lt in Hc.
  apply negb_true_iff in Hd.
  cbn [forallb]. rewrite (to_decimal_ascii P c Hc), Hd.
  reflexivity.
Qed.

Lemma render_ok (segs : list Format.segment) :
  forallb Spec.seg_ok segs = true ->
  match Format.render P kwargs segs with
  | inr out => forallb R out = true
  | inl (KeyError _) => True
  | inl _ => False
  end.
Proof.
  induction segs as [|seg segs IH]; cbn [forallb Format.render]; [reflexivity|].
  intros H. apply andb_true_iff in H as [Hseg Hrest]. specialize (IH Hrest).
  destruct seg as [c|text|e]; cbn [Spec.seg_ok] in Hseg; [| |discriminate].
  - destruct (Format.render P kwargs segs) as [e|out]; [exact IH|].
    cbn beta iota in IH. cbn [forallb].
    apply andb_true_iff. split; [apply R_not_brace; exact Hseg | exact IH].
  - rewrite (render_field_plain text Hseg).
    destruct (dict_get kwargs text) as [v|] eqn:Ev; [|exact Logic.I].
    destruct (Format.render P kwargs segs) as [e|out]; [exact IH|].
    cbn beta iota in IH. rewrite forallb_app.
    apply andb_true_iff. split; [exact (R_values text v Ev) | exact IH].
Qed.

Lemma total_format_or_strip (I : Forge -> Prop) (template : str) :
  Spec.template_ok template = true ->
  Spec.total_in I
    (try_except_KeyError
       (lift (Format.format P kwargs template))
       (ret (replace (py "}") [] (replace (py "{") [] template))))
    (fun out => forallb R out = true).
Proof.
  unfold Spec.template_ok. intros H. apply andb_true_iff in H as [H1 H2].
  pose proof (render_ok _ H1) as Hr. unfold Format.format.
  intros w Hw. unfold try_except_KeyError, lift.
  destruct (Format.render P kwargs (Format.tokenize None template)) as [e|out].
  - destruct e; try contradiction. cbn.
    eexists _, w. split; [reflexivity|]. split; [reflexivity|].
    eapply forallb_weaken; [exact R_not_brace | exact H2].
  - cbn. exists out, w. auto.
Qed.

End Render.

Lemma templates_ok_spec (bank : list str) :
  Spec.templates_ok bank = true ->
  bank <> [] /\ forall t, t ∈ bank -> Spec.template_ok t = true.
Proof.
  destruct bank as [|t0 bank]; [discriminate|]. unfold Spec.templates_ok.
  rewrite forallb_forall. intros H. split; [congruence|].
  intros t Ht. apply H, list_elem_of_In, Ht.
Qed.

(** Discharges [forallb R v = true] for a value built from the topic and
    literals without braces. *)
Ltac value_ok Htopic Hweak :=
  repeat match goal with
         | |- forallb _ (_ ++ _) = true =>
           rewrite forallb_app; apply andb_true_intro; split
         end;
  first [ exact Htopic
        | apply Hweak; vm_compute; reflexivity ].

(** ** The hook generator *)

Lemma class_hooks_general :
  exists general,
    dict_get (ContentForge.HOOKS ContentForge.class) (py "general") = Some general
    /\ Spec.templates_ok general = true.
Proof. eexists. split; vm_compute; reflexivity. Qed.

Lemma class_hooks_ok :
  forallb Spec.templates_ok (map snd (ContentForge.HOOKS ContentForge.class)) = true.
Proof. vm_compute. reflexivity. Qed.

Lemma generate_hook_total (I : Forge -> Prop) (P : Platform) (R : char -> bool)
    (industry topic : str) :
  (forall c, Spec.not_brace c = true -> R c = true) ->
  forallb R topic = true ->
  Spec.total_in I (ContentForge._generate_hook P ContentForge.class industry topic)
    (fun hook => forallb R hook = true).
Proof.
  intros HR Htopic.
  assert (Hweak : forall s, forallb Spec.not_brace s = true -> forallb R s = true)
    by (intros s; apply forallb_weaken; exact HR).
  destruct class_hooks_general as (general & Hgen & Hok).
  unfold ContentForge._generate_hook.
  eapply total_bind; [apply (total_getitem I _ _ _ Hgen)|]. intros g ->. cbv zeta.
  assert (Hbank : Spec.templates_ok
            (dict_get_default (ContentForge.HOOKS ContentForge.class) industry general) = true).
  { pose proof (dict_get_default_elem (ContentForge.HOOKS ContentForge.class)
                  industry general) as H.
    apply elem_of_cons in H as [-> | H]; [exact Hok|].
    pose proof class_hooks_ok as Hall. rewrite forallb_forall in Hall.
    apply Hall, list_elem_of_In, H. }
  apply templates_ok_spec in Hbank as [Hne Hall].
  eapply total_bind; [apply (total_choice I _ Hne)|].
  intros hook_template Hin. cbn beta in Hin.
  apply (total_format_or_strip P _ R HR); [|apply Hall, Hin].
  intros k v Hkv. apply dict_get_elem in Hkv. revert v Hkv. apply Forall_forall.
  cbn [map snd].
  repeat (constructor; [value_ok Htopic Hweak|]).
  constructor.
Qed.

(** C6 (as amended): on the class as written, for every industry key and every
    topic without brace characters, the hook generator returns, whatever the
    draws, and the hook has no brace character. *)
Theorem C6_hook_brace_free
    (P : Platform) (industry topic : str) (w : world) :
  Spec.brace_free topic ->
  exists hook w',
    ContentForge._generate_hook P ContentForge.class industry topic w = (Return hook, w')
    /\ Spec.brace_free hook.
Proof.
  intros Htopic. apply brace_free_spec in Htopic.
  destruct (generate_hook_total (fun _ => True) P Spec.not_brace industry topic
              (fun c H => H) Htopic w Logic.I) as (hook & w' & E & _ & H).
  exists hook, w'. split; [exact E|]. apply brace_free_spec. exact H.
Qed.

Lemma C6_hook_brace_free_witness :
  Spec.brace_free (py "core workouts")
  /\ exists hook w',
       ContentForge._generate_hook AsciiOnly.platform ContentForge.class
         (py "fitness") (py "core workouts") (Spec.fresh [6%nat]) = (Return hook, w')
       /\ Spec.brace_free hook.
Proof.
  assert (H : Spec.brace_free (py "core workouts"))
    by (apply brace_free_spec; vm_compute; reflexivity).
  split; [exact H|].
  apply (C6_hook_brace_free AsciiOnly.platform (py "fitness") (py "core workouts")
           (Spec.fresh [6%nat]) H).
Defined.

(** The claim as stated fails for a topic that has a brace: the substituted
    value is copied as it is. *)
Lemma C6_counterexample :
  ContentForge._generate_hook AsciiOnly.platform ContentForge.class
    (py "general") (py "{") (Spec.fresh [3%nat])
  = (Return (py "The { guide I wish I had sooner"), Spec.fresh [])
  /\ Format.lbrace ∈ py "The { guide I wish I had sooner".
Proof.
  split; [vm_compute; reflexivity|].
  apply list_elem_of_In. vm_compute. tauto.
Qed.

(** ** The carousel generator *)

Lemma forallb_any (s : str) : forallb (fun _ : char => true) s = true.
Proof. induction s; [reflexivity | exact IHs]. Qed.

Lemma class_tips_template :
  exists tips,
    dict_get (ContentForge.CAROUSEL_TEMPLATES ContentForge.class) (py "tips") = Some tips
    /\ Spec.templates_ok (ContentForge.titles tips) = true.
Proof. eexists. split; vm_compute; reflexivity. Qed.

Lemma class_titles_ok :
  forallb (fun t => Spec.templates_ok (ContentForge.titles t))
    (map snd (ContentForge.CAROUSEL_TEMPLATES ContentForge.class)) = true.
Proof. vm_compute. reflexivity. Qed.

Lemma fill_template_total (I : Forge -> Prop) (P : Platform) (template topic : str) :
  Spec.template_ok template = true ->
  Spec.total_in I (ContentForge._fill_template P template topic) (fun _ => True).
Proof.
  intros Hok. unfold ContentForge._fill_template.
  eapply total_bind; [apply (total_choice I); discriminate|].
  intros number _. cbv zeta.
  eapply total_weaken.
  - apply (total_format_or_strip P _ (fun _ => true)); [reflexivity| |exact Hok].
    intros k v _. apply forallb_any.
  - auto.
Qed.

Lemma generate_caption_total (I : Forge -> Prop) (brand : BrandProfile) (topic hook : str) :
  Spec.total_in I (ContentForge._generate_caption brand topic hook) (fun _ => True).
Proof.
  unfold ContentForge._generate_caption. cbv zeta.
  eapply total_bind; [apply (total_choice I); discriminate|]. intros intro _.
  eapply total_bind; [apply (total_choice I); discriminate|]. intros value _.
  apply total_ret. exact Logic.I.
Qed.

Lemma select_cta_total (I : Forge -> Prop) (P : Platform) (topic : str) :
  Spec.total_in I (ContentForge._select_cta P ContentForge.class topic) (fun _ => True).
Proof.
  unfold ContentForge._select_cta.
  eapply total_bind; [apply (total_choice I); discriminate|]. intros cta _.
  apply total_ret. exact Logic.I.
Qed.

(** With the brand registered, [generate_carousel] returns a carousel; its
    hashtags and its score are as the invariants of the data model say. *)
Lemma generate_carousel_total (I : Forge -> Prop) (P : Platform)
    (brand_name : str) (brand : BrandProfile) (topic template_type : str) (num_slides : Z) :
  (forall this, I this -> brands this !! brand_name = Some brand) ->
  Spec.total_in I
    (ContentForge.generate_carousel P ContentForge.class brand_name topic
       template_type num_slides)
    (fun content =>
       content_type content = py "carousel"
       /\ Forall Spec.starts_with_hash (hashtags content)
       /\ (length (hashtags content) <= 8)%nat
       /\ 0 <= engagement_score content <= 100).
Proof.
  intros Hbrand. unfold ContentForge.generate_carousel.
  eapply total_bind; [apply total_get_self|]. intros this Hthis.
  rewrite (Hbrand this Hthis).
  destruct class_tips_template as (tips & Htips & Htitles).
  eapply total_bind; [apply (total_getitem I _ _ _ Htips)|]. intros t ->. cbv zeta.
  assert (Htpl : Spec.templates_ok (ContentForge.titles
            (dict_get_default (ContentForge.CAROUSEL_TEMPLATES ContentForge.class)
               template_type tips)) = true).
  { pose proof (dict_get_default_elem (ContentForge.CAROUSEL_TEMPLATES ContentForge.class)
                  template_type tips) as H.
    apply elem_of_cons in H as [-> | H]; [exact Htitles|].
    pose proof class_titles_ok as Hall. rewrite forallb_forall in Hall.
    apply Hall, list_elem_of_In, H. }
  apply templates_ok_spec in Htpl as [Hne Hall].
  eapply total_bind.
  { apply (generate_hook_total I P (fun _ => true)); [reflexivity | apply forallb_any]. }
  intros hook _.
  eapply total_bind; [apply generate_caption_total|]. intros caption _.
  eapply total_bind; [apply class_hashtags_total|]. intros tags [Htags Hlen].
  eapply total_bind; [apply select_cta_total|]. intros cta _.
  eapply total_bind; [apply (total_choice I _ Hne)|]. intros title_template Hin.
  eapply total_bind; [apply fill_template_total, Hall, Hin|]. intros title _.
  apply total_ret. cbn.
  split; [reflexivity|]. split; [exact Htags|]. split; [exact Hlen|].
  apply engagement_score_range.
Qed.

(** ** The content calendar *)

(** A [timedelta] holds fewer than 10^9 days; the loop stops at a date out of
    range long before. *)
Example timedelta_out_of_range :
  Datetime.timedelta 1000000000 (Spec.fresh [])
  = (Raise (OverflowError (py "days=1000000000; must have magnitude <= 999999999")),
     Spec.fresh []).
Proof. vm_compute. reflexivity. Qed.

(** The days of [range(count)] all have a date when the last one has. *)
Lemma range_days_ok (start_date count : Z) :
  Spec.dates_in_range start_date count = true ->
  Forall (Spec.day_ok start_date) (ContentForge.range count).
Proof.
  unfold Spec.dates_in_range, Spec.day_ok, ContentForge.range, Datetime.MAXORDINAL.
  intros H. apply Forall_forall. intros day Hday.
  apply elem_of_seq in Hday.
  apply orb_true_iff in H as [H|H].
  - apply Z.leb_le in H. lia.
  - apply andb_true_iff in H as [H1 H2]. apply Z.leb_le in H1, H2. lia.
Qed.

(** Otherwise the loop reaches a first day without a date. *)
Lemma range_first_overflow (start_date count : Z) :
  Spec.dates_in_range start_date count = false ->
  exists ok bad rest,
    ContentForge.range count = ok ++ bad :: rest
    /\ Forall (Spec.day_ok start_date) ok
    /\ Z.of_nat bad <= 999999999
    /\ ~ (0 < start_date + Z.of_nat bad <= Datetime.MAXORDINAL).
Proof.
  unfold Spec.dates_in_range, Spec.day_ok, ContentForge.range, Datetime.MAXORDINAL.
  intros H. apply orb_false_iff in H as [H1 H2]. apply Z.leb_gt in H1.
  destruct (Z.leb_spec 1 start_date) as [Hs|Hs].
  - cbn [andb] in H2. apply Z.leb_gt in H2.
    set (bad := Z.to_nat (3652059 - start_date + 1)).
    exists (seq 0 bad), bad, (seq (S bad) (Z.to_nat count - S bad)).
    split; [|split; [|split]].
    + change (bad :: seq (S bad) (Z.to_nat count - S bad))
        with (seq (0 + bad) (S (Z.to_nat count - S bad))).
      rewrite <- seq_app. f_equal. lia.
    + apply Forall_forall. intros day Hday. apply elem_of_seq in Hday. lia.
    + lia.
    + lia.
  - exists [], 0%nat, (seq 1 (Z.to_nat count - 1)).
    split; [|split; [constructor | split; lia]].
    change ([] ++ 0%nat :: seq 1 (Z.to_nat count - 1))
      with (seq 0 (S (Z.to_nat count - 1))).
    f_equal. lia.
Qed.

Lemma content_calendar_run (P : Platform) (cls : ContentForge.Class)
    (brand_name : str) (brand : BrandProfile) (days : Z) (w : world) :
  brands (self w) !! brand_name = Some brand ->
  ContentForge.generate_content_calendar P cls brand_name days w
  = ContentForge.calendar_loop P cls brand_name brand (clock w)
      (ContentForge.range (Z.min days (len (content_pillars brand) * 2))) w.
Proof.
  intros Hbrand. unfold ContentForge.generate_content_calendar.
  unfold bind at 1. unfold get_self at 1. rewrite Hbrand.
  unfold bind at 1. unfold now at 1. reflexivity.
Qed.

Lemma calendar_loop_total (I : Forge -> Prop) (P : Platform)
    (brand_name : str) (brand : BrandProfile) (start_date : Z) :
  (forall this, I this -> brands this !! brand_name = Some brand) ->
  content_pillars brand <> [] ->
  forall days : list nat,
    Forall (Spec.day_ok start_date) days ->
    Spec.total_in I
      (ContentForge.calendar_loop P ContentForge.class brand_name brand start_date days)
      (Forall2
         (fun day entry =>
            content_pillars brand !! (day mod length (content_pillars brand))%nat
            = Some (d_topic entry))
         days).
Proof.
  intros Hbrand Hne days Hok.
  assert (Hpos : (0 < length (content_pillars brand))%nat)
    by (destruct (content_pillars brand); [congruence | cbn; lia]).
  induction Hok as [|i days [Hi Hd] Hok IH]; cbn [ContentForge.calendar_loop].
  - apply total_ret. constructor.
  - eapply total_bind; [apply total_timedelta; lia|]. intros delta ->.
    eapply total_bind; [apply total_date_add; exact Hd|]. intros date ->.
    unfold ContentForge.index.
    destruct (lookup_lt_is_Some_2 (content_pillars brand)
                (i mod length (content_pillars brand))) as [pillar Hp].
    { apply Nat.mod_upper_bound. lia. }
    rewrite Hp.
    eapply (total_bind I _ _ (fun p => p = pillar)); [apply total_ret; reflexivity|].
    intros p ->.
    eapply total_bind; [apply (total_choice I); discriminate|]. intros template_type _.
    eapply total_bind; [apply (generate_carousel_total I P _ brand); exact Hbrand|].
    intros content _.
    eapply total_bind; [exact IH|]. intros calendar Hcal.
    apply total_ret. constructor; [exact Hp | exact Hcal].
Qed.

(** The loop stops with [OverflowError] at the first day without a date; the
    entries made before it are lost with the call. *)
Lemma calendar_loop_overflow (I : Forge -> Prop) (P : Platform)
    (brand_name : str) (brand : BrandProfile) (start_date : Z) :
  (forall this, I this -> brands this !! brand_name = Some brand) ->
  content_pillars brand <> [] ->
  forall (ok : list nat) (bad : nat) (rest : list nat),
    Forall (Spec.day_ok start_date) ok ->
    Z.of_nat bad <= 999999999 ->
    ~ (0 < start_date + Z.of_nat bad <= Datetime.MAXORDINAL) ->
    Spec.raises_in I
      (ContentForge.calendar_loop P ContentForge.class brand_name brand start_date
         (ok ++ bad :: rest))
      Spec.date_overflow.
Proof.
  intros Hbrand Hne ok bad rest Hok Hbad Hout.
  assert (Hpos : (0 < length (content_pillars brand))%nat)
    by (destruct (content_pillars brand); [congruence | cbn; lia]).
  induction Hok as [|i days [Hi Hd] Hok IH].
  - cbn [app ContentForge.calendar_loop].
    eapply raises_in_after; [apply total_timedelta; lia|]. intros delta ->.
    apply raises_in_bind. apply raises_date_add. exact Hout.
  - rewrite <- app_comm_cons. cbn [ContentForge.calendar_loop].
    eapply raises_in_after; [apply total_timedelta; lia|]. intros delta ->.
    eapply raises_in_after; [apply total_date_add; exact Hd|]. intros date ->.
    unfold ContentForge.index.
    destruct (lookup_lt_is_Some_2 (content_pillars brand)
                (i mod length (content_pillars brand))) as [pillar Hp].
    { apply Nat.mod_upper_bound. lia. }
    rewrite Hp.
    eapply (raises_in_after I _ _ (fun p => p = pillar)); [apply total_ret; reflexivity|].
    intros p ->.
    eapply raises_in_after; [apply (total_choice I); discriminate|].
    intros template_type _.
    eapply raises_in_after; [apply (generate_carousel_total I P _ brand); exact Hbrand|].
    intros content _.
    apply raises_in_bind. exact IH.
Qed.

(** C8 (as amended): for a registered brand with P >= 1 content pillars and a
    requested number of days d, let n = min(d, 2 P). When the n dates from the
    clock's day on are dates a datetime can hold (n <= 0, or the last of them
    is not past 9999-12-31), the calendar is returned and has max(0, n)
    entries, that is min(d, 2 P) when d >= 0 and none when d is negative, and
    the topic of entry i is pillar i mod P. Otherwise the call raises
    OverflowError, returns no calendar, and leaves the forge as it was. *)
Theorem C8_calendar_entries
    (P : Platform) (brand_name : str) (brand : BrandProfile) (days : Z) (w : world) :
  brands (self w) !! brand_name = Some brand ->
  content_pillars brand <> [] ->
  if Spec.dates_in_range (clock w) (Z.min days (2 * len (content_pillars brand)))
  then
    exists calendar w',
      ContentForge.generate_content_calendar P ContentForge.class brand_name days w
        = (Return calendar, w')
      /\ len calendar = Z.max 0 (Z.min days (2 * len (content_pillars brand)))
      /\ forall i entry,
           calendar !! i = Some entry ->
           content_pillars brand !! (i mod length (content_pillars brand))%nat
           = Some (d_topic entry)
  else
    exists w',
      ContentForge.generate_content_calendar P ContentForge.class brand_name days w
        = (Raise Spec.date_overflow, w')
      /\ self w' = self w.
Proof.
  intros Hbrand Hne.
  rewrite (content_calendar_run P _ brand_name brand days w Hbrand).
  replace (len (content_pillars brand) * 2) with (2 * len (content_pillars brand)) by lia.
  assert (HI : forall this, this = self w -> brands this !! brand_name = Some brand)
    by (intros this ->; exact Hbrand).
  destruct (Spec.dates_in_range (clock w) (Z.min days (2 * len (content_pillars brand))))
    eqn:Hrange.
  - destruct (calendar_loop_total _ P brand_name brand (clock w) HI Hne _
                (range_days_ok _ _ Hrange) w eq_refl)
      as (calendar & w' & E & _ & Hcal).
    exists calendar, w'. split; [exact E|]. split.
    + apply Forall2_length in Hcal. unfold ContentForge.range in Hcal.
      rewrite length_seq in Hcal. unfold len in *. lia.
    + intros i entry Hi.
      destruct (Forall2_lookup_r _ _ _ _ _ Hcal Hi) as (day & Hday & Htopic).
      unfold ContentForge.range in Hday. apply lookup_seq in Hday as [-> _].
      exact Htopic.
  - destruct (range_first_overflow _ _ Hrange) as (ok & bad & rest & -> & Hok & Hbad & Hout).
    exact (calendar_loop_overflow _ P brand_name brand (clock w) HI Hne
             ok bad rest Hok Hbad Hout w eq_refl).
Qed.

(** Ten days for the three pillars of BrandX, from 2026-01-01 on. *)
Lemma C8_calendar_entries_witness :
  brands (self (Spec.brandx_world_on Spec.new_year_2026 [])) !! py "BrandX"
    = Some Spec.brandx
  /\ content_pillars Spec.brandx <> []
  /\ exists calendar w',
       ContentForge.generate_content_calendar AsciiOnly.platform ContentForge.class
         (py "BrandX") 10 (Spec.brandx_world_on Spec.new_year_2026 [])
         = (Return calendar, w')
       /\ len calendar = Z.max 0 (Z.min 10 (2 * len (content_pillars Spec.brandx)))
       /\ forall i entry,
            calendar !! i = Some entry ->
            content_pillars Spec.brandx !! (i mod length (content_pillars Spec.brandx))%nat
            = Some (d_topic entry).
Proof.
  assert (H1 : brands (self (Spec.brandx_world_on Spec.new_year_2026 [])) !! py "BrandX"
               = Some Spec.brandx)
    by (vm_compute; reflexivity).
  assert (H2 : content_pillars Spec.brandx <> []) by discriminate.
  split; [exact H1|]. split; [exact H2|].
  exact (C8_calendar_entries AsciiOnly.platform (py "BrandX") Spec.brandx 10
           (Spec.brandx_world_on Spec.new_year_2026 []) H1 H2).
Defined.

(** The instance named by the claim: 3 pillars and 10 days give 6 entries. *)
Example calendar_ten_days_three_pillars :
  exists calendar w',
    ContentForge.generate_content_calendar AsciiOnly.platform ContentForge.class
      (py "BrandX") 10 (Spec.brandx_world_on Spec.new_year_2026 [])
      = (Return calendar, w')
    /\ len calendar = 6
    /\ map d_topic calendar
       = [py "core workouts"; py "nutrition"; py "recovery";
          py "core workouts"; py "nutrition"; py "recovery"].
Proof. eexists _, _. split; [vm_compute; reflexivity|]. split; vm_compute; reflexivity. Qed.

(** The claim as stated fails in two ways. For a negative number of days the
    calendar is empty, and min(-1, 2 * 3) = -1 is not its length. And on
    9999-12-31 a calendar of two days is not returned: the second date does
    not exist, and the call raises [OverflowError]. *)
Lemma C8_counterexample :
  brands (self (Spec.brandx_world_on Spec.new_year_2026 [])) !! py "BrandX"
    = Some Spec.brandx
  /\ ContentForge.generate_content_calendar AsciiOnly.platform ContentForge.class
       (py "BrandX") (-1) (Spec.brandx_world_on Spec.new_year_2026 [])
     = (Return [], Spec.brandx_world_on Spec.new_year_2026 [])
  /\ len (@nil DayRecord) <> Z.min (-1) (2 * len (content_pillars Spec.brandx))
  /\ brands (self (Spec.brandx_world_on Datetime.MAXORDINAL [])) !! py "BrandX"
     = Some Spec.brandx
  /\ ContentForge.generate_content_calendar AsciiOnly.platform ContentForge.class
       (py "BrandX") 2 (Spec.brandx_world_on Datetime.MAXORDINAL [])
     = (Raise (OverflowError (py "date value out of range")),
        Spec.brandx_world_on Datetime.MAXORDINAL []).
Proof.
  split; [vm_compute; reflexivity|]. split; [vm_compute; reflexivity|].
  split; [vm_compute; discriminate|].
  split; vm_compute; reflexivity.
Qed.

(** ** The frame: what a call leaves of the forge *)

Create HintDb frame.

Lemma preserves_ret {A} (a : A) : Spec.preserves (ret a).
Proof. intros w. reflexivity. Qed.

Lemma preserves_raise {A} (e : exn) : Spec.preserves (@raise A e).
Proof. intros w. reflexivity. Qed.

Lemma preserves_bind {A B} (m : M A) (k : A -> M B) :
  Spec.preserves m -> (forall a, Spec.preserves (k a)) -> Spec.preserves (bind m k).
Proof.
  intros Hm Hk w. unfold bind. specialize (Hm w).
  destruct (m w) as [[a|e] w1]; cbn [snd] in *.
  - rewrite Hk. exact Hm.
  - exact Hm.
Qed.

Lemma preserves_try_except_KeyError {A} (body handler : M A) :
  Spec.preserves body -> Spec.preserves handler ->
  Spec.preserves (try_except_KeyError body handler).
Proof.
  intros Hb Hh w. unfold try_except_KeyError. specialize (Hb w).
  destruct (body w) as [[a|e] w1]; cbn [snd] in *; [exact Hb|].
  destruct e; cbn [snd]; try exact Hb. rewrite Hh. exact Hb.
Qed.

Lemma preserves_lift {A} (r : exn + A) : Spec.preserves (lift r).
Proof. destruct r; intros w; reflexivity. Qed.

Lemma preserves_get_self : Spec.preserves get_self.
Proof. intros w. reflexivity. Qed.

Lemma preserves_now : Spec.preserves now.
Proof. intros w. reflexivity. Qed.

Lemma preserves_randbelow (n : nat) : Spec.preserves (randbelow n).
Proof. intros w. unfold randbelow. destruct (rng w); reflexivity. Qed.

Lemma preserves_getitem {V} (d : list (str * V)) (k : str) :
  Spec.preserves (ContentForge.getitem d k).
Proof. unfold ContentForge.getitem. destruct (dict_get d k); intros w; reflexivity. Qed.

Lemma preserves_index {A} (l : list A) (i : nat) : Spec.preserves (ContentForge.index l i).
Proof. unfold ContentForge.index. destruct (l !! i); intros w; reflexivity. Qed.

Lemma preserves_timedelta (days : Z) : Spec.preserves (Datetime.timedelta days).
Proof.
  unfold Datetime.timedelta. destruct (Z.abs days <=? 999999999); intros w; reflexivity.
Qed.

Lemma preserves_date_add (date delta : Z) : Spec.preserves (Datetime.add date delta).
Proof.
  unfold Datetime.add. cbv zeta.
  destruct ((0 <? date + delta) && (date + delta <=? Datetime.MAXORDINAL));
    intros w; reflexivity.
Qed.

#[local] Hint Resolve preserves_ret preserves_raise preserves_lift preserves_get_self
  preserves_now preserves_randbelow preserves_getitem preserves_index
  preserves_timedelta preserves_date_add : frame.

(** One step of the frame argument on a computation written with the monad. *)
Ltac frame_step :=
  first
    [ solve [auto with frame]
    | apply preserves_bind; [|intros ?]
    | apply preserves_try_except_KeyError
    | match goal with
      | |- Spec.preserves (match ?x with _ => _ end) => destruct x
      | |- Spec.preserves (if ?b then _ else _) => destruct b
      end
    | progress cbv zeta ].

Ltac frame := repeat frame_step.

Lemma preserves_choice {A} (seq : list A) : Spec.preserves (Random.choice seq).
Proof. unfold Random.choice. frame. Qed.

Lemma preserves_sample_loop {A} (k : nat) :
  forall (n : nat) (pool : list A), Spec.preserves (Random.sample_loop k n pool).
Proof.
  induction k as [|k IH]; intros n pool; cbn [Random.sample_loop]; frame.
Qed.

Lemma preserves_sample {A} (population : list A) (k : Z) :
  Spec.preserves (Random.sample population k).
Proof. unfold Random.sample. frame. apply preserves_sample_loop. Qed.

Lemma preserves_randint (a b : Z) : Spec.preserves (Random.randint a b).
Proof. unfold Random.randint. frame. Qed.

#[local] Hint Resolve preserves_choice preserves_sample preserves_randint : frame.

Section Frame.
Variable P : Platform.
Variable cls : ContentForge.Class.

Lemma preserves_generate_colors : Spec.preserves ContentForge._generate_colors.
Proof. unfold ContentForge._generate_colors. frame. Qed.

Lemma preserves_generate_hook (industry topic : str) :
  Spec.preserves (ContentForge._generate_hook P cls industry topic).
Proof. unfold ContentForge._generate_hook. frame. Qed.

Lemma preserves_fill_template (template topic : str) :
  Spec.preserves (ContentForge._fill_template P template topic).
Proof. unfold ContentForge._fill_template. frame. Qed.

Lemma preserves_generate_caption (brand : BrandProfile) (topic hook : str) :
  Spec.preserves (ContentForge._generate_caption brand topic hook).
Proof. unfold ContentForge._generate_caption. frame. Qed.

Lemma preserves_generate_hashtags (industry topic : str) :
  Spec.preserves (ContentForge._generate_hashtags P cls industry topic).
Proof. unfold ContentForge._generate_hashtags. frame. Qed.

Lemma preserves_select_cta (topic : str) :
  Spec.preserves (ContentForge._select_cta P cls topic).
Proof. unfold ContentForge._select_cta. frame. Qed.

Hint Resolve preserves_generate_colors preserves_generate_hook preserves_fill_template
  preserves_generate_caption preserves_generate_hashtags preserves_select_cta : frame.

Lemma preserves_generate_carousel (brand_name topic template_type : str) (num_slides : Z) :
  Spec.preserves
    (ContentForge.generate_carousel P cls brand_name topic template_type num_slides).
Proof. unfold ContentForge.generate_carousel. frame. Qed.

Hint Resolve preserves_generate_carousel : frame.

Lemma preserves_calendar_loop (brand_name : str) (brand : BrandProfile) (start_date : Z)
    (days : list nat) :
  Spec.preserves (ContentForge.calendar_loop P cls brand_name brand start_date days).
Proof.
  induction days as [|i days IH]; cbn [ContentForge.calendar_loop]; frame.
Qed.

Hint Resolve preserves_calendar_loop : frame.

Lemma preserves_generate_content_calendar (brand_name : str) (days : Z) :
  Spec.preserves (ContentForge.generate_content_calendar P cls brand_name days).
Proof. unfold ContentForge.generate_content_calendar. frame. Qed.

Lemma preserves_generate_single_post (brand_name topic post_type : str) :
  Spec.preserves (ContentForge.generate_single_post P cls brand_name topic post_type).
Proof. unfold ContentForge.generate_single_post. frame. Qed.

Lemma preserves_discard {A} (m : M A) : Spec.preserves m -> Spec.preserves (Spec.discard m).
Proof. intros H. unfold Spec.discard. frame. Qed.

Lemma generate_colors_total :
  Spec.total_in (fun _ => True) ContentForge._generate_colors (fun _ => True).
Proof.
  unfold ContentForge._generate_colors. cbv zeta.
  eapply total_weaken; [apply total_choice; discriminate | auto].
Qed.

(** [create_brand] returns the profile built from its arguments and binds it
    under its name; nothing else of the forge changes. *)
Lemma create_brand_effect (nm ind vc audience : str)
    (pillars : list str) (frequency : Z) (w : world) :
  exists brand w',
    ContentForge.create_brand nm ind vc audience pillars frequency w = (Return brand, w')
    /\ brands (self w') = <[nm := brand]> (brands (self w))
    /\ content_history (self w') = content_history (self w)
    /\ name brand = nm
    /\ content_pillars brand = pillars.
Proof.
  unfold ContentForge.create_brand.
  destruct (generate_colors_total w Logic.I) as (colors & w1 & E & Hs & _).
  unfold bind at 1. rewrite E. cbv zeta.
  unfold bind, get_self, put_self, ret. cbn.
  eexists _, _. split; [reflexivity|]. cbn. rewrite Hs. auto.
Qed.

Lemma run_call_history (c : Spec.call) (w : world) :
  content_history (self (snd (Spec.run_call P cls c w))) = content_history (self w).
Proof.
  destruct c as [nm ind vc audience pillars frequency| | | | | | | | |];
    cbn [Spec.run_call];
    try solve [rewrite preserves_discard; [reflexivity|]; auto with frame].
  - destruct (create_brand_effect nm ind vc audience pillars frequency w)
      as (brand & w' & E & _ & H & _).
    unfold Spec.discard, bind. rewrite E. cbn. exact H.
  - rewrite preserves_discard; [reflexivity|].
    apply preserves_generate_content_calendar.
  - rewrite preserves_discard; [reflexivity|].
    apply preserves_generate_single_post.
Qed.

Lemma run_calls_history (calls : list Spec.call) :
  forall w, content_history (self (Spec.run_calls P cls calls w)) = content_history (self w).
Proof.
  unfold Spec.run_calls.
  induction calls as [|c calls IH]; intros w; cbn [fold_left]; [reflexivity|].
  rewrite IH. apply run_call_history.
Qed.

End Frame.

(** C10: every generation operation leaves the brands mapping and the content
    history of the forge as they were, whether it returns or raises;
    create_brand binds the new profile under its name, replacing any earlier
    one, and changes nothing else; and along any sequence of calls on a new
    forge the content history stays empty. *)
Theorem C10_generation_leaves_forge (P : Platform) (cls : ContentForge.Class) :
  (forall brand_name topic template_type num_slides,
     Spec.preserves
       (ContentForge.generate_carousel P cls brand_name topic template_type num_slides))
  /\ (forall brand_name topic post_type,
       Spec.preserves (ContentForge.generate_single_post P cls brand_name topic post_type))
  /\ (forall brand_name days,
       Spec.preserves (ContentForge.generate_content_calendar P cls brand_name days))
  /\ (forall industry topic,
       Spec.preserves (ContentForge._generate_hook P cls industry topic))
  /\ (forall brand topic hook,
       Spec.preserves (ContentForge._generate_caption brand topic hook))
  /\ (forall industry topic,
       Spec.preserves (ContentForge._generate_hashtags P cls industry topic))
  /\ (forall nm ind vc audience pillars frequency w,
       exists brand w',
         ContentForge.create_brand nm ind vc audience pillars frequency w
           = (Return brand, w')
         /\ brands (self w') = <[nm := brand]> (brands (self w))
         /\ content_history (self w') = content_history (self w)
         /\ name brand = nm
         /\ content_pillars brand = pillars)
  /\ (forall calls draws today,
       content_history
         (self (Spec.run_calls P cls calls
                  {| self := ContentForge.__init__; rng := draws; clock := today |}))
       = []).
Proof.
  split; [intros; apply preserves_generate_carousel|].
  split; [intros; apply preserves_generate_single_post|].
  split; [intros; apply preserves_generate_content_calendar|].
  split; [intros; apply preserves_generate_hook|].
  split; [intros; apply preserves_generate_caption|].
  split; [intros; apply preserves_generate_hashtags|].
  split; [intros; apply create_brand_effect|].
  intros calls draws today. rewrite run_calls_history. reflexivity.
Qed.

(** ** The route handlers *)

Lemma raises_raise {A} (e : exn) : Spec.raises (@raise A e).
Proof. intros w. exists e, w. reflexivity. Qed.

Lemma raises_bind_l {A B} (m : M A) (k : A -> M B) :
  Spec.raises m -> Spec.raises (bind m k).
Proof.
  intros Hm w. destruct (Hm w) as (e & w' & E). exists e, w'.
  unfold bind. rewrite E. reflexivity.
Qed.

Lemma raises_bind_r {A B} (m : M A) (k : A -> M B) :
  (forall a, Spec.raises (k a)) -> Spec.raises (bind m k).
Proof.
  intros Hk w. unfold bind. destruct (m w) as [[a|e] w1].
  - apply Hk.
  - exists e, w1. reflexivity.
Qed.

Lemma try_except_raises {A} (body : M A) (f : exn -> A) :
  Spec.raises body ->
  forall w, exists e w', try_except body (fun e => ret (f e)) w = (Return (f e), w').
Proof.
  intros Hb w. destruct (Hb w) as (e & w' & E). exists e, w'.
  unfold try_except. rewrite E. reflexivity.
Qed.

Lemma getattr_generate_carousel_post :
  ContentForge.getattr (py "generate_carousel_post")
  = raise (AttributeError
             (py "'ContentForge' object has no attribute 'generate_carousel_post'")).
Proof. vm_compute. reflexivity. Qed.

Lemma getattr_generate_caption :
  ContentForge.getattr (py "generate_caption")
  = raise (AttributeError
             (py "'ContentForge' object has no attribute 'generate_caption'")).
Proof. vm_compute. reflexivity. Qed.

Lemma app_carousel_fails (P : Platform) (absent : Absent)
    (request : get_json_result) (w : world) :
  exists e w',
    App.generate_carousel P absent request w
    = (Return (Failure (Json.exn_str P e), 500), w').
Proof.
  unfold App.generate_carousel.
  apply (try_except_raises _ (fun e => (Failure (Json.exn_str P e), 500))).
  do 7 (apply raises_bind_r; intros ?).
  apply raises_bind_l. rewrite getattr_generate_carousel_post. apply raises_raise.
Qed.

Lemma server_carousel_fails (P : Platform) (absent : Absent)
    (request : get_json_result) (w : world) :
  exists e w',
    Server.generate_carousel P absent request w
    = (Return (Failure (Json.exn_str P e), 500), w').
Proof.
  unfold Server.generate_carousel.
  apply (try_except_raises _ (fun e => (Failure (Json.exn_str P e), 500))).
  do 7 (apply raises_bind_r; intros ?).
  apply raises_bind_l. rewrite getattr_generate_carousel_post. apply raises_raise.
Qed.

Lemma app_caption_fails (P : Platform) (absent : Absent)
    (request : get_json_result) (w : world) :
  exists e w',
    App.generate_caption P absent request w
    = (Return (Failure (Json.exn_str P e), 500), w').
Proof.
  unfold App.generate_caption.
  apply (try_except_raises _ (fun e => (Failure (Json.exn_str P e), 500))).
  do 3 (apply raises_bind_r; intros ?).
  apply raises_bind_l. rewrite getattr_generate_caption. apply raises_raise.
Qed.

Lemma server_caption_fails (P : Platform) (absent : Absent)
    (request : get_json_result) (w : world) :
  exists e w',
    Server.generate_caption P absent request w
    = (Return (Failure (Json.exn_str P e), 500), w').
Proof.
  unfold Server.generate_caption.
  apply (try_except_raises _ (fun e => (Failure (Json.exn_str P e), 500))).
  do 3 (apply raises_bind_r; intros ?).
  apply raises_bind_l. rewrite getattr_generate_caption. apply raises_raise.
Qed.

(** C1: the carousel handler of either file answers every request with the
    failure shape and status 500, because the method it calls on the forge,
    [generate_carousel_post], is not an attribute of [ContentForge]; for the
    body with no fields (all defaults) the error is the attribute error. *)
Theorem C1_carousel_handler_fails (P : Platform) (absent : Absent) :
  (forall request w,
     (exists e w', App.generate_carousel P absent request w
                   = (Return (Failure (Json.exn_str P e), 500), w'))
     /\ (exists e w', Server.generate_carousel P absent request w
                      = (Return (Failure (Json.exn_str P e), 500), w')))
  /\ (forall w,
       App.generate_carousel P absent (GetJsonReturns (Json.Obj [])) w
       = (Return (Failure
            (py "'ContentForge' object has no attribute 'generate_carousel_post'"), 500), w)
       /\ Server.generate_carousel P absent (GetJsonReturns (Json.Obj [])) w
         = (Return (Failure
              (py "'ContentForge' object has no attribute 'generate_carousel_post'"), 500), w)).
Proof.
  split.
  - intros request w. split; [apply app_carousel_fails | apply server_carousel_fails].
  - intros w. split; vm_compute; reflexivity.
Qed.

(** C2: the caption handler of either file answers every request, whatever
    [get_json] makes of the body, with the failure shape and status 500:
    [generate_caption] is not an attribute of [ContentForge]. A body with no
    fields gives the attribute error; no body (get_json returning None) gives
    the error of calling [get] on None. *)
Theorem C2_caption_handler_fails (P : Platform) (absent : Absent) :
  (forall request w,
     (exists e w', App.generate_caption P absent request w
                   = (Return (Failure (Json.exn_str P e), 500), w'))
     /\ (exists e w', Server.generate_caption P absent request w
                      = (Return (Failure (Json.exn_str P e), 500), w')))
  /\ (forall w,
       App.generate_caption P absent (GetJsonReturns (Json.Obj [])) w
       = (Return (Failure
            (py "'ContentForge' object has no attribute 'generate_caption'"), 500), w)
       /\ Server.generate_caption P absent (GetJsonReturns (Json.Obj [])) w
         = (Return (Failure
              (py "'ContentForge' object has no attribute 'generate_caption'"), 500), w))
  /\ (forall w,
       App.generate_caption P absent (GetJsonReturns Json.Null) w
       = (Return (Failure (py "'NoneType' object has no attribute 'get'"), 500), w)
       /\ Server.generate_caption P absent (GetJsonReturns Json.Null) w
         = (Return (Failure (py "'NoneType' object has no attribute 'get'"), 500), w)).
Proof.
  split; [|split].
  - intros request w. split; [apply app_caption_fails | apply server_caption_fails].
  - intros w. split; vm_compute; reflexivity.
  - intros w. split; vm_compute; reflexivity.
Qed.

Lemma int_abc (P : Platform) :
  Json.int P (Json.Str (py "abc"))
  = raise (ValueError (py "invalid literal for int() with base 10: "
                       ++ str_repr P (py "abc"))).
Proof.
  unfold Json.int.
  assert (E : Json.parse_long (Json.to_ascii P (py "abc")) = None)
    by (vm_compute; reflexivity).
  rewrite E. reflexivity.
Qed.

Lemma int_message_nonempty (tail : str) :
  py "invalid literal for int() with base 10: " ++ tail <> [].
Proof.
  intros E. apply app_eq_nil in E as [E _]. vm_compute in E. discriminate.
Qed.

(** C9: when the body is an object whose num_slides is the string "abc", the
    carousel handler of either file answers with status 500 and the failure
    shape, and the error message, that of [int], is not empty. *)
Theorem C9_carousel_num_slides_abc
    (P : Platform) (absent : Absent) (members : list (str * Json.value)) (w : world) :
  dict_get members (py "num_slides") = Some (Json.Str (py "abc")) ->
  exists msg,
    msg <> []
    /\ App.generate_carousel P absent (GetJsonReturns (Json.Obj members)) w
       = (Return (Failure msg, 500), w)
    /\ Server.generate_carousel P absent (GetJsonReturns (Json.Obj members)) w
       = (Return (Failure msg, 500), w).
Proof.
  intros H.
  exists (py "invalid literal for int() with base 10: " ++ str_repr P (py "abc")).
  split; [apply int_message_nonempty|].
  unfold App.generate_carousel, Server.generate_carousel, try_except, bind,
    get_json, Json.get, ret, dict_get_default.
  rewrite H. cbn [default]. rewrite int_abc. split; reflexivity.
Qed.

Lemma C9_carousel_num_slides_abc_witness :
  dict_get [(py "topic", Json.Str (py "Email")); (py "num_slides", Json.Str (py "abc"))]
    (py "num_slides") = Some (Json.Str (py "abc"))
  /\ exists msg,
       msg <> []
       /\ App.generate_carousel AsciiOnly.platform Spec.no_absent
            (GetJsonReturns
               (Json.Obj [(py "topic", Json.Str (py "Email"));
                          (py "num_slides", Json.Str (py "abc"))]))
            (Spec.fresh [])
          = (Return (Failure msg, 500), Spec.fresh [])
       /\ Server.generate_carousel AsciiOnly.platform Spec.no_absent
            (GetJsonReturns
               (Json.Obj [(py "topic", Json.Str (py "Email"));
                          (py "num_slides", Json.Str (py "abc"))]))
            (Spec.fresh [])
          = (Return (Failure msg, 500), Spec.fresh []).
Proof.
  assert (H : dict_get [(py "topic", Json.Str (py "Email"));
                        (py "num_slides", Json.Str (py "abc"))]
                (py "num_slides") = Some (Json.Str (py "abc")))
    by (vm_compute; reflexivity).
  split; [exact H|].
  apply (C9_carousel_num_slides_abc AsciiOnly.platform Spec.no_absent _ (Spec.fresh []) H).
Defined.

(** The message of that response on the ASCII platform. *)
Example carousel_num_slides_abc_message :
  App.generate_carousel AsciiOnly.platform Spec.no_absent
    (GetJsonReturns (Json.Obj [(py "num_slides", Json.Str (py "abc"))])) (Spec.fresh [])
  = (Return (Failure (py "invalid literal for int() with base 10: 'abc'"), 500),
     Spec.fresh []).
Proof. vm_compute. reflexivity. Qed.

(** * Further properties of the code *)

(** ** The engagement score, continued *)

(** X1: the score is one of 50, 55, ..., 90: the four bonuses add up to at most
    40, so neither bound of the final clamp is ever reached. *)
Theorem X1_engagement_score_50_90
    (hook : str) (slides : list Slide) (hashtags : list str) :
  50 <= ContentForge._calculate_engagement_score hook slides hashtags <= 90
  /\ (ContentForge._calculate_engagement_score hook slides hashtags) mod 5 = 0
  /\ ContentForge._calculate_engagement_score hook slides hashtags
     = 50
       + Spec.bonus (bool_decide (Exists (fun c => c ∈ hook) Spec.emphasis)) 10
       + Spec.bonus (bool_decide (length hook < 60)%nat) 5
       + Spec.bonus (bool_decide (5 <= length slides <= 10)%nat) 15
       + Spec.bonus (bool_decide (8 <= length hashtags <= 15)%nat) 10.
Proof.
  rewrite engagement_score_refines.
  unfold Spec.engagement_score_spec, Spec.clamp, Spec.bonus.
  destruct (bool_decide (Exists _ _)), (bool_decide (_ < _)%nat),
    (bool_decide (5 <= _ <= _)%nat), (bool_decide (8 <= _ <= _)%nat);
    cbn; repeat split; lia.
Qed.

(** ** The slide generator, continued *)

Lemma length_omap_all {A B} (f : A -> option B) (l : list A) :
  Forall (fun x => is_Some (f x)) l -> length (omap f l) = length l.
Proof.
  induction 1 as [|x l [y Hy] _ IH]; cbn [omap list_omap length]; [reflexivity|].
  rewrite Hy. cbn [length]. f_equal. exact IH.
Qed.

Lemma Forall_omap {A B} (f : A -> option B) (Q : B -> Prop) (l : list A) :
  (forall x y, f x = Some y -> Q y) -> Forall Q (omap f l).
Proof.
  intros H. induction l as [|x l IH]; cbn [omap list_omap]; [constructor|].
  destruct (f x) as [y|] eqn:E; [|exact IH]. constructor; [exact (H x y E) | exact IH].
Qed.

(** Every slot of every template of the class has its slide. *)
Lemma class_slots_known (topic : str) :
  forallb
    (fun t =>
       forallb (fun slot => bool_decide (is_Some (dict_get (ContentForge.slide_content topic) slot)))
         (ContentForge.structure t)
       && (7 <=? length (ContentForge.structure t))%nat
       && (length (ContentForge.structure t) <=? 8)%nat)
    (map snd (ContentForge.CAROUSEL_TEMPLATES ContentForge.class)) = true.
Proof. vm_compute. reflexivity. Qed.

Lemma class_template_elem (template_type : str) :
  Spec.class_template template_type
    ∈ map snd (ContentForge.CAROUSEL_TEMPLATES ContentForge.class).
Proof.
  unfold Spec.class_template. cbv zeta.
  destruct class_tips_template as (tips & Htips & _). rewrite Htips.
  cbn [default from_option id].
  pose proof (dict_get_default_elem (ContentForge.CAROUSEL_TEMPLATES ContentForge.class)
                template_type tips) as H.
  apply elem_of_cons in H as [-> | H]; [|exact H].
  eapply dict_get_elem. exact Htips.
Qed.

Lemma class_template_slots (template_type topic : str) :
  Forall (fun slot => is_Some (dict_get (ContentForge.slide_content topic) slot))
    (ContentForge.structure (Spec.class_template template_type))
  /\ (7 <= length (ContentForge.structure (Spec.class_template template_type)) <= 8)%nat.
Proof.
  pose proof (class_slots_known topic) as Hall. rewrite forallb_forall in Hall.
  specialize (Hall _ (proj1 (list_elem_of_In _ _) (class_template_elem template_type))).
  apply andb_true_iff in Hall as [Hall H8]. apply andb_true_iff in Hall as [Hall H7].
  apply Nat.leb_le in H7, H8. split; [|lia].
  apply Forall_forall. intros slot Hslot. rewrite forallb_forall in Hall.
  specialize (Hall slot (proj1 (list_elem_of_In _ _) Hslot)).
  apply bool_decide_eq_true in Hall. exact Hall.
Qed.

(** Every slide of the table has a text. *)
Lemma slide_content_has_text (topic slot : str) (slide : Slide) :
  dict_get (ContentForge.slide_content topic) slot = Some slide ->
  is_Some (s_text slide).
Proof.
  intros H. apply dict_get_elem in H. revert slide H. apply Forall_forall.
  cbn [map snd ContentForge.slide_content ContentForge.mk_slide].
  repeat (constructor; [eexists; reflexivity|]). constructor.
Qed.

Lemma class_slides_count (template_type topic : str) (num_slides : Z) (voice : str) :
  0 <= num_slides ->
  len (ContentForge._generate_slides (Spec.class_template template_type)
         topic num_slides voice)
  = Z.min num_slides (len (ContentForge.structure (Spec.class_template template_type))).
Proof.
  intros HN. destruct (class_template_slots template_type topic) as [Hslots Hlen].
  unfold ContentForge._generate_slides. cbv zeta.
  unfold len at 1. rewrite length_omap_all.
  - apply (length_slice_to num_slides _ HN).
  - apply Forall_slice_to. exact Hslots.
Qed.

(** X2: for every template type (an unknown one means tips) and every count
    N >= 0, no slot of the class's templates is skipped: the number of slides is
    exactly min(N, length of the structure); the structures have 7 or 8 slots,
    so the default count 7 always gives 7 slides; and every slide has a text. *)
Theorem X2_class_slides_exact
    (template_type topic : str) (num_slides : Z) (voice : str) :
  0 <= num_slides ->
  len (ContentForge._generate_slides (Spec.class_template template_type)
         topic num_slides voice)
  = Z.min num_slides (len (ContentForge.structure (Spec.class_template template_type)))
  /\ 7 <= len (ContentForge.structure (Spec.class_template template_type)) <= 8
  /\ Forall (fun slide => is_Some (s_text slide))
       (ContentForge._generate_slides (Spec.class_template template_type)
          topic num_slides voice).
Proof.
  intros HN. destruct (class_template_slots template_type topic) as [Hslots Hlen].
  split; [|split].
  - apply class_slides_count. exact HN.
  - unfold len. lia.
  - unfold ContentForge._generate_slides. cbv zeta.
    apply Forall_omap. intros slot slide. apply slide_content_has_text.
Qed.

Lemma X2_class_slides_exact_witness :
  0 <= 7
  /\ len (ContentForge._generate_slides (Spec.class_template (py "steps"))
            (py "core workouts") 7 (py "friendly"))
     = Z.min 7 (len (ContentForge.structure (Spec.class_template (py "steps"))))
  /\ 7 <= len (ContentForge.structure (Spec.class_template (py "steps"))) <= 8
  /\ Forall (fun slide => is_Some (s_text slide))
       (ContentForge._generate_slides (Spec.class_template (py "steps"))
          (py "core workouts") 7 (py "friendly")).
Proof.
  assert (H : 0 <= 7) by lia. split; [exact H|].
  apply (X2_class_slides_exact (py "steps") (py "core workouts") 7 (py "friendly") H).
Defined.

(** ** The posting time *)

(** X3: an audience without an entry of its own gets the general window; the
    lookup is by exact string, so "General audience", the audience the calendar
    route gives its brand, is such an audience. *)
Theorem X3_posting_time_fallback (target_audience : str) :
  target_audience ∉ Spec2.audiences ->
  ContentForge._optimal_posting_time target_audience = Spec2.general_window.
Proof.
  intros H. unfold ContentForge._optimal_posting_time, dict_get_default. cbv zeta.
  cbn [dict_get].
  repeat match goal with
         | |- context [decide (?a = target_audience)] =>
           destruct (decide (a = target_audience)) as [E|_];
             [exfalso; apply H; rewrite <- E; apply list_elem_of_In; cbn; tauto|]
         end.
  vm_compute. reflexivity.
Qed.

Lemma X3_posting_time_fallback_witness :
  (py "General audience" ∉ Spec2.audiences)
  /\ ContentForge._optimal_posting_time (py "General audience") = Spec2.general_window.
Proof.
  assert (H : py "General audience" ∉ Spec2.audiences).
  { intros Hin. apply list_elem_of_In in Hin. vm_compute in Hin.
    repeat destruct Hin as [Hin|Hin]; try discriminate. exact Hin. }
  split; [exact H|]. apply (X3_posting_time_fallback (py "General audience") H).
Defined.

(** ** Templates without placeholders, and malformed ones *)

Lemma tokenize_plain (s : str) :
  forallb Spec.not_brace s = true ->
  Format.tokenize None s = map Format.Lit s.
Proof.
  induction s as [|c s IH]; cbn [forallb Format.tokenize map]; [reflexivity|].
  intros H. apply andb_true_iff in H as [Hc Hs]. unfold Spec.not_brace in Hc.
  apply andb_true_iff in Hc as [Hl Hr]. apply negb_true_iff in Hl, Hr.
  rewrite Hl, Hr, (IH Hs). reflexivity.
Qed.

Lemma tokenize_plain_then (s rest : str) :
  forallb Spec.not_brace s = true ->
  Format.tokenize None (s ++ rest) = map Format.Lit s ++ Format.tokenize None rest.
Proof.
  induction s as [|c s IH]; [reflexivity|]. cbn [forallb app map].
  intros H. apply andb_true_iff in H as [Hc Hs]. unfold Spec.not_brace in Hc.
  apply andb_true_iff in Hc as [Hl Hr]. apply negb_true_iff in Hl, Hr.
  cbn [Format.tokenize]. rewrite Hl, Hr, (IH Hs). reflexivity.
Qed.

Lemma render_literals (P : Platform) (kwargs : list (str * str)) (s : str)
    (rest : list Format.segment) :
  Format.render P kwargs (map Format.Lit s ++ rest)
  = match Format.render P kwargs rest with
    | inr out => inr (s ++ out)
    | inl e => inl e
    end.
Proof.
  induction s as [|c s IH]; cbn [map app Format.render].
  - destruct (Format.render P kwargs rest); reflexivity.
  - rewrite IH. destruct (Format.render P kwargs rest); reflexivity.
Qed.

(** X4: [_fill_template] returns a template without brace characters as it is,
    whatever the topic; and it catches [KeyError] only: a template that ends in
    an opening brace raises the [ValueError] of [str.format]. Neither touches
    the forge. *)
Theorem X4_fill_template_plain_and_malformed
    (P : Platform) (plain topic : str) (w : world) :
  Spec.brace_free plain ->
  (exists w',
     ContentForge._fill_template P plain topic w = (Return plain, w')
     /\ self w' = self w)
  /\ (exists w',
       ContentForge._fill_template P (plain ++ py "{") topic w
       = (Raise (ValueError (py "Single '{' encountered in format string")), w')
       /\ self w' = self w).
Proof.
  intros Hplain. apply brace_free_spec in Hplain.
  unfold ContentForge._fill_template.
  destruct (total_choice (fun _ => True) [py "3"; py "5"; py "7"; py "10"]
              ltac:(discriminate) w Logic.I) as (number & w1 & E & Hs & _).
  split.
  - exists w1. unfold bind. rewrite E. cbv zeta.
    unfold try_except_KeyError, lift, Format.format.
    rewrite (tokenize_plain plain Hplain).
    rewrite <- (app_nil_r (map Format.Lit plain)), render_literals.
    cbn [Format.render]. rewrite app_nil_r. split; [reflexivity | exact Hs].
  - exists w1. unfold bind. rewrite E. cbv zeta.
    unfold try_except_KeyError, lift, Format.format.
    rewrite (tokenize_plain_then plain (py "{") Hplain), render_literals.
    split; [reflexivity | exact Hs].
Qed.

Lemma X4_fill_template_plain_and_malformed_witness :
  Spec.brace_free (py "Capsule wardrobe essentials")
  /\ (exists w',
        ContentForge._fill_template AsciiOnly.platform (py "Capsule wardrobe essentials")
          (py "style") (Spec.fresh [2%nat]) = (Return (py "Capsule wardrobe essentials"), w')
        /\ self w' = self (Spec.fresh [2%nat]))
  /\ (exists w',
        ContentForge._fill_template AsciiOnly.platform
          (py "Capsule wardrobe essentials" ++ py "{") (py "style") (Spec.fresh [2%nat])
        = (Raise (ValueError (py "Single '{' encountered in format string")), w')
        /\ self w' = self (Spec.fresh [2%nat])).
Proof.
  assert (H : Spec.brace_free (py "Capsule wardrobe essentials"))
    by (apply brace_free_spec; vm_compute; reflexivity).
  split; [exact H|].
  apply (X4_fill_template_plain_and_malformed AsciiOnly.platform
           (py "Capsule wardrobe essentials") (py "style") (Spec.fresh [2%nat]) H).
Defined.

(** ** The hashtag generator, continued *)

Lemma generate_hashtags_first_five (I : Forge -> Prop) (P : Platform)
    (cls : ContentForge.Class) (general : list str) (industry topic : str) :
  dict_get (ContentForge.HASHTAGS cls) (py "general") = Some general ->
  (2 <= length general)%nat ->
  Spec.total_in I (ContentForge._generate_hashtags P cls industry topic)
    (fun tags =>
       exists chosen more,
         tags = ContentForge.list_set (chosen ++ Spec.topic_tags P topic ++ more)
         /\ Forall (fun t =>
                      t ∈ slice_to 5 (dict_get_default (ContentForge.HASHTAGS cls)
                                        industry general))
              chosen
         /\ Forall (fun t => t ∈ slice_to 5 general) more).
Proof.
  intros Hgen Hlen. unfold ContentForge._generate_hashtags.
  set (bank := dict_get_default (ContentForge.HASHTAGS cls) industry general).
  eapply total_bind; [apply (total_getitem I _ _ _ Hgen)|]. intros g ->.
  fold bank.
  eapply total_bind.
  { apply (total_sample I (fun t => t ∈ slice_to 5 bank)).
    - rewrite length_slice_to by lia. unfold len. lia.
    - apply Forall_forall. auto. }
  intros chosen [_ Hc].
  eapply total_bind; [apply (total_getitem I _ _ _ Hgen)|]. intros g ->.
  eapply total_bind.
  { apply (total_sample I (fun t => t ∈ slice_to 5 general)).
    - rewrite length_slice_to by lia. unfold len. lia.
    - apply Forall_forall. auto. }
  intros more [_ Hm].
  apply total_ret. exists chosen, more.
  split; [|auto]. unfold Spec.topic_tags. rewrite <- app_assoc. reflexivity.
Qed.

Lemma topic_tags_NoDup (P : Platform) (topic : str) : NoDup (Spec.topic_tags P topic).
Proof.
  unfold Spec.topic_tags. cbv zeta.
  set (stem := replace (py " ") [] (str_lower P topic)).
  assert (Hlen : forall a b : str, length a <> length b -> a <> b) by (intros a b H ->; auto).
  repeat (apply NoDup_cons; split);
    rewrite ?not_elem_of_cons; repeat split;
    try apply not_elem_of_nil; try apply NoDup_nil; try exact Logic.I;
    apply Hlen; rewrite !length_app; vm_compute (length (py _)); lia.
Qed.

Lemma class_hashtags_content (I : Forge -> Prop) (P : Platform) (industry topic : str) :
  Spec.total_in I (ContentForge._generate_hashtags P ContentForge.class industry topic)
    (fun tags =>
       NoDup tags
       /\ (forall t, t ∈ Spec.topic_tags P topic -> t ∈ tags)
       /\ (3 <= length tags <= 8)%nat
       /\ Forall Spec.starts_with_hash tags
       /\ forall t, t ∈ tags ->
            t ∈ Spec.topic_tags P topic
            \/ t ∈ slice_to 5
                  (dict_get_default (ContentForge.HASHTAGS ContentForge.class) industry
                     (default [] (dict_get (ContentForge.HASHTAGS ContentForge.class)
                                    (py "general"))))
            \/ t ∈ slice_to 5
                  (default [] (dict_get (ContentForge.HASHTAGS ContentForge.class)
                                 (py "general")))).
Proof.
  intros w Hw.
  destruct (class_hashtags_total I P industry topic w Hw)
    as (tags & w' & E & Hs & Hhash & Hle).
  destruct class_general_bank as (general & Hgen & Hok).
  apply bank_ok_spec in Hok as [Hg5 _].
  destruct (generate_hashtags_first_five I P _ general industry topic Hgen
              ltac:(lia) w Hw)
    as (tags' & w'' & E' & _ & chosen & more & Htags & Hc & Hm).
  rewrite E in E'. injection E' as <- <-.
  exists tags, w'. split; [exact E|]. split; [exact Hs|].
  rewrite Hgen. cbn [default from_option id].
  assert (Hin : forall t, t ∈ Spec.topic_tags P topic -> t ∈ tags).
  { intros t Ht. rewrite Htags. unfold ContentForge.list_set.
    apply elem_of_remove_dups. rewrite !elem_of_app. auto. }
  split; [rewrite Htags; apply NoDup_remove_dups|].
  split; [exact Hin|]. split; [|split; [exact Hhash|]].
  - split; [|exact Hle].
    pose proof (submseteq_length _ _
      (NoDup_submseteq _ _ (topic_tags_NoDup P topic) Hin)) as H3.
    destruct (topic_tags_hash P topic) as [_ H3']. rewrite H3' in H3. exact H3.
  - intros t Ht. rewrite Htags in Ht. unfold ContentForge.list_set in Ht.
    apply (proj1 (elem_of_remove_dups _ _)) in Ht. rewrite !elem_of_app in Ht.
    rewrite Forall_forall in Hc, Hm.
    destruct Ht as [Ht|[Ht|Ht]]; auto.
Qed.

(** X5: on the class as written, for every industry and topic, the hashtags
    returned have no duplicates, include the three tags derived from the topic,
    number between 3 and 8, and each of them is a topic tag or one of the first
    five entries of the industry's bank (the general bank for an unknown
    industry) or of the general bank. *)
Theorem X5_hashtags_content (P : Platform) (industry topic : str) (w : world) :
  exists tags w',
    ContentForge._generate_hashtags P ContentForge.class industry topic w
      = (Return tags, w')
    /\ NoDup tags
    /\ (forall t, t ∈ Spec.topic_tags P topic -> t ∈ tags)
    /\ (3 <= length tags <= 8)%nat
    /\ forall t, t ∈ tags ->
         t ∈ Spec.topic_tags P topic
         \/ t ∈ slice_to 5
               (dict_get_default (ContentForge.HASHTAGS ContentForge.class) industry
                  (default [] (dict_get (ContentForge.HASHTAGS ContentForge.class)
                                 (py "general"))))
         \/ t ∈ slice_to 5
               (default [] (dict_get (ContentForge.HASHTAGS ContentForge.class)
                              (py "general"))).
Proof.
  destruct (class_hashtags_content (fun _ => True) P industry topic w Logic.I)
    as (tags & w' & E & _ & H1 & H2 & H3 & _ & H4).
  exists tags, w'. auto.
Qed.

(** X6: what the hashtag generator needs of the class is the 'general' bank,
    and it needs it for every industry, also one with a bank of its own: the
    fallback is read before the lookup it is the default of. Without that bank
    the generator raises KeyError at once; with a 'general' bank of fewer than 2
    entries it raises the ValueError of random.sample; otherwise it returns.
    The hook generator likewise raises KeyError when the 'general' hooks are
    missing. *)
Theorem X6_general_bank_required
    (P : Platform) (cls : ContentForge.Class) (industry topic : str) (w : world) :
  match dict_get (ContentForge.HASHTAGS cls) (py "general") with
  | None =>
    ContentForge._generate_hashtags P cls industry topic w
    = (Raise (KeyError (py "general")), w)
  | Some general =>
    if decide (2 <= length general)%nat
    then exists tags w',
           ContentForge._generate_hashtags P cls industry topic w = (Return tags, w')
    else exists w',
           ContentForge._generate_hashtags P cls industry topic w
           = (Raise (ValueError (py "Sample larger than population or is negative")), w')
           /\ self w' = self w
  end
  /\ match dict_get (ContentForge.HOOKS cls) (py "general") with
     | None =>
       ContentForge._generate_hook P cls industry topic w
       = (Raise (KeyError (py "general")), w)
     | Some _ => True
     end.
Proof.
  split.
  - destruct (dict_get (ContentForge.HASHTAGS cls) (py "general")) as [general|] eqn:Hgen.
    + destruct (decide (2 <= length general)%nat) as [Hlen|Hlen].
      * destruct (generate_hashtags_total (fun _ => True) P cls general industry topic
                    Hgen Hlen w Logic.I) as (tags & w' & E & _).
        exists tags, w'. exact E.
      * unfold ContentForge._generate_hashtags, ContentForge.getitem.
        rewrite Hgen. unfold bind at 1. unfold ret at 1.
        set (bank := dict_get_default (ContentForge.HASHTAGS cls) industry general).
        destruct (total_sample (fun _ => True) (fun _ => True) (slice_to 5 bank)
                    (Z.min 3 (len bank))) with (w := w)
          as (chosen & w1 & E & Hs & _).
        { rewrite length_slice_to by lia. unfold len. lia. }
        { apply Forall_forall. auto. }
        { exact Logic.I. }
        unfold bind at 1. rewrite E. unfold bind at 1, ret at 1.
        exists w1. split; [|exact Hs].
        unfold bind, Random.sample.
        assert (Hk : (0 <=? 2) && (2 <=? len (slice_to 5 general)) = false).
        { rewrite length_slice_to by lia. apply andb_false_iff. right.
          apply Z.leb_gt. unfold len. lia. }
        rewrite Hk. reflexivity.
    + unfold ContentForge._generate_hashtags, ContentForge.getitem, bind.
      rewrite Hgen. reflexivity.
  - destruct (dict_get (ContentForge.HOOKS cls) (py "general")) eqn:H; [exact Logic.I|].
    unfold ContentForge._generate_hook, ContentForge.getitem, bind.
    rewrite H. reflexivity.
Qed.

(** A class whose only banks are those of fitness: both generators raise for
    fitness itself. *)
Example no_general_entries :
  is_Some (dict_get (ContentForge.HASHTAGS Spec2.no_general_class) (py "fitness"))
  /\ ContentForge._generate_hashtags AsciiOnly.platform Spec2.no_general_class
       (py "fitness") (py "x") (Spec.fresh [1%nat])
     = (Raise (KeyError (py "general")), Spec.fresh [1%nat])
  /\ ContentForge._generate_hook AsciiOnly.platform Spec2.no_general_class
       (py "fitness") (py "x") (Spec.fresh [1%nat])
     = (Raise (KeyError (py "general")), Spec.fresh [1%nat]).
Proof.
  split; [eexists; vm_compute; reflexivity|]. split; vm_compute; reflexivity.
Qed.

(** ** The carousel generator, continued *)

Lemma join_cons (sep p q : str) (rest : list str) :
  join sep (p :: q :: rest) = p ++ sep ++ join sep (q :: rest).
Proof. reflexivity. Qed.

Lemma generate_caption_starts_with_hook (I : Forge -> Prop)
    (brand : BrandProfile) (topic hook : str) :
  Spec.total_in I (ContentForge._generate_caption brand topic hook)
    (fun caption =>
       exists rest, caption = hook ++ ContentForge.nl ++ ContentForge.nl ++ rest).
Proof.
  unfold ContentForge._generate_caption. cbv zeta.
  eapply total_bind; [apply (total_choice I); discriminate|]. intros intro _.
  eapply total_bind; [apply (total_choice I); discriminate|]. intros value _.
  apply total_ret. rewrite !join_cons. rewrite app_nil_l. eexists. reflexivity.
Qed.

Lemma class_template_get (template_type : str) (tips : ContentForge.Template) :
  dict_get (ContentForge.CAROUSEL_TEMPLATES ContentForge.class) (py "tips") = Some tips ->
  dict_get_default (ContentForge.CAROUSEL_TEMPLATES ContentForge.class) template_type tips
  = Spec.class_template template_type.
Proof.
  intros H. unfold Spec.class_template. cbv zeta. rewrite H. reflexivity.
Qed.

Lemma generate_carousel_invariants (I : Forge -> Prop) (P : Platform)
    (brand_name : str) (brand : BrandProfile) (topic template_type : str) (num_slides : Z) :
  (forall this, I this -> brands this !! brand_name = Some brand) ->
  Spec.total_in I
    (ContentForge.generate_carousel P ContentForge.class brand_name topic
       template_type num_slides)
    (Spec2.carousel_of brand topic template_type num_slides).
Proof.
  intros Hbrand. unfold ContentForge.generate_carousel.
  eapply total_bind; [apply total_get_self|]. intros this Hthis.
  rewrite (Hbrand this Hthis).
  destruct class_tips_template as (tips & Htips & Htitles).
  eapply total_bind; [apply (total_getitem I _ _ _ Htips)|]. intros t ->. cbv zeta.
  rewrite (class_template_get template_type tips Htips).
  assert (Htpl : Spec.templates_ok
            (ContentForge.titles (Spec.class_template template_type)) = true).
  { pose proof class_titles_ok as Hall. rewrite forallb_forall in Hall.
    apply Hall, list_elem_of_In, class_template_elem. }
  apply templates_ok_spec in Htpl as [Hne Hall].
  eapply total_bind.
  { apply (generate_hook_total I P (fun _ => true)); [reflexivity | apply forallb_any]. }
  intros hk _.
  eapply total_bind; [apply generate_caption_starts_with_hook|]. intros cap Hcap.
  eapply total_bind; [apply class_hashtags_content|].
  intros tags (Hnd & _ & Hlen & Hhash & _).
  eapply total_bind; [apply select_cta_total|]. intros ct _.
  eapply total_bind; [apply (total_choice I _ Hne)|]. intros title_template Hin.
  eapply total_bind; [apply fill_template_total, Hall, Hin|]. intros ttl _.
  apply total_ret. unfold Spec2.carousel_of.
  cbn [content_type slides caption hashtags hook engagement_score best_posting_time
       brand_voice].
  split; [reflexivity|]. split; [reflexivity|]. split; [exact Hcap|].
  split; [exact Hnd|]. split; [exact Hlen|]. split; [exact Hhash|].
  split; [reflexivity|]. split; reflexivity.
Qed.

(** X7: for a registered brand, on the class as written, [generate_carousel]
    returns for every topic, template type and slide count, whatever the draws,
    and leaves the forge as it was. The piece is a carousel; its slides are those
    of the template type (tips when unknown); its caption starts with its hook
    and a blank line; its hashtags are 3 to 8, without duplicates; its score is
    the score of its own hook, slides and hashtags; its posting time and voice
    are those of the brand. *)
Theorem X7_carousel_of_registered_brand
    (P : Platform) (brand_name : str) (brand : BrandProfile)
    (topic template_type : str) (num_slides : Z) (w : world) :
  brands (self w) !! brand_name = Some brand ->
  exists content w',
    ContentForge.generate_carousel P ContentForge.class brand_name topic
      template_type num_slides w = (Return content, w')
    /\ self w' = self w
    /\ Spec2.carousel_of brand topic template_type num_slides content.
Proof.
  intros Hbrand.
  apply (generate_carousel_invariants (fun this => this = self w) P brand_name brand);
    [|reflexivity].
  intros this ->. exact Hbrand.
Qed.

Lemma X7_carousel_of_registered_brand_witness :
  brands (self (Spec.brandx_world [])) !! py "BrandX" = Some Spec.brandx
  /\ exists content w',
       ContentForge.generate_carousel AsciiOnly.platform ContentForge.class (py "BrandX")
         (py "core workouts") (py "steps") 5 (Spec.brandx_world []) = (Return content, w')
       /\ self w' = self (Spec.brandx_world [])
       /\ Spec2.carousel_of Spec.brandx (py "core workouts") (py "steps") 5 content.
Proof.
  assert (H : brands (self (Spec.brandx_world [])) !! py "BrandX" = Some Spec.brandx)
    by (vm_compute; reflexivity).
  split; [exact H|].
  apply (X7_carousel_of_registered_brand AsciiOnly.platform (py "BrandX") Spec.brandx
           (py "core workouts") (py "steps") 5 (Spec.brandx_world []) H).
Defined.

(** ** Single posts *)

Lemma total_randint (I : Forge -> Prop) (a b : Z) :
  a <= b -> Spec.total_in I (Random.randint a b) (fun r => a <= r <= b).
Proof.
  intros Hab. unfold Random.randint. destruct (Z.leb_spec a b); [|lia].
  eapply total_bind; [apply (total_randbelow I (Z.to_nat (b - a + 1))); lia|].
  intros r Hr. cbn beta in Hr. apply total_ret. lia.
Qed.

(** Settles the comparisons of keys that a lookup in a dict literal leaves:
    two literals are compared by evaluation, a literal and the key [k] by the
    hypothesis [H] that [k] is none of the literals. *)
Ltac settle_keys k H :=
  repeat match goal with
         | |- context [decide (?a = k)] =>
           let E := fresh "E" in
           destruct (decide (a = k)) as [E|_];
             [exfalso; apply H; rewrite <- E; apply list_elem_of_In; cbn; tauto|]
         | |- context [decide (?a = ?b)] =>
           let E := fresh "E" in
           destruct (decide (a = b)) as [E|E];
             [try (vm_compute in E; discriminate)
             |try (exfalso; apply E; reflexivity)]
         end.

Lemma generate_single_post_total (I : Forge -> Prop) (P : Platform)
    (brand_name : str) (brand : BrandProfile) (topic post_type : str) :
  (forall this, I this -> brands this !! brand_name = Some brand) ->
  Spec.total_in I
    (ContentForge.generate_single_post P ContentForge.class brand_name topic post_type)
    (Spec2.single_post_of P brand topic post_type).
Proof.
  intros Hbrand. unfold ContentForge.generate_single_post.
  eapply total_bind; [apply total_get_self|]. intros this Hthis.
  rewrite (Hbrand this Hthis).
  eapply total_bind.
  { apply (generate_hook_total I P (fun _ => true)); [reflexivity | apply forallb_any]. }
  intros hk _. cbv zeta.
  match goal with
  | |- Spec.total_in _ (bind (ContentForge.getitem ?c _) _) _ => set (captions := c)
  end.
  assert (Hedu : dict_get captions (py "educational")
                 = Some (Spec2.educational_caption topic)).
  { subst captions. cbn [dict_get]. settle_keys post_type Logic.I. reflexivity. }
  eapply total_bind; [apply (total_getitem I _ _ _ Hedu)|]. intros edu ->.
  eapply total_bind; [apply class_hashtags_content|].
  intros tags (Hnd & _ & Hlen & Hhash & _).
  eapply total_bind; [apply select_cta_total|]. intros ct _.
  eapply total_bind; [apply (total_randint I 60 90); lia|]. intros score Hscore.
  apply total_ret. unfold Spec2.single_post_of.
  cbn [content_type title slides caption hashtags hook engagement_score
       best_posting_time brand_voice].
  split; [reflexivity|]. split; [reflexivity|]. split; [reflexivity|].
  split.
  { intros [Hnot | ->].
    - unfold dict_get_default. subst captions. cbn [dict_get].
      settle_keys post_type Hnot. reflexivity.
    - unfold dict_get_default. rewrite Hedu. reflexivity. }
  split; [exact Hnd|]. split; [exact Hlen|]. split; [exact Hhash|].
  split; [exact Hscore|]. split; reflexivity.
Qed.

(** X8: for a registered brand, on the class as written, [generate_single_post]
    returns a piece of type single with one slide (of type single, styled by the
    post type), a score between 60 and 90, 3 to 8 distinct hashtags, and the
    title made of the title-cased topic and post type; a post type that is none
    of the four known ones gets the educational caption. The forge is left as
    it was. *)
Theorem X8_single_post_of_registered_brand
    (P : Platform) (brand_name : str) (brand : BrandProfile)
    (topic post_type : str) (w : world) :
  brands (self w) !! brand_name = Some brand ->
  exists content w',
    ContentForge.generate_single_post P ContentForge.class brand_name topic post_type w
      = (Return content, w')
    /\ self w' = self w
    /\ Spec2.single_post_of P brand topic post_type content.
Proof.
  intros Hbrand.
  apply (generate_single_post_total (fun this => this = self w) P brand_name brand);
    [|reflexivity].
  intros this ->. exact Hbrand.
Qed.

Lemma X8_single_post_of_registered_brand_witness :
  brands (self (Spec.brandx_world [])) !! py "BrandX" = Some Spec.brandx
  /\ exists content w',
       ContentForge.generate_single_post AsciiOnly.platform ContentForge.class
         (py "BrandX") (py "core workouts") (py "quiz") (Spec.brandx_world [])
         = (Return content, w')
       /\ self w' = self (Spec.brandx_world [])
       /\ Spec2.single_post_of AsciiOnly.platform Spec.brandx (py "core workouts")
            (py "quiz") content.
Proof.
  assert (H : brands (self (Spec.brandx_world [])) !! py "BrandX" = Some Spec.brandx)
    by (vm_compute; reflexivity).
  split; [exact H|].
  apply (X8_single_post_of_registered_brand AsciiOnly.platform (py "BrandX") Spec.brandx
           (py "core workouts") (py "quiz") (Spec.brandx_world []) H).
Defined.

(** ** The content calendar, continued *)

Lemma engagement_score_with_slides (hook : str) (slides : list Slide)
    (hashtags : list str) :
  (5 <= length slides <= 10)%nat ->
  65 <= ContentForge._calculate_engagement_score hook slides hashtags <= 90.
Proof.
  intros H. rewrite engagement_score_refines.
  unfold Spec.engagement_score_spec, Spec.clamp, Spec.bonus.
  rewrite (bool_decide_eq_true_2 _ H).
  destruct (bool_decide (Exists _ _)), (bool_decide (_ < _)%nat),
    (bool_decide (8 <= _ <= _)%nat); cbn; lia.
Qed.

Lemma length_dots : length (py "...") = 3%nat.
Proof. vm_compute. reflexivity. Qed.

Lemma default_slides_count (brand : BrandProfile) (pillar template_type : str)
    (content : ContentPiece) :
  slides content
  = ContentForge._generate_slides (Spec.class_template template_type) pillar 7
      (voice brand) ->
  (5 <= length (slides content) <= 10)%nat.
Proof.
  intros Hsl.
  pose proof (class_slides_count template_type pillar 7 (voice brand) ltac:(lia)) as Hc.
  destruct (class_template_slots template_type pillar) as [_ H78].
  rewrite <- Hsl in Hc. revert Hc H78.
  generalize (ContentForge.structure (Spec.class_template template_type)).
  intros l. unfold len. lia.
Qed.

Lemma calendar_entry_ok (P : Platform) (brand : BrandProfile) (start_date : Z)
    (i : nat) (pillar template_type : str) (content : ContentPiece) :
  content_pillars brand !! (i mod length (content_pillars brand))%nat = Some pillar ->
  Spec2.carousel_of brand pillar template_type 7 content ->
  Spec2.calendar_entry_of P brand start_date i
    {| d_date := strftime_date P (start_date + Z.of_nat i);
       d_day := strftime_day P (start_date + Z.of_nat i);
       d_content_type := content_type content;
       d_title := title content;
       d_topic := pillar;
       d_engagement_score := engagement_score content;
       d_best_time := best_posting_time content;
       d_caption_preview := slice_to 100 (caption content) ++ py "...";
       d_hashtags := hashtags content |}.
Proof.
  intros Hp (Hty & Hsl & _ & Hnd & Hlen & _ & Hsc & Hbt & _).
  unfold Spec2.calendar_entry_of.
  cbn [d_date d_day d_content_type d_title d_topic d_engagement_score d_best_time
       d_caption_preview d_hashtags].
  split; [reflexivity|]. split; [reflexivity|]. split; [exact Hty|].
  split; [exact Hp|]. split.
  { rewrite Hsc. apply engagement_score_with_slides.
    exact (default_slides_count brand pillar template_type content Hsl). }
  split; [exact Hbt|]. split; [eexists; reflexivity|].
  split; [|split; [exact Hnd | exact Hlen]].
  unfold len. rewrite length_app.
  pose proof (length_slice_to 100 (caption content) ltac:(lia)) as H100.
  unfold len in H100. rewrite length_dots. lia.
Qed.

Lemma calendar_loop_entries (I : Forge -> Prop) (P : Platform)
    (brand_name : str) (brand : BrandProfile) (start_date : Z) :
  (forall this, I this -> brands this !! brand_name = Some brand) ->
  forall days : list nat,
    content_pillars brand <> [] \/ days = [] ->
    Forall (Spec.day_ok start_date) days ->
    Spec.total_in I
      (ContentForge.calendar_loop P ContentForge.class brand_name brand start_date days)
      (Forall2 (Spec2.calendar_entry_of P brand start_date) days).
Proof.
  intros Hbrand days Hne Hok.
  induction Hok as [|i days [Hi Hd] Hok IH]; cbn [ContentForge.calendar_loop].
  - apply total_ret. constructor.
  - destruct Hne as [Hne|Hne]; [|discriminate].
    assert (Hpos : (0 < length (content_pillars brand))%nat)
      by (destruct (content_pillars brand); [congruence | cbn; lia]).
    eapply total_bind; [apply total_timedelta; lia|]. intros delta ->.
    eapply total_bind; [apply total_date_add; exact Hd|]. intros date ->.
    unfold ContentForge.index.
    destruct (lookup_lt_is_Some_2 (content_pillars brand)
                (i mod length (content_pillars brand))) as [pillar Hp].
    { apply Nat.mod_upper_bound. lia. }
    rewrite Hp.
    eapply (total_bind I _ _ (fun p => p = pillar)); [apply total_ret; reflexivity|].
    intros p ->.
    eapply total_bind; [apply (total_choice I); discriminate|]. intros template_type _.
    eapply total_bind; [apply (generate_carousel_invariants I P _ brand); exact Hbrand|].
    intros content Hcontent.
    eapply total_bind; [apply IH; left; exact Hne|]. intros calendar Hcal.
    apply total_ret. constructor; [|exact Hcal].
    exact (calendar_entry_ok P brand start_date i pillar template_type content Hp Hcontent).
Qed.

Lemma range_without_pillars (brand : BrandProfile) (days : Z) :
  content_pillars brand <> []
  \/ ContentForge.range (Z.min days (len (content_pillars brand) * 2)) = [].
Proof.
  destruct (content_pillars brand) as [|p ps]; [right | left; discriminate].
  unfold ContentForge.range, len. cbn [length].
  replace (Z.to_nat (Z.min days (Z.of_nat 0 * 2))) with 0%nat by lia. reflexivity.
Qed.

(** X9: for a registered brand, on the class as written,
    [generate_content_calendar] returns whenever the dates of its
    min(days, 2 P) entries are dates a datetime can hold (there is none, or the
    last is not past 9999-12-31), and leaves the forge as it was; a brand
    without pillars gets an empty calendar (nothing is divided by the number of
    pillars). Entry i is dated i days after the clock, is a carousel on pillar
    i mod P with a score between 65 and 90 (the default 7 slides always earn
    the slide bonus), carries the brand's posting time, a caption preview of at
    most 103 characters that ends in three dots, and 3 to 8 distinct
    hashtags. *)
Theorem X9_calendar_entries_of_registered_brand
    (P : Platform) (brand_name : str) (brand : BrandProfile) (days : Z) (w : world) :
  brands (self w) !! brand_name = Some brand ->
  Spec.dates_in_range (clock w) (Z.min days (2 * len (content_pillars brand))) = true ->
  exists calendar w',
    ContentForge.generate_content_calendar P ContentForge.class brand_name days w
      = (Return calendar, w')
    /\ self w' = self w
    /\ (content_pillars brand = [] -> calendar = [])
    /\ forall i entry,
         calendar !! i = Some entry ->
         Spec2.calendar_entry_of P brand (clock w) i entry.
Proof.
  intros Hbrand Hrange.
  rewrite (content_calendar_run P _ brand_name brand days w Hbrand).
  replace (2 * len (content_pillars brand)) with (len (content_pillars brand) * 2)
    in Hrange by lia.
  destruct (calendar_loop_entries (fun this => this = self w) P brand_name brand (clock w)
              (fun this E => eq_ind_r (fun f => brands f !! brand_name = Some brand) Hbrand E)
              _ (range_without_pillars brand days) (range_days_ok _ _ Hrange) w eq_refl)
    as (calendar & w' & E & Hs & Hcal).
  exists calendar, w'. split; [exact E|]. split; [exact Hs|]. split.
  - intros Hnil. apply Forall2_length in Hcal. rewrite Hnil in Hcal.
    unfold ContentForge.range, len in Hcal. cbn [length] in Hcal.
    replace (Z.to_nat (Z.min days (Z.of_nat 0 * 2))) with 0%nat in Hcal by lia.
    destruct calendar; [reflexivity | discriminate].
  - intros i entry Hi.
    destruct (Forall2_lookup_r _ _ _ _ _ Hcal Hi) as (day & Hday & Hentry).
    unfold ContentForge.range in Hday. apply lookup_seq in Hday as [-> _].
    exact Hentry.
Qed.

Lemma X9_calendar_entries_of_registered_brand_witness :
  brands (self (Spec.brandx_world_on Spec.new_year_2026 [])) !! py "BrandX"
    = Some Spec.brandx
  /\ Spec.dates_in_range (clock (Spec.brandx_world_on Spec.new_year_2026 []))
       (Z.min 4 (2 * len (content_pillars Spec.brandx))) = true
  /\ exists calendar w',
       ContentForge.generate_content_calendar AsciiOnly.platform ContentForge.class
         (py "BrandX") 4 (Spec.brandx_world_on Spec.new_year_2026 [])
         = (Return calendar, w')
       /\ self w' = self (Spec.brandx_world_on Spec.new_year_2026 [])
       /\ (content_pillars Spec.brandx = [] -> calendar = [])
       /\ forall i entry,
            calendar !! i = Some entry ->
            Spec2.calendar_entry_of AsciiOnly.platform Spec.brandx
              (clock (Spec.brandx_world_on Spec.new_year_2026 [])) i entry.
Proof.
  assert (H : brands (self (Spec.brandx_world_on Spec.new_year_2026 [])) !! py "BrandX"
              = Some Spec.brandx)
    by (vm_compute; reflexivity).
  assert (H2 : Spec.dates_in_range (clock (Spec.brandx_world_on Spec.new_year_2026 []))
                 (Z.min 4 (2 * len (content_pillars Spec.brandx))) = true)
    by (vm_compute; reflexivity).
  split; [exact H|]. split; [exact H2|].
  apply (X9_calendar_entries_of_registered_brand AsciiOnly.platform (py "BrandX")
           Spec.brandx 4 (Spec.brandx_world_on Spec.new_year_2026 []) H H2).
Defined.

(** ** When the generators raise *)

(** X10: on the class as written, [generate_carousel] and
    [generate_single_post] raise exactly when the brand name is not registered,
    and [generate_content_calendar] raises exactly then or when one of the
    dates of its min(n, 2 P) entries would pass 9999-12-31. For an unregistered
    name each raises the ValueError that names the brand, before any random
    draw, and the world is as it was; for a date out of range the calendar
    raises OverflowError and the forge is as it was. *)
Theorem X10_when_generators_raise
    (P : Platform) (brand_name topic kind : str) (n : Z) (w : world) :
  match brands (self w) !! brand_name with
  | None =>
    ContentForge.generate_carousel P ContentForge.class brand_name topic kind n w
      = (Raise (Spec2.not_found_create brand_name), w)
    /\ ContentForge.generate_single_post P ContentForge.class brand_name topic kind w
      = (Raise (Spec2.not_found brand_name), w)
    /\ ContentForge.generate_content_calendar P ContentForge.class brand_name n w
      = (Raise (Spec2.not_found brand_name), w)
  | Some brand =>
    (exists content w',
       ContentForge.generate_carousel P ContentForge.class brand_name topic kind n w
       = (Return content, w'))
    /\ (exists content w',
         ContentForge.generate_single_post P ContentForge.class brand_name topic kind w
         = (Return content, w'))
    /\ (if Spec.dates_in_range (clock w) (Z.min n (2 * len (content_pillars brand)))
        then
          exists calendar w',
            ContentForge.generate_content_calendar P ContentForge.class brand_name n w
            = (Return calendar, w')
        else
          exists w',
            ContentForge.generate_content_calendar P ContentForge.class brand_name n w
            = (Raise Spec.date_overflow, w')
            /\ self w' = self w)
  end.
Proof.
  destruct (brands (self w) !! brand_name) as [brand|] eqn:Hbrand.
  - assert (HI : forall this, this = self w -> brands this !! brand_name = Some brand)
      by (intros this ->; exact Hbrand).
    split; [|split].
    + destruct (generate_carousel_invariants _ P brand_name brand topic kind n HI w eq_refl)
        as (c & w' & E & _). exists c, w'. exact E.
    + destruct (generate_single_post_total _ P brand_name brand topic kind HI w eq_refl)
        as (c & w' & E & _). exists c, w'. exact E.
    + rewrite (content_calendar_run P _ brand_name brand n w Hbrand).
      replace (2 * len (content_pillars brand)) with (len (content_pillars brand) * 2)
        by lia.
      destruct (Spec.dates_in_range (clock w) (Z.min n (len (content_pillars brand) * 2)))
        eqn:Hrange.
      * destruct (calendar_loop_entries _ P brand_name brand (clock w) HI _
                    (range_without_pillars brand n) (range_days_ok _ _ Hrange) w eq_refl)
          as (calendar & w' & E & _).
        exists calendar, w'. exact E.
      * assert (Hne : content_pillars brand <> []).
        { intros Hnil. rewrite Hnil in Hrange. unfold Spec.dates_in_range in Hrange.
          apply orb_false_iff in Hrange as [Hcount _]. apply Z.leb_gt in Hcount.
          unfold len in Hcount. cbn [length] in Hcount. lia. }
        destruct (range_first_overflow _ _ Hrange)
          as (ok & bad & rest & -> & Hok & Hbad & Hout).
        exact (calendar_loop_overflow _ P brand_name brand (clock w) HI Hne
                 ok bad rest Hok Hbad Hout w eq_refl).
  - unfold ContentForge.generate_carousel, ContentForge.generate_single_post,
      ContentForge.generate_content_calendar, bind, get_self.
    rewrite Hbrand. split; [|split]; reflexivity.
Qed.

(** ** Registering brands *)

Lemma generate_colors_palettes : ContentForge._generate_colors = Random.choice Spec2.palettes.
Proof. reflexivity. Qed.

Lemma create_brand_returns (nm ind vc audience : str)
    (pillars : list str) (frequency : Z) (w : world) :
  exists colors w',
    ContentForge.create_brand nm ind vc audience pillars frequency w
    = (Return {| name := nm; industry := ind; voice := vc; target_audience := audience;
                 color_scheme := colors; content_pillars := pillars;
                 posting_frequency := frequency |}, w')
    /\ colors ∈ Spec2.palettes
    /\ brands (self w')
       = <[nm := {| name := nm; industry := ind; voice := vc; target_audience := audience;
                    color_scheme := colors; content_pillars := pillars;
                    posting_frequency := frequency |}]> (brands (self w))
    /\ content_history (self w') = content_history (self w).
Proof.
  unfold ContentForge.create_brand. rewrite generate_colors_palettes.
  destruct (total_choice (fun _ => True) Spec2.palettes ltac:(discriminate) w Logic.I)
    as (colors & w1 & E & Hs & Hin).
  unfold bind at 1. rewrite E. cbv zeta.
  unfold bind, get_self, put_self, ret. cbn [self brands content_history].
  eexists colors, _. split; [reflexivity|]. cbn [self brands content_history].
  rewrite Hs. auto.
Qed.

(** X11: [create_brand] returns the profile made of its arguments and one of
    the five palettes, and registers it: looking the name up yields that
    profile, every other name is as before, the content history is untouched,
    and from then on [generate_carousel] for that name returns, with the voice
    given at registration. *)
Theorem X11_create_brand_registers (P : Platform)
    (nm ind vc audience : str) (pillars : list str) (frequency : Z) (w : world) :
  exists brand w',
    ContentForge.create_brand nm ind vc audience pillars frequency w = (Return brand, w')
    /\ brand = {| name := nm; industry := ind; voice := vc; target_audience := audience;
                  color_scheme := color_scheme brand; content_pillars := pillars;
                  posting_frequency := frequency |}
    /\ color_scheme brand ∈ Spec2.palettes
    /\ brands (self w') !! nm = Some brand
    /\ (forall other, other <> nm -> brands (self w') !! other = brands (self w) !! other)
    /\ content_history (self w') = content_history (self w)
    /\ forall topic template_type num_slides,
         exists content w'',
           ContentForge.generate_carousel P ContentForge.class nm topic template_type
             num_slides w' = (Return content, w'')
           /\ brand_voice content = vc.
Proof.
  destruct (create_brand_returns nm ind vc audience pillars frequency w)
    as (colors & w' & E & Hin & Hb & Hh).
  eexists _, w'. split; [exact E|]. cbn [color_scheme].
  split; [reflexivity|]. split; [exact Hin|].
  assert (Hl : brands (self w') !! nm
               = Some {| name := nm; industry := ind; voice := vc;
                         target_audience := audience; color_scheme := colors;
                         content_pillars := pillars; posting_frequency := frequency |})
    by (rewrite Hb; apply lookup_insert_eq).
  split; [exact Hl|]. split.
  { intros other Hne. rewrite Hb. apply lookup_insert_ne. congruence. }
  split; [exact Hh|].
  intros topic template_type num_slides.
  destruct (generate_carousel_invariants (fun this => this = self w') P nm _ topic
              template_type num_slides
              (fun this E' => eq_ind_r (fun f => brands f !! nm = Some _) Hl E')
              w' eq_refl)
    as (content & w'' & E2 & _ & Hc).
  exists content, w''. split; [exact E2|].
  unfold Spec2.carousel_of in Hc. destruct Hc as (_ & _ & _ & _ & _ & _ & _ & _ & Hv).
  exact Hv.
Qed.

(** X12: registering a name again replaces its profile: after two calls for
    the same name the mapping is the original one with the second profile
    under that name, the first profile is gone, and the set of registered
    names is the one left by the first call. *)
Theorem X12_create_brand_replaces
    (nm ind1 vc1 aud1 : str) (pillars1 : list str) (freq1 : Z)
    (ind2 vc2 aud2 : str) (pillars2 : list str) (freq2 : Z) (w : world) :
  exists brand1 w1 brand2 w2,
    ContentForge.create_brand nm ind1 vc1 aud1 pillars1 freq1 w = (Return brand1, w1)
    /\ ContentForge.create_brand nm ind2 vc2 aud2 pillars2 freq2 w1 = (Return brand2, w2)
    /\ brands (self w2) = <[nm := brand2]> (brands (self w))
    /\ brands (self w2) !! nm = Some brand2
    /\ voice brand2 = vc2 /\ content_pillars brand2 = pillars2
    /\ dom (brands (self w2)) = dom (brands (self w1)).
Proof.
  destruct (create_brand_returns nm ind1 vc1 aud1 pillars1 freq1 w)
    as (c1 & w1 & E1 & _ & Hb1 & _).
  destruct (create_brand_returns nm ind2 vc2 aud2 pillars2 freq2 w1)
    as (c2 & w2 & E2 & _ & Hb2 & _).
  eexists _, w1, _, w2. split; [exact E1|]. split; [exact E2|].
  split; [rewrite Hb2, Hb1; apply insert_insert_eq|].
  split; [rewrite Hb2; apply lookup_insert_eq|].
  split; [reflexivity|]. split; [reflexivity|].
  rewrite Hb2. apply dom_insert_lookup_L. rewrite Hb1, lookup_insert_eq. eauto.
Qed.

(** ** Exporting *)

(** X13: a single post has one slide, with neither text nor title, so its
    export in the slides format is the placeholder "Slide 1" under the heading
    "Slide 1:", whatever the brand, topic and post type. *)
Theorem X13_export_single_post_slides
    (P : Platform) (json_dumps str_content : ContentPiece -> str)
    (brand_name : str) (brand : BrandProfile) (topic post_type : str) (w : world) :
  brands (self w) !! brand_name = Some brand ->
  exists content w',
    ContentForge.generate_single_post P ContentForge.class brand_name topic post_type w
      = (Return content, w')
    /\ Exporting.export_content json_dumps str_content content (py "slides")
       = py "Slide 1:" ++ ContentForge.nl ++ py "Slide 1".
Proof.
  intros Hbrand.
  destruct (generate_single_post_total (fun this => this = self w) P brand_name brand
              topic post_type
              (fun this E => eq_ind_r (fun f => brands f !! brand_name = Some brand) Hbrand E)
              w eq_refl)
    as (content & w' & E & _ & _ & _ & Hslides & _).
  exists content, w'. split; [exact E|].
  unfold Exporting.export_content. rewrite Hslides.
  vm_compute. reflexivity.
Qed.

Lemma X13_export_single_post_slides_witness :
  brands (self (Spec.brandx_world [])) !! py "BrandX" = Some Spec.brandx
  /\ exists content w',
       ContentForge.generate_single_post AsciiOnly.platform ContentForge.class
         (py "BrandX") (py "nutrition") (py "educational") (Spec.brandx_world [])
         = (Return content, w')
       /\ Exporting.export_content (fun _ => []) (fun _ => []) content (py "slides")
          = py "Slide 1:" ++ ContentForge.nl ++ py "Slide 1".
Proof.
  assert (H : brands (self (Spec.brandx_world [])) !! py "BrandX" = Some Spec.brandx)
    by (vm_compute; reflexivity).
  split; [exact H|].
  apply (X13_export_single_post_slides AsciiOnly.platform (fun _ => []) (fun _ => [])
           (py "BrandX") Spec.brandx (py "nutrition") (py "educational")
           (Spec.brandx_world []) H).
Defined.

(** ** The hashtag routes *)

Lemma getattr_generate_hashtags :
  ContentForge.getattr (py "generate_hashtags")
  = raise (AttributeError
             (py "'ContentForge' object has no attribute 'generate_hashtags'")).
Proof. vm_compute. reflexivity. Qed.

Lemma range_nonpositive (n : Z) : n <= 0 -> ContentForge.range n = [].
Proof.
  intros H. unfold ContentForge.range. replace (Z.to_nat n) with 0%nat by lia. reflexivity.
Qed.

Lemma range_positive (n : Z) :
  1 <= n -> ContentForge.range n = 0%nat :: seq 1 (Z.to_nat n - 1).
Proof.
  intros H. unfold ContentForge.range.
  replace (Z.to_nat n) with (S (Z.to_nat n - 1)) at 1 by lia. reflexivity.
Qed.

(** X14: the hashtag route of either file calls the forge once per requested
    set, and the method it calls, [generate_hashtags], is not an attribute of
    [ContentForge]. So for an object body whose num_sets is an integer n (3 when
    absent): n <= 0 gives status 200 with an empty list of sets, the forge never
    being called; n >= 1 gives status 500 with the attribute error. *)
Theorem X14_hashtag_route_by_num_sets
    (P : Platform) (absent : Absent) (members : list (str * Json.value))
    (n : Z) (w : world) :
  dict_get_default members (py "num_sets") (Json.Int 3) = Json.Int n ->
  (n <= 0 ->
   AppHashtags.generate_hashtags P absent (GetJsonReturns (Json.Obj members)) w
   = (Return (HashtagSetsOk [], 200), w)
   /\ ServerHashtags.generate_hashtags_route P absent (GetJsonReturns (Json.Obj members)) w
     = (Return (HashtagSetsOk [], 200), w))
  /\ (1 <= n ->
     AppHashtags.generate_hashtags P absent (GetJsonReturns (Json.Obj members)) w
     = (Return (HashtagsFailure
          (py "'ContentForge' object has no attribute 'generate_hashtags'"), 500), w)
     /\ ServerHashtags.generate_hashtags_route P absent
          (GetJsonReturns (Json.Obj members)) w
       = (Return (HashtagsFailure
            (py "'ContentForge' object has no attribute 'generate_hashtags'"), 500), w)).
Proof.
  intros Hn.
  unfold AppHashtags.generate_hashtags, ServerHashtags.generate_hashtags_route.
  cbv beta iota delta [try_except bind get_json Json.get ret Json.int].
  rewrite Hn. cbv beta iota.
  split; intros H.
  - rewrite (range_nonpositive n H).
    cbn [AppHashtags.hashtag_sets_loop ServerHashtags.hashtag_sets_loop].
    split; reflexivity.
  - rewrite (range_positive n H).
    cbn [AppHashtags.hashtag_sets_loop ServerHashtags.hashtag_sets_loop].
    rewrite getattr_generate_hashtags. split; reflexivity.
Qed.

Lemma X14_hashtag_route_by_num_sets_witness :
  (dict_get_default [(py "topic", Json.Str (py "yoga")); (py "num_sets", Json.Int 0)]
     (py "num_sets") (Json.Int 3) = Json.Int 0
   /\ 0 <= 0
   /\ AppHashtags.generate_hashtags AsciiOnly.platform Spec.no_absent
        (GetJsonReturns
           (Json.Obj [(py "topic", Json.Str (py "yoga")); (py "num_sets", Json.Int 0)]))
        (Spec.fresh [])
      = (Return (HashtagSetsOk [], 200), Spec.fresh [])
   /\ ServerHashtags.generate_hashtags_route AsciiOnly.platform Spec.no_absent
        (GetJsonReturns
           (Json.Obj [(py "topic", Json.Str (py "yoga")); (py "num_sets", Json.Int 0)]))
        (Spec.fresh [])
      = (Return (HashtagSetsOk [], 200), Spec.fresh []))
  /\ (dict_get_default [(py "topic", Json.Str (py "yoga"))]
        (py "num_sets") (Json.Int 3) = Json.Int 3
      /\ 1 <= 3
      /\ AppHashtags.generate_hashtags AsciiOnly.platform Spec.no_absent
           (GetJsonReturns (Json.Obj [(py "topic", Json.Str (py "yoga"))]))
           (Spec.fresh [])
         = (Return (HashtagsFailure
              (py "'ContentForge' object has no attribute 'generate_hashtags'"), 500),
            Spec.fresh [])
      /\ ServerHashtags.generate_hashtags_route AsciiOnly.platform Spec.no_absent
           (GetJsonReturns (Json.Obj [(py "topic", Json.Str (py "yoga"))]))
           (Spec.fresh [])
         = (Return (HashtagsFailure
              (py "'ContentForge' object has no attribute 'generate_hashtags'"), 500),
            Spec.fresh [])).
Proof.
  assert (H1 : dict_get_default
                 [(py "topic", Json.Str (py "yoga")); (py "num_sets", Json.Int 0)]
                 (py "num_sets") (Json.Int 3) = Json.Int 0) by (vm_compute; reflexivity).
  assert (H2 : 0 <= 0) by lia.
  assert (H3 : dict_get_default [(py "topic", Json.Str (py "yoga"))]
                 (py "num_sets") (Json.Int 3) = Json.Int 3) by (vm_compute; reflexivity).
  assert (H4 : 1 <= 3) by lia.
  split.
  - split; [exact H1|]. split; [exact H2|].
    apply (proj1 (X14_hashtag_route_by_num_sets AsciiOnly.platform Spec.no_absent _ 0
                    (Spec.fresh []) H1) H2).
  - split; [exact H3|]. split; [exact H4|].
    apply (proj2 (X14_hashtag_route_by_num_sets AsciiOnly.platform Spec.no_absent _ 3
                    (Spec.fresh []) H3) H4).
Defined.

(** ** The call to action *)

Lemma no_lbrace_spec (s : str) : Spec2.no_lbrace s = true -> Format.lbrace ∉ s.
Proof.
  unfold Spec2.no_lbrace. rewrite forallb_forall. intros H Hin.
  apply list_elem_of_In, H in Hin. vm_compute in Hin. discriminate.
Qed.

Lemma replace_from_none (o new s : str) :
  Format.lbrace ∉ s -> replace_from (Format.lbrace :: o) new 0 s = s.
Proof.
  induction s as [|c s IH]; [reflexivity|]. intros H.
  apply not_elem_of_cons in H as [Hc Hs]. cbn [replace_from startswith].
  destruct (char_eqb Format.lbrace c) eqn:E.
  - apply char_eqb_eq in E. congruence.
  - cbn [andb]. rewrite (IH Hs). reflexivity.
Qed.

Lemma replace_from_skip (old new : str) (k : nat) (a b : str) :
  k = length a ->
  replace_from old new k (a ++ b) = replace_from old new 0 b.
Proof.
  intros ->. induction a as [|c a IH]; [reflexivity|].
  cbn [length app replace_from]. exact IH.
Qed.

Lemma startswith_app (p s : str) : startswith p (p ++ s) = true.
Proof.
  induction p as [|c p IH]; [reflexivity|]. cbn [app startswith].
  rewrite IH, andb_true_r. apply char_eqb_eq. reflexivity.
Qed.

Lemma replace_none (old o new s : str) :
  old = Format.lbrace :: o -> Format.lbrace ∉ s -> replace old new s = s.
Proof. intros -> H. unfold replace. apply replace_from_none, H. Qed.

Lemma replace_one (old o new a b : str) :
  old = Format.lbrace :: o -> Format.lbrace ∉ a -> Format.lbrace ∉ b ->
  replace old new (a ++ old ++ b) = a ++ new ++ b.
Proof.
  intros -> Ha Hb. unfold replace.
  induction a as [|c a IH].
  - pose proof (startswith_app (Format.lbrace :: o) b) as Hs.
    cbn [app] in *. cbn [replace_from]. rewrite Hs.
    rewrite (replace_from_skip _ _ _ o b) by (cbn [length]; lia).
    rewrite replace_from_none by exact Hb.
    reflexivity.
  - apply not_elem_of_cons in Ha as [Hc Ha]. rewrite <- (app_comm_cons a).
    cbn [replace_from startswith].
    destruct (char_eqb Format.lbrace c) eqn:E.
    + apply char_eqb_eq in E. congruence.
    + cbn [andb]. rewrite (IH Ha). reflexivity.
Qed.

(** A literal, or a concatenation of literals and strings known to be without
    opening brace, has no opening brace. *)
Ltac no_lbrace :=
  repeat (rewrite not_elem_of_app; split);
  first [ assumption | apply no_lbrace_spec; vm_compute; reflexivity ].

(** X15: for a topic without opening brace, whose first five characters in
    upper case have none either, the call to action is one of the ten of the
    class with its placeholder filled in: {topic} by the topic, {keyword} by
    the first five characters of the topic in upper case, {problem} by the
    topic followed by " struggles". The forge is left as it was. *)
Theorem X15_select_cta_forms (P : Platform) (topic : str) (w : world) :
  Format.lbrace ∉ topic ->
  Format.lbrace ∉ str_upper P (slice_to 5 topic) ->
  exists cta w',
    ContentForge._select_cta P ContentForge.class topic w = (Return cta, w')
    /\ self w' = self w
    /\ cta ∈ Spec2.cta_forms P topic.
Proof.
  intros Htopic Hkw. unfold ContentForge._select_cta.
  destruct (total_choice (fun _ => True) (ContentForge.CTAS ContentForge.class)
              ltac:(discriminate) w Logic.I) as (cta & w' & E & Hs & Hin).
  unfold bind. rewrite E. eexists _, w'. split; [reflexivity|]. split; [exact Hs|].
  set (kw := str_upper P (slice_to 5 topic)) in *.
  assert (Ht : py "{topic}" = Format.lbrace :: py "topic}") by reflexivity.
  assert (Hk : py "{keyword}" = Format.lbrace :: py "keyword}") by reflexivity.
  assert (Hp : py "{problem}" = Format.lbrace :: py "problem}") by reflexivity.
  cbn beta in Hin. apply list_elem_of_In in Hin.
  unfold ContentForge.class, ContentForge.CTAS_literal in Hin.
  cbn [ContentForge.CTAS In] in Hin.
  unfold Spec2.cta_forms. fold kw. apply list_elem_of_In. cbn [In].
  destruct Hin as [<-|[<-|[<-|[<-|[<-|[<-|[<-|[<-|[<-|[<-|[]]]]]]]]]]].
  - rewrite (replace_none _ _ _ _ Ht), (replace_none _ _ _ _ Hk),
      (replace_none _ _ _ _ Hp) by no_lbrace. do 0 right. left. reflexivity.
  - rewrite (replace_none _ _ _ _ Ht), (replace_none _ _ _ _ Hk),
      (replace_none _ _ _ _ Hp) by no_lbrace. do 1 right. left. reflexivity.
  - rewrite (replace_none _ _ _ _ Ht), (replace_none _ _ _ _ Hk),
      (replace_none _ _ _ _ Hp) by no_lbrace. do 2 right. left. reflexivity.
  - rewrite (replace_none _ _ _ _ Ht), (replace_none _ _ _ _ Hk),
      (replace_none _ _ _ _ Hp) by no_lbrace. do 3 right. left. reflexivity.
  - replace (replace (py "{topic}") topic (py "Comment '{keyword}' for the full guide"))
      with (py "Comment '" ++ py "{keyword}" ++ py "' for the full guide")
      by (vm_compute; reflexivity).
    rewrite (replace_one _ _ _ _ _ Hk) by no_lbrace.
    rewrite (replace_none _ _ _ _ Hp) by no_lbrace. do 4 right. left. reflexivity.
  - rewrite (replace_none _ _ _ _ Ht), (replace_none _ _ _ _ Hk),
      (replace_none _ _ _ _ Hp) by no_lbrace. do 5 right. left. reflexivity.
  - replace (py "Follow for daily {topic} tips")
      with (py "Follow for daily " ++ py "{topic}" ++ py " tips")
      by (vm_compute; reflexivity).
    rewrite (replace_one _ _ _ _ _ Ht) by no_lbrace.
    rewrite (replace_none _ _ _ _ Hk), (replace_none _ _ _ _ Hp) by no_lbrace. do 6 right. left. reflexivity.
  - replace (replace (py "{keyword}") kw
               (replace (py "{topic}") topic
                  (py "Tag someone who's struggling with {problem}")))
      with (py "Tag someone who's struggling with " ++ py "{problem}" ++ [])
      by (vm_compute; reflexivity).
    rewrite (replace_one _ _ _ _ _ Hp) by (first [no_lbrace | apply not_elem_of_nil]).
    rewrite app_nil_r. do 7 right. left. reflexivity.
  - rewrite (replace_none _ _ _ _ Ht), (replace_none _ _ _ _ Hk),
      (replace_none _ _ _ _ Hp) by no_lbrace. do 8 right. left. reflexivity.
  - replace (py "What's your biggest {topic} challenge? Tell me below 👇")
      with (py "What's your biggest " ++ py "{topic}"
            ++ py " challenge? Tell me below 👇")
      by (vm_compute; reflexivity).
    rewrite (replace_one _ _ _ _ _ Ht) by no_lbrace.
    rewrite (replace_none _ _ _ _ Hk), (replace_none _ _ _ _ Hp) by no_lbrace. do 9 right. left. reflexivity.
Qed.

Lemma X15_select_cta_forms_witness :
  (Format.lbrace ∉ py "email marketing")
  /\ (Format.lbrace ∉ str_upper AsciiOnly.platform (slice_to 5 (py "email marketing")))
  /\ exists cta w',
       ContentForge._select_cta AsciiOnly.platform ContentForge.class
         (py "email marketing") (Spec.fresh [4%nat]) = (Return cta, w')
       /\ self w' = self (Spec.fresh [4%nat])
       /\ cta ∈ Spec2.cta_forms AsciiOnly.platform (py "email marketing").
Proof.
  assert (H1 : Format.lbrace ∉ py "email marketing")
    by (apply no_lbrace_spec; vm_compute; reflexivity).
  assert (H2 : Format.lbrace ∉ str_upper AsciiOnly.platform
                                  (slice_to 5 (py "email marketing")))
    by (apply no_lbrace_spec; vm_compute; reflexivity).
  split; [exact H1|]. split; [exact H2|].
  apply (X15_select_cta_forms AsciiOnly.platform (py "email marketing")
           (Spec.fresh [4%nat]) H1 H2).
Defined.

(** ** Unknown keys *)

(** X16: a key the class does not have behaves as the fallback key, for every
    class and in every world: an industry without hooks gets the hooks of
    'general', an industry without hashtag bank the hashtags of 'general', and
    a template type that is not defined the carousel of 'tips'. *)
Theorem X16_unknown_keys_fall_back
    (P : Platform) (cls : ContentForge.Class)
    (industry template_type brand_name topic : str) (num_slides : Z) (w : world) :
  (dict_get (ContentForge.HOOKS cls) industry = None ->
   ContentForge._generate_hook P cls industry topic w
   = ContentForge._generate_hook P cls (py "general") topic w)
  /\ (dict_get (ContentForge.HASHTAGS cls) industry = None ->
     ContentForge._generate_hashtags P cls industry topic w
     = ContentForge._generate_hashtags P cls (py "general") topic w)
  /\ (dict_get (ContentForge.CAROUSEL_TEMPLATES cls) template_type = None ->
     ContentForge.generate_carousel P cls brand_name topic template_type num_slides w
     = ContentForge.generate_carousel P cls brand_name topic (py "tips") num_slides w).
Proof.
  split; [|split]; intros H.
  - cbv beta iota delta [ContentForge._generate_hook ContentForge.getitem bind ret].
    destruct (dict_get (ContentForge.HOOKS cls) (py "general")) as [general|] eqn:Hg;
      [|reflexivity].
    unfold dict_get_default. rewrite H. cbv beta iota.
    cbn [dict_get]. rewrite Hg. reflexivity.
  - cbv beta iota delta [ContentForge._generate_hashtags ContentForge.getitem bind ret].
    destruct (dict_get (ContentForge.HASHTAGS cls) (py "general")) as [general|] eqn:Hg;
      [|reflexivity].
    unfold dict_get_default. rewrite H. cbv beta iota.
    cbn [dict_get]. rewrite Hg. reflexivity.
  - cbv beta iota delta [ContentForge.generate_carousel ContentForge.getitem bind ret
                         get_self].
    destruct (brands (self w) !! brand_name) as [brand|]; [|reflexivity].
    destruct (dict_get (ContentForge.CAROUSEL_TEMPLATES cls) (py "tips")) as [tips|] eqn:Ht;
      [|reflexivity].
    unfold dict_get_default. rewrite H. cbv beta iota.
    cbn [dict_get]. rewrite Ht. reflexivity.
Qed.

Lemma X16_unknown_keys_fall_back_witness :
  dict_get (ContentForge.HOOKS ContentForge.class) (py "marketing") = None
  /\ dict_get (ContentForge.HASHTAGS ContentForge.class) (py "travel") = None
  /\ dict_get (ContentForge.CAROUSEL_TEMPLATES ContentForge.class) (py "guide") = None
  /\ ContentForge._generate_hook AsciiOnly.platform ContentForge.class
       (py "marketing") (py "email") (Spec.brandx_world [3%nat])
     = ContentForge._generate_hook AsciiOnly.platform ContentForge.class
         (py "general") (py "email") (Spec.brandx_world [3%nat])
  /\ ContentForge._generate_hashtags AsciiOnly.platform ContentForge.class
       (py "travel") (py "email") (Spec.brandx_world [3%nat])
     = ContentForge._generate_hashtags AsciiOnly.platform ContentForge.class
         (py "general") (py "email") (Spec.brandx_world [3%nat])
  /\ ContentForge.generate_carousel AsciiOnly.platform ContentForge.class
       (py "BrandX") (py "email") (py "guide") 7 (Spec.brandx_world [3%nat])
     = ContentForge.generate_carousel AsciiOnly.platform ContentForge.class
         (py "BrandX") (py "email") (py "tips") 7 (Spec.brandx_world [3%nat]).
Proof.
  assert (H1 : dict_get (ContentForge.HOOKS ContentForge.class) (py "marketing") = None)
    by (vm_compute; reflexivity).
  assert (H2 : dict_get (ContentForge.HASHTAGS ContentForge.class) (py "travel") = None)
    by (vm_compute; reflexivity).
  assert (H3 : dict_get (ContentForge.CAROUSEL_TEMPLATES ContentForge.class) (py "guide")
               = None) by (vm_compute; reflexivity).
  split; [exact H1|]. split; [exact H2|]. split; [exact H3|].
  pose proof (X16_unknown_keys_fall_back AsciiOnly.platform ContentForge.class
                (py "marketing") (py "guide") (py "BrandX") (py "email") 7
                (Spec.brandx_world [3%nat])) as [Ha _].
  pose proof (X16_unknown_keys_fall_back AsciiOnly.platform ContentForge.class
                (py "travel") (py "guide") (py "BrandX") (py "email") 7
                (Spec.brandx_world [3%nat])) as (_ & Hb & Hc).
  split; [exact (Ha H1)|]. split; [exact (Hb H2) | exact (Hc H3)].
Defined.
